(** * Engagement scoring of engaged-papers (lib/scoring.ts)

    A shallow embedding of the scoring module of the repository: the
    min-max [normalize] helper, the cascade scorer [computeEngagementScore]
    and the batch recomputation [computeEngagementScoresForDate].

    Conventions of the embedding.
    - A finite JavaScript [number] is a rational ([Q]); citation counts and
      epoch timestamps, which the database stores as integers, are [Z].
      Rounding of IEEE doubles is not modelled.
    - Every operation of the source that can leave the finite numbers is
      fallible: a division ([Js.div], zero divisor) and [Math.min] /
      [Math.max] over an empty argument list ([Js.Math_min],
      [Js.Math_max]) return [None] where JavaScript would produce NaN or
      an infinity.
      The scorer therefore lives in the option monad, and [Some s] means
      "returned the finite number s".
    - [new Date()] is an input of the scorer (the clock reading [now], in
      milliseconds since the epoch); the local time zone used by
      [getHours] / [getMinutes] is a section variable. *)

From Stdlib Require Import ZArith QArith Qminmax List Bool String Lia Lqa.
From Stdlib Require Import Ascii Permutation Qround.
Import ListNotations.

Local Open Scope Q_scope.

(** ** Finite numbers and the option monad *)

Module Js.

Definition bind {A B : Type} (c : option A) (k : A -> option B) : option B :=
  match c with
  | Some a => k a
  | None => None
  end.

(** [a > b] and [a === b] on finite numbers. *)
Definition gt (a b : Q) : bool := negb (Qle_bool a b).
Definition strict_eq (a b : Q) : bool := Qeq_bool a b.

(** [a / b]: JavaScript yields NaN or an infinity on a zero divisor. *)
Definition div (a b : Q) : option Q :=
  if Qeq_bool b 0 then None else Some (a / b).

(** [Math.max(...l)] and [Math.min(...l)]; empty spread gives an infinity. *)
Fixpoint Math_max (l : list Q) : option Q :=
  match l with
  | [] => None
  | x :: l' =>
      match Math_max l' with
      | None => Some x
      | Some y => Some (Qmax x y)
      end
  end.

Fixpoint Math_min (l : list Q) : option Q :=
  match l with
  | [] => None
  | x :: l' =>
      match Math_min l' with
      | None => Some x
      | Some y => Some (Qmin x y)
      end
  end.

End Js.

Declare Scope js_scope.
Delimit Scope js_scope with js.
Notation "x <- c ;; k" := (Js.bind c (fun x => k))
  (at level 61, c at next level, right associativity) : js_scope.
Notation "' ( x , y ) <- c ;; k" := (Js.bind c (fun '(x, y) => k))
  (at level 61, x name, y name, c at next level, right associativity) : js_scope.
Local Open Scope js_scope.

(** ** normalize (scoring.ts)

<<
function normalize(value, min, max) {
  if (max === 0 || max === min) { return 0; }
  return (value - min) / (max - min);
}
>> *)
Definition normalize (value min max : Q) : option Q :=
  if Js.strict_eq max 0 || Js.strict_eq max min then Some 0
  else Js.div (value - min) (max - min).

(** ** Data model

    A row of [paper_metrics] as the scorer sees it: the [PaperMetric]
    interface of lib/supabase.ts, plus the [published_at] that
    [computeEngagementScoresForDate] attaches to each row before scoring
    (the scorer reads it through [m as any]).  [published_at] is [None]
    for a falsy value (null, undefined or the empty string) and [Some t]
    for a date string, [t] being the epoch milliseconds that
    [new Date(s).getTime()] yields for it. *)

Definition Date := Z.

Record PaperMetric := mkPaperMetric {
  id : Z;
  paper_id : string;
  snapshot_date : string;
  downloads_total : Z;
  downloads_7d : Z;
  github_repo_count : Z;
  engagement_score : Q;
  published_at : option Date
}.

Definition getTime (d : Date) : Q := inject_Z d.

(** [arr.findIndex(p)]: the first position satisfying [p], or -1. *)
Fixpoint findIndex {A : Type} (p : A -> bool) (l : list A) : Z :=
  match l with
  | [] => (-1)%Z
  | x :: l' =>
      if p x then 0%Z
      else let i := findIndex p l' in
           if (i <? 0)%Z then (-1)%Z else (i + 1)%Z
  end.

(** [arr.length] as a number. *)
Definition length_num {A : Type} (l : list A) : Q :=
  inject_Z (Z.of_nat (List.length l)).

Fixpoint mapM {A B : Type} (f : A -> option B) (l : list A) : option (list B) :=
  match l with
  | [] => Some []
  | x :: l' =>
      y <- f x ;;
      ys <- mapM f l' ;;
      Some (y :: ys)
  end.

(** ** The cascade scorer *)

Section Scorer.

(** Offset of local time from UTC, in milliseconds, at a given instant. *)
Variable tzOffset : Date -> Z.

Definition getHours (d : Date) : Q :=
  inject_Z (((d + tzOffset d) / 3600000) mod 24).

Definition getMinutes (d : Date) : Q :=
  inject_Z (((d + tzOffset d) / 60000) mod 60).

(** [d.getHours() + d.getMinutes() / 60] *)
Definition hourOfDay (d : Date) : option Q :=
  mq <- Js.div (getMinutes d) 60 ;;
  Some (getHours d + mq).

(** [1 / (1 + hoursSincePublished / 24)] with
    [hoursSincePublished = Math.max(0, (now - t) / (1000 * 60 * 60))]. *)
Definition recencyOf (now publishedDate : Date) : option Q :=
  h <- Js.div (getTime now - getTime publishedDate) (1000 * 60 * 60) ;;
  hoursSincePublished <- Js.Math_max [0; h] ;;
  d <- Js.div hoursSincePublished 24 ;;
  Js.div 1 (1 + d).

(** One iteration of [for (const m of allMetrics)]: the date pushed on
    [publishedDates] and the weight pushed on [recencyScores]. *)
Definition recencyStep (now : Date) (m : PaperMetric) : option (Q * Date) :=
  match published_at m with
  | Some publishedDate =>
      dd <- Js.div (getTime now - getTime publishedDate) (1000 * 60 * 60 * 24) ;;
      daysSincePublished <- Js.Math_max [0; dd] ;;
      recencyScore <- recencyOf now publishedDate ;;
      Some (recencyScore, publishedDate)
  | None => Some (0, 0%Z)
  end.

Fixpoint recencyLoop (now : Date) (allMetrics : list PaperMetric)
  : option (list Q * list Date) :=
  match allMetrics with
  | [] => Some ([], [])
  | m :: rest =>
      ' (r, d) <- recencyStep now m ;;
      ' (recencyScores, publishedDates) <- recencyLoop now rest ;;
      Some (r :: recencyScores, d :: publishedDates)
  end.

Definition sameDownloads (downloads7d : Z) (m : PaperMetric) : bool :=
  (downloads_7d m =? downloads7d)%Z.

(** The positional rule, written twice in the source:
<<
const paperIndex = allMetrics.findIndex(m => m.downloads_7d === downloads7d);
if (paperIndex >= 0 && allMetrics.length > 1) {
  return 1 - (paperIndex / (allMetrics.length - 1));
}
>>
    [None] of the outer option is a non-finite number; the inner option
    is [None] when the [if] is not taken and control falls through. *)
Definition indexRule (downloads7d : Z) (allMetrics : list PaperMetric)
  : option (option Q) :=
  let paperIndex := findIndex (sameDownloads downloads7d) allMetrics in
  if (0 <=? paperIndex)%Z && Js.gt (length_num allMetrics) 1 then
    q <- Js.div (inject_Z paperIndex) (length_num allMetrics - 1) ;;
    Some (Some (1 - q))
  else Some None.

(** Lines 193-199: the final positional fallback and the default 0. *)
Definition finalFallback (downloads7d : Z) (allMetrics : list PaperMetric)
  : option Q :=
  r <- indexRule downloads7d allMetrics ;;
  match r with
  | Some s => Some s
  | None => Some 0
  end.

(** Lines 163-191: [Some (Some s)] when a [return s] is reached inside the
    block, [Some None] when control leaves the block without returning. *)
Definition recencyBlock (now : Date) (downloads7d : Z)
  (allMetrics : list PaperMetric)
  (recencyScores : list Q) (publishedDates : list Date)
  : option (option Q) :=
  enter <- (if (0 <? List.length recencyScores)%nat
            then mx <- Js.Math_max recencyScores ;; Some (Js.gt mx 0)
            else Some false) ;;
  if enter then
    match find (sameDownloads downloads7d) allMetrics with
    | Some currentMetric =>
        match published_at currentMetric with
        | Some currentPublishedDate =>
            currentRecency <- recencyOf now currentPublishedDate ;;
            minRecency <- Js.Math_min recencyScores ;;
            maxRecency <- Js.Math_max recencyScores ;;
            if Js.gt maxRecency minRecency then
              s <- normalize currentRecency minRecency maxRecency ;;
              Some (Some s)
            else if Js.gt maxRecency 0 then
              currentHours <- hourOfDay currentPublishedDate ;;
              allHours <- mapM hourOfDay publishedDates ;;
              minHours <- Js.Math_min allHours ;;
              maxHours <- Js.Math_max allHours ;;
              if Js.gt maxHours minHours then
                s <- normalize currentHours minHours maxHours ;;
                Some (Some s)
              else indexRule downloads7d allMetrics
            else Some None
        | None => Some None
        end
    | None => Some None
    end
  else Some None.

(** [computeEngagementScore] of scoring.ts; [now] is the value of
    [new Date()] read at line 142. *)
Definition computeEngagementScore (now : Date) (downloads7d : Z)
  (githubRepoCount : Z) (allMetrics : list PaperMetric)
  (publishedAt : option Date) : option Q :=
  let downloads7dCounts := map (fun m => inject_Z (downloads_7d m)) allMetrics in
  minDownloads <- Js.Math_min (downloads7dCounts ++ [0]) ;;
  maxDownloads <- Js.Math_max (downloads7dCounts ++ [0]) ;;
  if Js.gt maxDownloads 0 then
    normalize (inject_Z downloads7d) minDownloads maxDownloads
  else
    ' (recencyScores, publishedDates) <- recencyLoop now allMetrics ;;
    r <- recencyBlock now downloads7d allMetrics recencyScores publishedDates ;;
    match r with
    | Some s => Some s
    | None => finalFallback downloads7d allMetrics
    end.

(** The score the batch recomputation asks for a row of the batch. *)
Definition scoreOf (now : Date) (allMetrics : list PaperMetric)
  (metric : PaperMetric) : option Q :=
  computeEngagementScore now (downloads_7d metric) (github_repo_count metric)
    allMetrics (published_at metric).

End Scorer.

(** ** Batch recomputation: computeEngagementScoresForDate

    The database client is the only collaborator.  Each of its calls takes
    the state of the world behind it (the metric store, the network) and
    returns the [{ data, error }] response together with the next state.
    What the function does to its collaborators is recorded as a list of
    events, in program order. *)

Record Response (A : Type) := mkResponse {
  data : option A;
  error : option string  (* error.message *)
}.
Arguments mkResponse {A} _ _.
Arguments data {A} _.
Arguments error {A} _.

(** A row of [papers] restricted to [select('id, published_at')]. *)
Record PaperRow := mkPaperRow {
  row_id : string;
  row_published_at : option Date
}.

(** [{ id: metric.id, engagement_score: score }] *)
Record Update := mkUpdate {
  update_id : Z;
  update_engagement_score : Q
}.

Inductive Event :=
| UpdateCall (u : Update) (updateError : option string)
    (* supabase.from('paper_metrics').update({...}).eq('id', u.id) *)
| ConsoleError (metricId : Z) (updateError : string).
    (* console.error(`Failed to update score for metric ${id}:`, err) *)

Inductive Outcome :=
| Resolved                      (* the promise resolves *)
| Rejected (message : string).  (* throw new Error(message) *)

(** [paperDateMap.get(k)] after the [set] calls of the loop, in order:
    a later [set] of the same key replaces an earlier one. *)
Fixpoint mapGet (k : string) (entries : list PaperRow) : option (option Date) :=
  match entries with
  | [] => None
  | p :: rest =>
      match mapGet k rest with
      | Some v => Some v
      | None => if String.eqb (row_id p) k then Some (row_published_at p) else None
      end
  end.

(** [{ ...m, published_at: paperDateMap.get(m.paper_id) || null }] *)
Definition attachDate (paperDateMap : list PaperRow) (m : PaperMetric)
  : PaperMetric :=
  mkPaperMetric (id m) (paper_id m) (snapshot_date m) (downloads_total m)
    (downloads_7d m) (github_repo_count m) (engagement_score m)
    (match mapGet (paper_id m) paperDateMap with
     | Some (Some t) => Some t
     | _ => None
     end).

(** The comparator handed to [metricsWithDates.sort]. *)
Definition byPublishedDesc (a b : PaperMetric) : Q :=
  match published_at a, published_at b with
  | Some ta, Some tb => getTime tb - getTime ta
  | _, _ => 0
  end.

Section Recompute.

Variable tzOffset : Date -> Z.

(** State of the world behind the database client. *)
Variable World : Type.

Variable selectMetrics :
  string -> World -> Response (list PaperMetric) * World.
Variable selectPapers :
  list string -> World -> Response (list PaperRow) * World.
Variable updateScore : Update -> World -> option string * World.

(** [Array.prototype.sort] of the engine, given the comparator. *)
Variable arraySort :
  (PaperMetric -> PaperMetric -> Q) -> list PaperMetric -> list PaperMetric.

(** The reading of [new Date()] inside the i-th call of the scorer. *)
Variable clock : nat -> Date.

(** Lines 261-272: [metricsWithDates.map(metric => ...)], [i] counting the
    calls made so far. *)
Fixpoint computeUpdates (i : nat) (metricsWithDates todo : list PaperMetric)
  : option (list Update) :=
  match todo with
  | [] => Some []
  | metric :: rest =>
      score <- scoreOf tzOffset (clock i) metricsWithDates metric ;;
      us <- computeUpdates (S i) metricsWithDates rest ;;
      Some (mkUpdate (id metric) score :: us)
  end.

(** Lines 275-284: the update loop. *)
Fixpoint writeUpdates (updates : list Update) (w : World)
  : list Event * World :=
  match updates with
  | [] => ([], w)
  | update :: rest =>
      let (updateError, w1) := updateScore update w in
      let (events, w2) := writeUpdates rest w1 in
      match updateError with
      | Some e =>
          (UpdateCall update updateError
             :: ConsoleError (update_id update) e :: events, w2)
      | None => (UpdateCall update updateError :: events, w2)
      end
  end.

Definition isEmpty {A : Type} (d : option (list A)) : bool :=
  match d with
  | None | Some [] => true
  | Some (_ :: _) => false
  end.

Definition orEmpty {A : Type} (d : option (list A)) : list A :=
  match d with
  | Some l => l
  | None => []
  end.

(** [computeEngagementScoresForDate(snapshotDate)]: how the promise
    settles, the events in order and the final state of the world.  The
    outer option is [None] only if a score is not a finite number.  The
    client reports a failed call in the [error] field of its response.
    The second test of [error] and of the empty batch, after the papers
    have been read, repeats the first and is never taken. *)
Definition computeEngagementScoresForDate (snapshotDate : string) (w : World)
  : option (Outcome * list Event * World) :=
  let (r1, w1) := selectMetrics snapshotDate w in
  match error r1 with
  | Some message =>
      Some (Rejected ("Failed to fetch metrics: " ++ message), [], w1)
  | None =>
      if isEmpty (data r1) then Some (Resolved, [], w1)
      else
        let metrics := orEmpty (data r1) in
        let paperIds := map paper_id metrics in
        let (r2, w2) := selectPapers paperIds w1 in
        match error r2 with
        | Some message =>
            Some (Rejected ("Failed to fetch papers: " ++ message), [], w2)
        | None =>
            let paperDateMap := orEmpty (data r2) in
            let metricsWithDates :=
              arraySort byPublishedDesc (map (attachDate paperDateMap) metrics) in
            updates <- computeUpdates 0 metricsWithDates metricsWithDates ;;
            let (events, w3) := writeUpdates updates w2 in
            Some (Resolved, events, w3)
        end
  end.

(** The updates the store was asked to apply, and the rows whose failure
    was logged, both in program order. *)
Fixpoint attempted (events : list Event) : list Update :=
  match events with
  | [] => []
  | UpdateCall u _ :: rest => u :: attempted rest
  | ConsoleError _ _ :: rest => attempted rest
  end.

Fixpoint failedIds (events : list Event) : list Z :=
  match events with
  | [] => []
  | UpdateCall u (Some _) :: rest => update_id u :: failedIds rest
  | UpdateCall _ None :: rest => failedIds rest
  | ConsoleError _ _ :: rest => failedIds rest
  end.

Fixpoint reportedIds (events : list Event) : list Z :=
  match events with
  | [] => []
  | UpdateCall _ _ :: rest => reportedIds rest
  | ConsoleError i _ :: rest => i :: reportedIds rest
  end.

End Recompute.

(** ** Other revisions of the scorer kept in the repository

    The repository holds several revisions of scoring.ts.  Two of them
    are embedded here next to the cascade above: the revision whose
    fallback is the day-based recency weight followed by the positional
    rule, and the revision that sorts the batch itself and looks the
    current row up by paper id. *)

Module DaysRecency.

(** [1 / (1 + (now - t) / (1000 * 60 * 60 * 24))]; the age is not clamped
    at 0 in this revision. *)
Definition recencyOf (now publishedDate : Date) : option Q :=
  daysSincePublished <-
    Js.div (getTime now - getTime publishedDate) (1000 * 60 * 60 * 24) ;;
  Js.div 1 (1 + daysSincePublished).

Fixpoint recencyLoop (now : Date) (allMetrics : list PaperMetric)
  : option (list Q) :=
  match allMetrics with
  | [] => Some []
  | m :: rest =>
      recencyScore <- match published_at m with
                      | Some publishedDate => recencyOf now publishedDate
                      | None => Some 0
                      end ;;
      recencyScores <- recencyLoop now rest ;;
      Some (recencyScore :: recencyScores)
  end.

Definition recencyBlock (now : Date) (downloads7d : Z)
  (allMetrics : list PaperMetric) (recencyScores : list Q)
  : option (option Q) :=
  enter <- (if (0 <? List.length recencyScores)%nat
            then mx <- Js.Math_max recencyScores ;; Some (Js.gt mx 0)
            else Some false) ;;
  if enter then
    currentRecency <-
      match find (fun m => (downloads_7d m =? downloads7d)%Z) allMetrics with
      | Some currentMetric =>
          match published_at currentMetric with
          | Some t => recencyOf now t
          | None => Some 0
          end
      | None => Some 0
      end ;;
    minRecency <- Js.Math_min recencyScores ;;
    maxRecency <- Js.Math_max recencyScores ;;
    if Js.gt maxRecency minRecency then
      s <- normalize currentRecency minRecency maxRecency ;;
      Some (Some s)
    else Some None
  else Some None.

Definition computeEngagementScore (now : Date) (downloads7d : Z)
  (githubRepoCount : Z) (allMetrics : list PaperMetric)
  (publishedAt : option Date) : option Q :=
  let downloads7dCounts := map (fun m => inject_Z (downloads_7d m)) allMetrics in
  minDownloads <- Js.Math_min (downloads7dCounts ++ [0]) ;;
  maxDownloads <- Js.Math_max (downloads7dCounts ++ [0]) ;;
  if Js.gt maxDownloads 0 then
    normalize (inject_Z downloads7d) minDownloads maxDownloads
  else
    recencyScores <- recencyLoop now allMetrics ;;
    r <- recencyBlock now downloads7d allMetrics recencyScores ;;
    match r with
    | Some s => Some s
    | None =>
        let paperIndex :=
          findIndex (fun m => (downloads_7d m =? downloads7d)%Z) allMetrics in
        if (0 <=? paperIndex)%Z && Js.gt (length_num allMetrics) 1 then
          q <- Js.div (inject_Z paperIndex) (length_num allMetrics - 1) ;;
          Some (1 - q)
        else Some 0
    end.

End DaysRecency.

Module SortedPosition.

Section WithSort.

(** [Array.prototype.sort] of the engine, given the comparator. *)
Variable arraySort :
  (PaperMetric -> PaperMetric -> Q) -> list PaperMetric -> list PaperMetric.

(** [paperId] is [None] when the optional argument is absent or empty.
    The copy [{ ...m, published_at: m.published_at || null }] of each row
    is the row itself here, a falsy [published_at] being [None] already. *)
Definition computeEngagementScore (downloads7d : Z) (githubRepoCount : Z)
  (allMetrics : list PaperMetric) (publishedAt : option Date)
  (paperId : option string) : option Q :=
  let downloads7dCounts := map (fun m => inject_Z (downloads_7d m)) allMetrics in
  minDownloads <- Js.Math_min (downloads7dCounts ++ [0]) ;;
  maxDownloads <- Js.Math_max (downloads7dCounts ++ [0]) ;;
  if Js.gt maxDownloads 0 then
    normalize (inject_Z downloads7d) minDownloads maxDownloads
  else
    let metricsWithDates := arraySort byPublishedDesc allMetrics in
    let paperIndex :=
      match paperId with
      | Some pid =>
          findIndex (fun m => String.eqb (paper_id m) pid) metricsWithDates
      | None =>
          findIndex (fun m => (downloads_7d m =? downloads7d)%Z) metricsWithDates
      end in
    if (0 <=? paperIndex)%Z && Js.gt (length_num metricsWithDates) 1 then
      q <- Js.div (inject_Z paperIndex) (length_num metricsWithDates - 1) ;;
      Some ((1 # 10) + (9 # 10) * (1 - q))
    else Some 0.

End WithSort.

End SortedPosition.

(** ** Vocabulary of the statements *)

(** The closed unit interval. *)
Definition unitInterval (s : Q) : Prop := 0 <= s <= 1.

(** Result of a block that either returns a score or falls through. *)
Definition unitOrFallThrough (r : option Q) : Prop :=
  match r with
  | Some s => unitInterval s
  | None => True
  end.

(** The recency weight of a paper published at [t], in closed form. *)
Definition weight (now t : Date) : Q :=
  1 / (1 + Qmax 0 ((getTime now - getTime t) / (1000 * 60 * 60)) / 24).

(** The row [m] with its [github_repo_count] replaced. *)
Definition withRepoCount (repoCount : PaperMetric -> Z) (m : PaperMetric)
  : PaperMetric :=
  mkPaperMetric (id m) (paper_id m) (snapshot_date m) (downloads_total m)
    (downloads_7d m) (repoCount m) (engagement_score m) (published_at m).

(** The citation counts of a batch are non-negative integers. *)
Definition nonNegativeCounts (allMetrics : list PaperMetric) : Prop :=
  forall m, In m allMetrics -> (0 <= downloads_7d m)%Z.

(** Every citation count of the batch is zero. *)
Definition allZeroCounts (allMetrics : list PaperMetric) : Prop :=
  forall m, In m allMetrics -> downloads_7d m = 0%Z.

(** ** Sample batches

    Rows as the recomputation hands them to the scorer, newest first.
    Times are epoch milliseconds; [utc] is the zone of a server whose
    local time is UTC. *)

Definition utc : Date -> Z := fun _ => 0%Z.

Definition jan1 : Date := 1704067200000%Z.      (* 2024-01-01T00:00:00Z *)
Definition dec31 : Date := 1703980800000%Z.     (* 2023-12-31T00:00:00Z *)
Definition dec30 : Date := 1703894400000%Z.     (* 2023-12-30T00:00:00Z *)
Definition jan1noon : Date := 1704110400000%Z.  (* 2024-01-01T12:00:00Z *)
Definition jan2noon : Date := 1704196800000%Z.  (* 2024-01-02T12:00:00Z *)

Definition row (i : Z) (paper : string) (citations : Z)
  (published : option Date) : PaperMetric :=
  mkPaperMetric i paper "2024-01-01" 0 citations 0 0 published.

(** Three uncited papers published one day apart. *)
Definition newest : PaperMetric := row 1 "2401.00003" 0 (Some jan1).
Definition middle : PaperMetric := row 2 "2401.00002" 0 (Some dec31).
Definition oldest : PaperMetric := row 3 "2401.00001" 0 (Some dec30).
Definition threeDays : list PaperMetric := [newest; middle; oldest].

(** The same rows in an order that is not newest first. *)
Definition shuffled : list PaperMetric := [middle; newest; oldest].

(** Two uncited papers published at the same instant. *)
Definition twinA : PaperMetric := row 1 "2401.00011" 0 (Some jan1).
Definition twinB : PaperMetric := row 2 "2401.00012" 0 (Some jan1).
Definition twins : list PaperMetric := [twinA; twinB].

(** Two cited papers, neither with zero citations. *)
Definition cited5 : PaperMetric := row 1 "2401.00021" 5 (Some jan1).
Definition cited10 : PaperMetric := row 2 "2401.00022" 10 (Some dec31).
Definition bothCited : list PaperMetric := [cited5; cited10].

(** Three papers with 10, 0 and 5 citations. *)
Definition paperA : PaperMetric := row 1 "A" 10 None.
Definition paperB : PaperMetric := row 2 "B" 0 None.
Definition paperC : PaperMetric := row 3 "C" 5 None.
Definition exampleABC : list PaperMetric := [paperA; paperB; paperC].

(** ** A sample world for the recomputation

    A store holding the three uncited papers, whose client refuses the
    update of row 1 and applies every other one.  The state of the world
    is the list of updates applied so far, latest first.  The engine's
    sort is a stable insertion sort. *)

Fixpoint insertSorted {A : Type} (cmp : A -> A -> Q) (x : A) (l : list A)
  : list A :=
  match l with
  | [] => [x]
  | y :: l' =>
      if Js.gt (cmp x y) 0 then y :: insertSorted cmp x l' else x :: y :: l'
  end.

Definition insertionSort {A : Type} (cmp : A -> A -> Q) (l : list A) : list A :=
  fold_right (insertSorted cmp) [] l.

Definition sampleWorld : Type := list Update.

Definition storedMetrics : list PaperMetric :=
  [row 3 "2401.00001" 0 None; row 1 "2401.00003" 0 None;
   row 2 "2401.00002" 0 None].

Definition storedPapers : list PaperRow :=
  [mkPaperRow "2401.00001" (Some dec30); mkPaperRow "2401.00002" (Some dec31);
   mkPaperRow "2401.00003" (Some jan1)].

Definition sampleSelectMetrics (snapshotDate : string) (w : sampleWorld)
  : Response (list PaperMetric) * sampleWorld :=
  (mkResponse (Some storedMetrics) None, w).

Definition sampleSelectPapers (paperIds : list string) (w : sampleWorld)
  : Response (list PaperRow) * sampleWorld :=
  (mkResponse (Some storedPapers) None, w).

Definition sampleUpdateScore (u : Update) (w : sampleWorld)
  : option string * sampleWorld :=
  if (update_id u =? 1)%Z then (Some "connection reset"%string, w)
  else (None, u :: w).

Definition sampleClock (i : nat) : Date := (jan1noon + Z.of_nat i)%Z.

(** ** Earlier revisions of the scorer

    The first revision scores by the repository count alone; the second
    normalizes the citation count and has no fallback. *)

Module RepoCountMvp.

(** [0.6 * downloads7dNorm + 0.4 * githubNorm], the first term being the
    constant 0 of this revision. *)
Definition computeEngagementScore (downloads7d : Z) (githubRepoCount : Z)
  (allMetrics : list PaperMetric) : option Q :=
  let downloads7dNorm := 0 in
  let githubCounts := map (fun m => inject_Z (github_repo_count m)) allMetrics in
  minGithub <- Js.Math_min (githubCounts ++ [0]) ;;
  maxGithub <- Js.Math_max (githubCounts ++ [0]) ;;
  githubNorm <- normalize (inject_Z githubRepoCount) minGithub maxGithub ;;
  Some ((6 # 10) * downloads7dNorm + (4 # 10) * githubNorm).

End RepoCountMvp.

Module NormalizeOnly.

Definition computeEngagementScore (downloads7d : Z) (githubRepoCount : Z)
  (allMetrics : list PaperMetric) : option Q :=
  let downloads7dCounts := map (fun m => inject_Z (downloads_7d m)) allMetrics in
  minDownloads <- Js.Math_min (downloads7dCounts ++ [0]) ;;
  maxDownloads <- Js.Math_max (downloads7dCounts ++ [0]) ;;
  normalize (inject_Z downloads7d) minDownloads maxDownloads.

End NormalizeOnly.

(** A string argument as JavaScript tests it: the empty string is falsy. *)
Definition truthy (s : string) : option string :=
  if String.eqb s "" then None else Some s.

(** The call that the recomputation of the sorting revision makes for a
    row: [computeEngagementScore(metric.downloads_7d,
    metric.github_repo_count, metricsWithDates, metric.published_at,
    metric.paper_id)]. *)
Definition scoreOfById
  (arraySort : (PaperMetric -> PaperMetric -> Q) ->
               list PaperMetric -> list PaperMetric)
  (allMetrics : list PaperMetric) (metric : PaperMetric) : option Q :=
  SortedPosition.computeEngagementScore arraySort (downloads_7d metric)
    (github_repo_count metric) allMetrics (published_at metric)
    (truthy (paper_id metric)).

(** A paper dated exactly one day after the clock reading. *)
Definition aDayAhead (now t : Date) : Prop := t = (now + 86400000)%Z.

(** ** The recalculation endpoint: GET /api/cron/recalculate-scores

    [NextResponse.json(body, { status })]: the status, the [ok] field of
    the body and its [message] or [error] text. *)


Section RecalculateScores.

Variable tzOffset : Date -> Z.
Variable World : Type.
Variable selectMetrics :
  string -> World -> Response (list PaperMetric) * World.
Variable selectPapers :
  list string -> World -> Response (list PaperRow) * World.
Variable updateScore : Update -> World -> option string * World.
Variable arraySort :
  (PaperMetric -> PaperMetric -> Q) -> list PaperMetric -> list PaperMetric.
Variable clock : nat -> Date.

(** [new Date().toISOString().split('T')[0]] as read by the handler. *)
Variable today : string.


End RecalculateScores.

(** ** JavaScript arrays and maps used by the clients *)

(** [Array.prototype.slice(start, end)] for integer arguments: a negative
    index counts from the end, and both are clamped to the array. *)
Definition relativeIndex (len k : Z) : Z :=
  if (k <? 0)%Z then Z.max (len + k) 0 else Z.min k len.

Definition slice {A : Type} (l : list A) (start final : Z) : list A :=
  let len := Z.of_nat (List.length l) in
  let from := relativeIndex len start in
  let to := relativeIndex len final in
  firstn (Z.to_nat (to - from)) (skipn (Z.to_nat from) l).

(** A [Map<string, V>]: entries in insertion order; [set] on a key already
    present replaces the value and keeps the position. *)
Definition JsMap (V : Type) : Type := list (string * V).

Fixpoint Map_get {V : Type} (k : string) (m : JsMap V) : option V :=
  match m with
  | [] => None
  | (k', v) :: rest => if String.eqb k' k then Some v else Map_get k rest
  end.

Definition Map_has {V : Type} (k : string) (m : JsMap V) : bool :=
  match Map_get k m with
  | Some _ => true
  | None => false
  end.

Fixpoint Map_set {V : Type} (k : string) (v : V) (m : JsMap V) : JsMap V :=
  match m with
  | [] => [(k, v)]
  | (k', v') :: rest =>
      if String.eqb k' k then (k, v) :: rest else (k', v') :: Map_set k v rest
  end.

(** [Array.from(m.values())] *)
Definition Map_values {V : Type} (m : JsMap V) : list V := map snd m.

(** ** Semantic Scholar client (lib/semantic.ts) *)

Module SemanticScholar.

(** What [response.json()] yields, as far as the client looks at it:
    [citationCount] is [None] when the field is absent or null. *)
Inductive JsonBody :=
| NotJson (message : string)
| JsonNull
| JsonObject (citationCount : option Z).

(** How [fetch(url)] settles. *)
Inductive FetchOutcome :=
| FetchFailed (message : string)
| FetchResponse (status : Z) (statusText : string) (body : JsonBody).

(** [response.ok]: the status is in the range 200-299. *)
Definition responseOk (status : Z) : bool :=
  (200 <=? status)%Z && (status <=? 299)%Z.

(** What the [try] block can throw. *)
Inductive Failure :=
| NetworkFailure (message : string)
| ApiFailure (status : Z) (statusText : string)
| BodyFailure (message : string)
| NullBody.

Inductive Effect :=
| ConsoleWarn (arxivId : string)
| ConsoleError (arxivId : string) (failure : Failure)
| Sleep (ms : Z).

(** The [try] block of [fetchCitationCount]. *)
Definition tryFetchCitationCount (outcome : FetchOutcome) (arxivId : string)
  : (Failure + Z) * list Effect :=
  match outcome with
  | FetchFailed message => (inl (NetworkFailure message), [])
  | FetchResponse status statusText body =>
      if negb (responseOk status) then
        if (status =? 404)%Z then (inr 0%Z, [])
        else if (status =? 429)%Z then (inr 0%Z, [ConsoleWarn arxivId])
        else (inl (ApiFailure status statusText), [])
      else
        match body with
        | NotJson message => (inl (BodyFailure message), [])
        | JsonNull => (inl NullBody, [])
        | JsonObject citationCount =>
            let count := match citationCount with
                         | Some c => c
                         | None => 0%Z
                         end in
            (inr count, [Sleep 100])
        end
  end.

(** [fetchCitationCount(arxivId)], given how its request settles: the
    number the promise resolves with and the effects of the call. *)
Definition fetchCitationCount (outcome : FetchOutcome) (arxivId : string)
  : Z * list Effect :=
  match tryFetchCitationCount outcome arxivId with
  | (inr count, effects) => (count, effects)
  | (inl failure, effects) => (0%Z, effects ++ [ConsoleError arxivId failure])
  end.

Section Batch.

(** How the k-th request of the run settles, counting from 0 in the
    order in which the requests are issued. *)
Variable outcomeOf : nat -> FetchOutcome.

(** [results.set(arxivId, count)] for each id of [ids], the first of
    which is answered by request number [k]. *)
Fixpoint record (ids : list string) (k : nat) (results : JsMap Z) : JsMap Z :=
  match ids with
  | [] => results
  | arxivId :: rest =>
      let count := fst (fetchCitationCount (outcomeOf k) arxivId) in
      record rest (S k) (Map_set arxivId count results)
  end.

(** The loop of [fetchCitationCountsBatch] from index [i] on, [calls]
    requests having been issued; the result is the map and the delays
    slept between batches.  [None]: the loop has not ended after [fuel]
    iterations. *)
Fixpoint batchLoop (fuel : nat) (arxivIds : list string) (batchSize delayMs : Z)
  (i : Z) (calls : nat) (results : JsMap Z) (delays : list Z)
  : option (JsMap Z * list Z) :=
  match fuel with
  | O => None
  | S fuel' =>
      if (i <? Z.of_nat (List.length arxivIds))%Z then
        let batch := slice arxivIds i (i + batchSize) in
        let results' := record batch calls results in
        let delays' :=
          if (i + batchSize <? Z.of_nat (List.length arxivIds))%Z
          then delays ++ [delayMs] else delays in
        batchLoop fuel' arxivIds batchSize delayMs (i + batchSize)%Z
          (calls + List.length batch) results' delays'
      else Some (results, delays)
  end.

Definition fetchCitationCountsBatch (fuel : nat) (arxivIds : list string)
  (batchSize delayMs : Z) : option (JsMap Z * list Z) :=
  batchLoop fuel arxivIds batchSize delayMs 0 0 [] [].

(** The sequential revision of [fetchCitationCountsBatch]: one request
    per iteration, a delay after each but the last. *)
Fixpoint sequentialLoop (arxivIds : list string) (delayMs : Z) (k : nat)
  (results : JsMap Z) (delays : list Z) : JsMap Z * list Z :=
  match arxivIds with
  | [] => (results, delays)
  | arxivId :: rest =>
      let count := fst (fetchCitationCount (outcomeOf k) arxivId) in
      let results' := Map_set arxivId count results in
      let delays' := match rest with
                     | [] => delays
                     | _ :: _ => delays ++ [delayMs]
                     end in
      sequentialLoop rest delayMs (S k) results' delays'
  end.

(** [batchSize] is a parameter of the sequential revision too, which
    does not read it. *)
Definition fetchCitationCountsSequential (arxivIds : list string)
  (batchSize delayMs : Z) : JsMap Z * list Z :=
  sequentialLoop arxivIds delayMs 0 [] [].

End Batch.

End SemanticScholar.

(** ** GitHub client (lib/github.ts) *)

Module GitHub.

(** What [response.json()] yields: [total_count] is [None] when the
    field is absent or null. *)
Inductive JsonBody :=
| NotJson (message : string)
| JsonNull
| JsonObject (total_count : option Z).

Inductive FetchOutcome :=
| FetchFailed (message : string)
| FetchResponse (status : Z) (statusText : string) (body : JsonBody).

Definition responseOk (status : Z) : bool :=
  (200 <=? status)%Z && (status <=? 299)%Z.

Inductive Failure :=
| NetworkFailure (message : string)
| ApiFailure (status : Z) (statusText : string)
| BodyFailure (message : string)
| NullBody.

Inductive Effect :=
| Request (arxivId : string) (token : string)
| ConsoleWarn (arxivId : string)
| ConsoleError (arxivId : string) (failure : Failure).

(** The [try] block of [searchRepoCountForArxivId], the token being
    present. *)
Definition trySearch (outcome : FetchOutcome) (arxivId : string)
  : (Failure + Z) * list Effect :=
  match outcome with
  | FetchFailed message => (inl (NetworkFailure message), [])
  | FetchResponse status statusText body =>
      if negb (responseOk status) then
        if (status =? 403)%Z then (inr 0%Z, [ConsoleWarn arxivId])
        else if (status =? 404)%Z then (inr 0%Z, [])
        else (inl (ApiFailure status statusText), [])
      else
        match body with
        | NotJson message => (inl (BodyFailure message), [])
        | JsonNull => (inl NullBody, [])
        | JsonObject total_count =>
            let totalCount := match total_count with
                              | Some c => c
                              | None => 0%Z
                              end in
            (inr (Z.min totalCount 1000), [])
        end
  end.

(** [searchRepoCountForArxivId(arxivId)]: [token] is
    [process.env.GITHUB_TOKEN], [None] when unset or empty; [outcome] is
    how the request settles if it is made. *)
Definition searchRepoCountForArxivId (token : option string)
  (outcome : FetchOutcome) (arxivId : string) : Z * list Effect :=
  match token with
  | None => (0%Z, [])
  | Some t =>
      match trySearch outcome arxivId with
      | (inr count, effects) => (count, Request arxivId t :: effects)
      | (inl failure, effects) =>
          (0%Z, Request arxivId t :: effects ++ [ConsoleError arxivId failure])
      end
  end.

End GitHub.

(** ** arXiv client (lib/arxiv.ts)

    Strings are sequences of bytes.  The operations below only look for
    ASCII characters, so they act on the UTF-8 form of a text as the
    source acts on its UTF-16 form. *)

Module Arxiv.

Local Open Scope string_scope.

(** [\d] *)
Definition isDigit (c : ascii) : bool :=
  (48 <=? nat_of_ascii c)%nat && (nat_of_ascii c <=? 57)%nat.

(** [s] without its prefix [p], if it starts with [p]. *)
Fixpoint dropPrefix (p s : string) : option string :=
  match p with
  | EmptyString => Some s
  | String a p' =>
      match s with
      | String b s' => if Ascii.eqb a b then dropPrefix p' s' else None
      | EmptyString => None
      end
  end.

(** [s.startsWith(p)] *)
Definition startsWith (p s : string) : bool :=
  match dropPrefix p s with
  | Some _ => true
  | None => false
  end.

(** [\d{n}] at the start of [s]: the digits and what follows them. *)
Fixpoint digits (n : nat) (s : string) : option (string * string) :=
  match n with
  | O => Some (EmptyString, s)
  | S n' =>
      match s with
      | String c s' =>
          if isDigit c then
            match digits n' s' with
            | Some (d, rest) => Some (String c d, rest)
            | None => None
            end
          else None
      | EmptyString => None
      end
  end.

(** The pattern [arxiv\.org\/abs\/(\d{4}\.\d{4,5})] tried at the start of
    [s]: the text of the group.  The greedy [\d{4,5}] takes five digits
    when there are five. *)
Definition matchHere (s : string) : option string :=
  match dropPrefix "arxiv.org/abs/" s with
  | Some s1 =>
      match digits 4 s1 with
      | Some (yymm, String "." s2) =>
          match digits 5 s2 with
          | Some (number, _) => Some (yymm ++ "." ++ number)
          | None =>
              match digits 4 s2 with
              | Some (number, _) => Some (yymm ++ "." ++ number)
              | None => None
              end
          end
      | _ => None
      end
  | None => None
  end.

(** [fullId.match(/.../)]: the group of the leftmost match. *)
Fixpoint regexMatch (s : string) : option string :=
  match matchHere s with
  | Some group => Some group
  | None =>
      match s with
      | String _ s' => regexMatch s'
      | EmptyString => None
      end
  end.

Fixpoint containsSlash (s : string) : bool :=
  match s with
  | EmptyString => false
  | String c s' => Ascii.eqb c "/" || containsSlash s'
  end.

(** [s.split('/').pop()]: what follows the last slash. *)
Fixpoint lastSegment (s : string) : string :=
  match s with
  | EmptyString => EmptyString
  | String c s' =>
      if containsSlash s' then lastSegment s'
      else if Ascii.eqb c "/" then s' else String c s'
  end.

(** [s.replace(p, '')] for a non-empty string [p]: the first occurrence
    of [p] is removed. *)
Fixpoint removeFirst (p s : string) : string :=
  match dropPrefix p s with
  | Some rest => rest
  | None =>
      match s with
      | String c s' => String c (removeFirst p s')
      | EmptyString => EmptyString
      end
  end.

Definition extractArxivId (fullId : string) : string :=
  match regexMatch fullId with
  | Some group => group
  | None =>
      removeFirst "v5" (removeFirst "v4" (removeFirst "v3"
        (removeFirst "v2" (removeFirst "v1" (lastSegment fullId)))))
  end.

Record ArxivPaper := mkArxivPaper {
  id : string;
  title : string;
  abstract : string;
  authors : list string;
  categories : list string;
  published_at : string;
  updated_at : string
}.

(** The loop over [allPapers] that fills [uniquePapers]:
    [if (!uniquePapers.has(paper.id)) uniquePapers.set(paper.id, paper)]. *)
Fixpoint collectUnique (allPapers : list ArxivPaper)
  (uniquePapers : JsMap ArxivPaper) : JsMap ArxivPaper :=
  match allPapers with
  | [] => uniquePapers
  | paper :: rest =>
      collectUnique rest
        (if Map_has (id paper) uniquePapers then uniquePapers
         else Map_set (id paper) paper uniquePapers)
  end.

(** The end of [fetchRecentPapers]: [Array.from(uniquePapers.values())]. *)
Definition deduplicateById (allPapers : list ArxivPaper) : list ArxivPaper :=
  Map_values (collectUnique allPapers []).

(** A [category] element of an entry: its [@_term] attribute and its
    [term] field, each [None] when absent or empty. *)
Record CategoryEntry := mkCategoryEntry {
  attr_term : option string;
  plain_term : option string
}.

(** [cat['@_term'] || cat.term] *)
Definition termOf (cat : CategoryEntry) : option string :=
  match attr_term cat with
  | Some t => Some t
  | None => plain_term cat
  end.

(** The loop that fills [categories] from [categoryArray]. *)
Fixpoint collectCategories (categoryArray : list CategoryEntry) : list string :=
  match categoryArray with
  | [] => []
  | cat :: rest =>
      match termOf cat with
      | Some term =>
          if startsWith "cs." term || startsWith "stat." term
          then term :: collectCategories rest
          else collectCategories rest
      | None => collectCategories rest
      end
  end.

(** [['cs.AI', 'cs.LG', 'stat.ML'].includes(cat)] *)
Definition isTarget (cat : string) : bool :=
  existsb (String.eqb cat) ["cs.AI"; "cs.LG"; "stat.ML"].

(** [[...new Set(xs)]]: the first occurrence of each element, in order. *)
Fixpoint uniqueInOrder (seen xs : list string) : list string :=
  match xs with
  | [] => []
  | x :: rest =>
      if existsb (String.eqb x) seen then uniqueInOrder seen rest
      else x :: uniqueInOrder (x :: seen) rest
  end.

(** The categories stored with an entry, or [None] when the entry is
    skipped for having none of the target categories. *)
Definition entryCategories (categoryArray : list CategoryEntry)
  : option (list string) :=
  let categories := collectCategories categoryArray in
  if negb (existsb isTarget categories) then None
  else Some (uniqueInOrder [] categories).

End Arxiv.

(** Every character of [s] is a digit. *)
Fixpoint allDigits (s : string) : bool :=
  match s with
  | EmptyString => true
  | String c s' => Arxiv.isDigit c && allDigits s'
  end.

Definition startsWithDigit (s : string) : bool :=
  match s with
  | EmptyString => false
  | String c _ => Arxiv.isDigit c
  end.

(** The shape of a new-style arXiv identifier: four digits, a dot, and
    four or five digits. *)
Definition wellFormedId (s : string) : Prop :=
  exists yymm number,
    s = (yymm ++ "." ++ number)%string /\
    String.length yymm = 4%nat /\ allDigits yymm = true /\
    (String.length number = 4%nat \/ String.length number = 5%nat) /\
    allDigits number = true.

(** Every character of [s] is a digit or a dot. *)
Fixpoint digitsAndDots (s : string) : bool :=
  match s with
  | EmptyString => true
  | String c s' => (Arxiv.isDigit c || Ascii.eqb c ".") && digitsAndDots s'
  end.

(** The letter a does not occur in [s]. *)
Fixpoint noLetterA (s : string) : bool :=
  match s with
  | EmptyString => true
  | String c s' => negb (Ascii.eqb "a" c) && noLetterA s'
  end.

(** A record of the arXiv feed and one category element, for examples. *)
Definition samplePaper (paperId : string) (paperTitle : string)
  : Arxiv.ArxivPaper :=
  Arxiv.mkArxivPaper paperId paperTitle "" [] ["cs.LG"%string]
    "2024-01-01T00:00:00.000Z" "2024-01-01T00:00:00.000Z".

Definition sampleCategories : list Arxiv.CategoryEntry :=
  [Arxiv.mkCategoryEntry (Some "cs.LG"%string) None;
   Arxiv.mkCategoryEntry (Some "math.OC"%string) None;
   Arxiv.mkCategoryEntry None (Some "stat.ML"%string);
   Arxiv.mkCategoryEntry (Some "cs.LG"%string) None].

(** The first paper of each id, in order, the ids of [seen] excluded. *)
Fixpoint firstById (seen : list string) (allPapers : list Arxiv.ArxivPaper)
  : list Arxiv.ArxivPaper :=
  match allPapers with
  | [] => []
  | paper :: rest =>
      if existsb (String.eqb (Arxiv.id paper)) seen then firstById seen rest
      else paper :: firstById (Arxiv.id paper :: seen) rest
  end.

(** ** The read endpoints: GET /api/papers and GET /api/diff *)

(** [Math.ceil] on a finite number. *)
Definition Math_ceil (x : Q) : Z := Qceiling x.

Module Api.

(** The columns of [paper_metrics] that the endpoints select. *)
Record PaperMetric := mkPaperMetric {
  snapshot_date : string;
  downloads_total : Z;
  downloads_7d : Z;
  github_repo_count : Z;
  engagement_score : Q
}.

Record Paper := mkPaper {
  id : string;
  title : string;
  abstract : string;
  authors : list string;
  categories : list string;
  published_at : string;
  updated_at : string;
  created_at : string
}.

(** A row of the query: the paper and its [paper_metrics], [None] when
    the field is not an array. *)
Record PaperRow := mkPaperRow {
  row_paper : Paper;
  paper_metrics : option (list PaperMetric)
}.

(** [PaperWithMetrics]: [{ ...paper, metrics }]. *)
Record PaperWithMetrics := mkPaperWithMetrics {
  paper : Paper;
  metrics : option PaperMetric
}.

Section Endpoints.

(** The time value of [new Date(s)] for a date string. *)
Variable dateValue : string -> Z.

(** [Array.prototype.sort] of the engine, given the comparator. *)
Variable arraySort : forall A : Type, (A -> A -> Q) -> list A -> list A.

(** [new Date(a.snapshot_date) > new Date(b.snapshot_date)] *)
Definition newer (a b : PaperMetric) : bool :=
  (dateValue (snapshot_date b) <? dateValue (snapshot_date a))%Z.

(** [metrics.reduce((latest, current) => newer(current, latest) ? current
    : latest)] on a non-empty array. *)
Definition latestOf (first : PaperMetric) (others : list PaperMetric)
  : PaperMetric :=
  fold_left (fun latest current => if newer current latest then current else latest)
    others first.

(** [Array.isArray(metrics) && metrics.length > 0] and then the reduce. *)
Definition latestMetric (metrics : option (list PaperMetric))
  : option PaperMetric :=
  match metrics with
  | Some (first :: others) => Some (latestOf first others)
  | _ => None
  end.

(** One iteration of [for (const paper of papers || [])] of GET
    /api/papers. *)
Definition addRow (paperMap : JsMap PaperWithMetrics) (row : PaperRow)
  : JsMap PaperWithMetrics :=
  let paperId := id (row_paper row) in
  let paperMap1 :=
    if Map_has paperId paperMap then paperMap
    else Map_set paperId (mkPaperWithMetrics (row_paper row) None) paperMap in
  match Map_get paperId paperMap1 with
  | Some paperEntry =>
      match latestMetric (paper_metrics row) with
      | Some latest =>
          let replace :=
            match metrics paperEntry with
            | None => true
            | Some current => newer latest current
            end in
          if replace
          then Map_set paperId (mkPaperWithMetrics (paper paperEntry) (Some latest))
                 paperMap1
          else paperMap1
      | None => paperMap1
      end
  | None => paperMap1
  end.

(** [paper.metrics?.engagement_score || 0] *)
Definition scoreOrZero (p : PaperWithMetrics) : Q :=
  match metrics p with
  | Some m => engagement_score m
  | None => 0
  end.

(** The comparator of the final sort: [scoreB - scoreA]. *)
Definition byScoreDesc (a b : PaperWithMetrics) : Q :=
  scoreOrZero b - scoreOrZero a.

(** The body of GET /api/papers after the query: [minScore] is the value
    of [parseFloat], [None] for NaN. *)
Definition papersResponse (minScore : option Q) (papers : list PaperRow)
  : list PaperWithMetrics :=
  let paperMap := fold_left addRow papers [] in
  let all := Map_values paperMap in
  let filtered :=
    match minScore with
    | Some least =>
        if Js.gt least 0 then
          filter (fun p => match metrics p with
                           | None => false
                           | Some m => Qle_bool least (engagement_score m)
                           end) all
        else all
    | None => all
    end in
  arraySort PaperWithMetrics byScoreDesc filtered.

(** A row of [paper_metrics] joined with its paper, as GET /api/diff
    reads it. *)
Record MetricRow := mkMetricRow {
  metric : PaperMetric;
  papers : Paper
}.

(** The rows selected as rising papers by GET /api/diff, before they are
    reshaped.  [Math.ceil(allScores.length * 0.1)] is the ceiling of the
    exact tenth of the length: for the length of an array the rounding of
    the product in double precision never crosses an integer. *)
Definition risingRows (recentMetrics : list MetricRow) : list MetricRow :=
  let allScores :=
    arraySort Q (fun a b => b - a)
      (filter (fun s => Js.gt s 0)
         (map (fun m => engagement_score (metric m)) recentMetrics)) in
  let top10PercentIndex := Math_ceil (length_num allScores * (1 # 10)) in
  let threshold :=
    if (top10PercentIndex - 1 <? 0)%Z then 0
    else match nth_error allScores (Z.to_nat (top10PercentIndex - 1)) with
         | Some s => if Js.strict_eq s 0 then 0 else s
         | None => 0
         end in
  slice (filter (fun m => Qle_bool threshold (engagement_score (metric m)))
           recentMetrics)
    0 (Math_ceil (length_num allScores * (1 # 10))).

End Endpoints.

End Api.

(** The entry that GET /api/papers builds for a row whose id occurs once
    in the result of the query: the paper with its latest metric. *)
Definition entryOf (dateValue : string -> Z) (row : Api.PaperRow)
  : Api.PaperWithMetrics :=
  Api.mkPaperWithMetrics (Api.row_paper row)
    (Api.latestMetric dateValue (Api.paper_metrics row)).

(** The id of the paper of a row, and of an entry. *)
Definition rowId (row : Api.PaperRow) : string := Api.id (Api.row_paper row).
Definition entryId (p : Api.PaperWithMetrics) : string := Api.id (Api.paper p).

(** The filter of GET /api/papers is off: [minScore > 0] is false. *)
Definition filterOff (minScore : option Q) : Prop :=
  match minScore with
  | Some least => least <= 0
  | None => True
  end.

(** The keys of the map of GET /api/papers are pairwise different and
    each entry is filed under the id of its paper. *)
Definition mapInvariant (m : JsMap Api.PaperWithMetrics) : Prop :=
  NoDup (map fst m) /\ forall k e, In (k, e) m -> entryId e = k.

(** ** The citation backfill endpoint: GET /api/cron/backfill-citations *)

Module BackfillCitations.

(** A write to [paper_metrics] made by the loop, with the error of its
    response if any. *)
Inductive Write :=
| UpdateCounts (metricId : Z) (citationCount : Z) (error : option string)
    (* update({ downloads_total, downloads_7d }).eq('id', metricId) *)
| InsertMetric (paperId snapshotDate : string) (citationCount : Z)
    (error : option string).
    (* insert({ paper_id, snapshot_date, downloads_total, downloads_7d,
       github_repo_count: 0, engagement_score: 0 }) *)



(** What the handler answers. *)
Inductive Answer :=
| NoPapers                                  (* ok, 'No papers found' *)
| Done (papersProcessed updated errors : Z) (* ok, with the counters *)
| StoreFailure (message : string)           (* 500: the papers query failed *)
| RecomputeFailure (message : string).      (* 500: the recomputation threw *)

Section Route.

Variable tzOffset : Date -> Z.
Variable World : Type.

(** [supabase.from('papers').select('id').order(...)] *)
Variable selectPaperIds : World -> Response (list string) * World.

(** How the k-th request to Semantic Scholar settles. *)
Variable outcomeOf : nat -> SemanticScholar.FetchOutcome.

(** [new Date().toISOString().split('T')[0]] *)
Variable today : string.

(** The id of the metric of a paper for a date, if the store returns one:
    [select('id').eq('paper_id', id).eq('snapshot_date', today).single()]. *)
Variable selectMetricId : string -> string -> World -> option Z * World.

Variable updateCounts : Z -> Z -> World -> option string * World.
Variable insertMetric : string -> string -> Z -> World -> option string * World.

(** The collaborators of the recomputation. *)
Variable selectMetrics :
  string -> World -> Response (list PaperMetric) * World.
Variable selectPapers :
  list string -> World -> Response (list PaperRow) * World.
Variable updateScore : Update -> World -> option string * World.
Variable arraySort :
  (PaperMetric -> PaperMetric -> Q) -> list PaperMetric -> list PaperMetric.
Variable clock : nat -> Date.

(** [citationCounts.get(paper.id) || 0] *)
Definition countFor (citationCounts : JsMap Z) (paperId : string) : Z :=
  match Map_get paperId citationCounts with
  | Some c => c
  | None => 0%Z
  end.

(** The loop [for (const paper of papers)]: the world, the counters
    [updated] and [errors], and the writes made, in order. *)
Fixpoint updateLoop (papers : list string) (citationCounts : JsMap Z)
  (w : World) (updated errors : Z) (writes : list Write)
  : World * Z * Z * list Write :=
  match papers with
  | [] => (w, updated, errors, writes)
  | paperId :: rest =>
      let citationCount := countFor citationCounts paperId in
      let (existingMetric, w1) := selectMetricId paperId today w in
      match existingMetric with
      | Some metricId =>
          let (updateError, w2) := updateCounts metricId citationCount w1 in
          let wr := UpdateCounts metricId citationCount updateError in
          match updateError with
          | Some _ =>
              updateLoop rest citationCounts w2 updated (errors + 1)
                (writes ++ [wr])
          | None =>
              updateLoop rest citationCounts w2 (updated + 1) errors
                (writes ++ [wr])
          end
      | None =>
          let (insertError, w2) := insertMetric paperId today citationCount w1 in
          let wr := InsertMetric paperId today citationCount insertError in
          match insertError with
          | Some _ =>
              updateLoop rest citationCounts w2 updated (errors + 1)
                (writes ++ [wr])
          | None =>
              updateLoop rest citationCounts w2 (updated + 1) errors
                (writes ++ [wr])
          end
      end
  end.

(** The handler: its answer, the writes of the loop, the events of the
    recomputation and the final world.  [fuel] bounds the iterations of
    the batched fetch. *)
Definition GET (fuel : nat) (w : World)
  : option (Answer * list Write * list Event * World) :=
  let (r, w1) := selectPaperIds w in
  match error r with
  | Some message => Some (StoreFailure message, [], [], w1)
  | None =>
      if isEmpty (data r) then Some (NoPapers, [], [], w1)
      else
        let arxivIds := orEmpty (data r) in
        fetched <- SemanticScholar.fetchCitationCountsBatch outcomeOf fuel
                     arxivIds 10 300 ;;
        let citationCounts := fst fetched in
        let '(w2, updated, errors, writes) :=
          updateLoop arxivIds citationCounts w1 0 0 [] in
        recomputed <- computeEngagementScoresForDate tzOffset World
                        selectMetrics selectPapers updateScore arraySort clock
                        today w2 ;;
        match recomputed with
        | (Resolved, events, w3) =>
            Some (Done (Z.of_nat (List.length arxivIds)) updated errors,
                  writes, events, w3)
        | (Rejected message, events, w3) =>
            Some (RecomputeFailure message, writes, events, w3)
        end
  end.

End Route.

End BackfillCitations.

(** ** The ingestion endpoint: GET /api/cron/ingest *)

Module Ingest.

(** [Omit<PaperMetric, 'id'>] *)
Record MetricData := mkMetricData {
  paper_id : string;
  snapshot_date : string;
  downloads_total : Z;
  downloads_7d : Z;
  github_repo_count : Z;
  engagement_score : Q
}.

(** The calls made to the store, with the error of the response if any. *)
Inductive StoreCall :=
| Upsert (paper : Arxiv.ArxivPaper) (error : option string)
| UpdateMetric (metricId : Z) (data : MetricData) (error : option string)
| InsertMetrics (rows : list MetricData) (error : option string).


(** What the handler answers. *)
Inductive Answer :=
| Done (inserted updated papersProcessed : Z)
| Failed (message : string).

(** The state of the loop over the papers. *)
Record LoopState (World : Type) := mkLoopState {
  world : World;
  inserted : Z;
  updated : Z;
  metricsToInsert : list MetricData;
  calls : list StoreCall
}.
Arguments mkLoopState {World} _ _ _ _ _.
Arguments world {World} _.
Arguments inserted {World} _.
Arguments updated {World} _.
Arguments metricsToInsert {World} _.
Arguments calls {World} _.

Section Route.

Variable tzOffset : Date -> Z.
Variable World : Type.

(** [new Date().toISOString().split('T')[0]] *)
Variable today : string.

(** [process.env.GITHUB_TOKEN] and how the request for the k-th paper of
    the list settles. *)
Variable token : option string.
Variable githubOutcome : nat -> GitHub.FetchOutcome.

(** The reading of [new Date()] made for the k-th paper. *)
Variable loopClock : nat -> Date.

Variable upsertPaper : Arxiv.ArxivPaper -> World -> option string * World.

(** [select('created_at').eq('id', id).single()]: the creation time of
    the paper, if the store returns the row; [created_at] is a timestamp
    written by the store, so [new Date(created_at)] is a valid date. *)
Variable selectCreatedAt : string -> World -> option Date * World.

Variable selectMetricId : string -> string -> World -> option Z * World.
Variable updateMetric : Z -> MetricData -> World -> option string * World.
Variable insertMetrics : list MetricData -> World -> option string * World.

(** The collaborators of the recomputation. *)
Variable selectMetrics :
  string -> World -> Response (list PaperMetric) * World.
Variable selectPapers :
  list string -> World -> Response (list PaperRow) * World.
Variable updateScore : Update -> World -> option string * World.
Variable arraySort :
  (PaperMetric -> PaperMetric -> Q) -> list PaperMetric -> list PaperMetric.
Variable clock : nat -> Date.

(** The body of the loop for the k-th paper. *)
Definition ingestPaper (k : nat) (arxivPaper : Arxiv.ArxivPaper)
  (st : LoopState World) : option (LoopState World) :=
  let (paperError, w1) := upsertPaper arxivPaper (world st) in
  match paperError with
  | Some _ =>
      Some (mkLoopState w1 (inserted st) (updated st) (metricsToInsert st)
              (calls st ++ [Upsert arxivPaper paperError]))
  | None =>
      let (existingPaper, w2) := selectCreatedAt (Arxiv.id arxivPaper) w1 in
      counters <-
        match existingPaper with
        | Some createdAt =>
            hoursSinceCreation <-
              Js.div (getTime (loopClock k) - getTime createdAt)
                (1000 * 60 * 60) ;;
            if Js.gt 1 hoursSinceCreation
            then Some ((inserted st + 1)%Z, updated st)
            else Some (inserted st, (updated st + 1)%Z)
        | None => Some ((inserted st + 1)%Z, updated st)
        end ;;
      let githubRepoCount :=
        fst (GitHub.searchRepoCountForArxivId token (githubOutcome k)
               (Arxiv.id arxivPaper)) in
      let (existingMetric, w3) :=
        selectMetricId (Arxiv.id arxivPaper) today w2 in
      let metricData :=
        mkMetricData (Arxiv.id arxivPaper) today 0 0 githubRepoCount 0 in
      match existingMetric with
      | Some metricId =>
          let (metricError, w4) := updateMetric metricId metricData w3 in
          Some (mkLoopState w4 (fst counters) (snd counters)
                  (metricsToInsert st)
                  (calls st ++ [Upsert arxivPaper None;
                                UpdateMetric metricId metricData metricError]))
      | None =>
          Some (mkLoopState w3 (fst counters) (snd counters)
                  (metricsToInsert st ++ [metricData])
                  (calls st ++ [Upsert arxivPaper None]))
      end
  end.

Fixpoint ingestLoop (k : nat) (papers : list Arxiv.ArxivPaper)
  (st : LoopState World) : option (LoopState World) :=
  match papers with
  | [] => Some st
  | arxivPaper :: rest =>
      st' <- ingestPaper k arxivPaper st ;;
      ingestLoop (S k) rest st'
  end.

(** The handler, given the papers that [fetchRecentPapers(24)] returned:
    its answer, the calls to the store before the recomputation, the
    events of the recomputation and the final world. *)
Definition GET (papers : list Arxiv.ArxivPaper) (w : World)
  : option (Answer * list StoreCall * list Event * World) :=
  st <- ingestLoop 0 papers (mkLoopState w 0 0 [] []) ;;
  let (w1, storeCalls) :=
    match metricsToInsert st with
    | [] => (world st, calls st)
    | _ :: _ =>
        let (insertError, w') := insertMetrics (metricsToInsert st) (world st) in
        (w', calls st ++ [InsertMetrics (metricsToInsert st) insertError])
    end in
  recomputed <- computeEngagementScoresForDate tzOffset World selectMetrics
                  selectPapers updateScore arraySort clock today w1 ;;
  match recomputed with
  | (Resolved, events, w2) =>
      Some (Done (inserted st) (updated st) (Z.of_nat (List.length papers)),
            storeCalls, events, w2)
  | (Rejected message, events, w2) =>
      Some (Failed message, storeCalls, events, w2)
  end.

End Route.

End Ingest.




(** ** Sample data for the services and the endpoints *)

(** Two papers with 3 and 12 repositories. *)
Definition repoRow (i : Z) (paper : string) (repos : Z) : PaperMetric :=
  mkPaperMetric i paper "2024-01-01" 0 0 repos 0 None.
Definition threeRepos : PaperMetric := repoRow 1 "2401.00031" 3.
Definition twelveRepos : PaperMetric := repoRow 2 "2401.00032" 12.
Definition withRepos : list PaperMetric := [threeRepos; twelveRepos].

(** Semantic Scholar answers the first request with 12 citations, the
    second with a rate limit, and every later request fails. *)
Definition sampleOutcomeOf (k : nat) : SemanticScholar.FetchOutcome :=
  match k with
  | 0%nat => SemanticScholar.FetchResponse 200 "OK"
               (SemanticScholar.JsonObject (Some 12%Z))
  | 1%nat => SemanticScholar.FetchResponse 429 "Too Many Requests"
               SemanticScholar.JsonNull
  | _ => SemanticScholar.FetchFailed "timeout"
  end.

Definition sampleIds : list string :=
  ["2401.00001"; "2401.00002"; "2401.00003"]%string.

(** Rows of the query of GET /api/papers: a paper with two snapshots, a
    paper without metrics and a paper with one snapshot. *)
Definition sampleDateValue (s : string) : Z :=
  if String.eqb s "2024-01-02" then 1704153600000%Z
  else if String.eqb s "2024-01-01" then 1704067200000%Z
  else 0%Z.

Definition paperOf (paperId : string) : Api.Paper :=
  Api.mkPaper paperId "" "" [] [] "2024-01-01T00:00:00Z"
    "2024-01-01T00:00:00Z" "2024-01-01T06:00:00Z".

Definition firstSnapshot : Api.PaperMetric :=
  Api.mkPaperMetric "2024-01-01" 0 0 0 (1 # 2).
Definition secondSnapshot : Api.PaperMetric :=
  Api.mkPaperMetric "2024-01-02" 0 3 0 (3 # 4).
Definition lowSnapshot : Api.PaperMetric :=
  Api.mkPaperMetric "2024-01-02" 0 0 0 (1 # 10).

Definition sampleRows : list Api.PaperRow :=
  [Api.mkPaperRow (paperOf "2401.00001") (Some [firstSnapshot; secondSnapshot]);
   Api.mkPaperRow (paperOf "2401.00002") (Some []);
   Api.mkPaperRow (paperOf "2401.00003") (Some [lowSnapshot])].

Definition sampleMetricRows : list Api.MetricRow :=
  [Api.mkMetricRow lowSnapshot (paperOf "2401.00003");
   Api.mkMetricRow secondSnapshot (paperOf "2401.00001");
   Api.mkMetricRow (Api.mkPaperMetric "2024-01-02" 0 0 0 0) (paperOf "2401.00002")].

Definition sampleSort : forall A : Type, (A -> A -> Q) -> list A -> list A :=
  fun A => @insertionSort A.





(** * Properties *)

(** ** Facts about the number operations *)

Section JsFacts.

Lemma gt_true (a b : Q) : Js.gt a b = true <-> b < a.
Proof.
  unfold Js.gt. rewrite negb_true_iff.
  destruct (Qle_bool a b) eqn:E.
  - apply Qle_bool_iff in E. split; [discriminate | intro; lra].
  - split; [intros _ | reflexivity].
    destruct (Qlt_le_dec b a) as [H | H]; [exact H |].
    apply Qle_bool_iff in H. congruence.
Qed.

Lemma gt_false (a b : Q) : Js.gt a b = false <-> a <= b.
Proof.
  destruct (Js.gt a b) eqn:E.
  - apply gt_true in E. split; [discriminate | intro; lra].
  - split; [intros _ | reflexivity].
    destruct (Qlt_le_dec b a) as [H | H]; [| exact H].
    apply gt_true in H. congruence.
Qed.

Lemma strict_eq_true (a b : Q) : Js.strict_eq a b = true <-> a == b.
Proof. apply Qeq_bool_iff. Qed.

Lemma strict_eq_false (a b : Q) : Js.strict_eq a b = false <-> ~ a == b.
Proof.
  unfold Js.strict_eq. split.
  - intros E H. apply Qeq_bool_iff in H. congruence.
  - intro H. destruct (Qeq_bool a b) eqn:E; [| reflexivity].
    apply Qeq_bool_iff in E. contradiction.
Qed.

Lemma div_some (a b : Q) : ~ b == 0 -> Js.div a b = Some (a / b).
Proof.
  intro H. unfold Js.div.
  destruct (Qeq_bool b 0) eqn:E; [| reflexivity].
  apply Qeq_bool_iff in E. contradiction.
Qed.

Lemma Math_max_some (x : Q) (l : list Q) : exists m, Js.Math_max (x :: l) = Some m.
Proof. simpl. destruct (Js.Math_max l); eauto. Qed.

Lemma Math_min_some (x : Q) (l : list Q) : exists m, Js.Math_min (x :: l) = Some m.
Proof. simpl. destruct (Js.Math_min l); eauto. Qed.

Lemma Math_max_inhabited (x : Q) (l : list Q) :
  In x l -> exists m, Js.Math_max l = Some m.
Proof. destruct l; [intros [] | intros _; apply Math_max_some]. Qed.

Lemma Math_min_inhabited (x : Q) (l : list Q) :
  In x l -> exists m, Js.Math_min l = Some m.
Proof. destruct l; [intros [] | intros _; apply Math_min_some]. Qed.

Lemma Math_max_upper (l : list Q) (m : Q) :
  Js.Math_max l = Some m -> forall x, In x l -> x <= m.
Proof.
  revert m. induction l as [| y l IH]; intros m Hm x Hx; [destruct Hx |].
  simpl in Hm. destruct (Js.Math_max l) as [m' |] eqn:E.
  - injection Hm as <-. destruct Hx as [-> | Hx].
    + apply Q.le_max_l.
    + apply Qle_trans with m'; [eauto | apply Q.le_max_r].
  - injection Hm as <-. destruct Hx as [-> | Hx]; [lra |].
    destruct l; [destruct Hx | simpl in E; destruct (Js.Math_max l); discriminate].
Qed.

Lemma Math_min_lower (l : list Q) (m : Q) :
  Js.Math_min l = Some m -> forall x, In x l -> m <= x.
Proof.
  revert m. induction l as [| y l IH]; intros m Hm x Hx; [destruct Hx |].
  simpl in Hm. destruct (Js.Math_min l) as [m' |] eqn:E.
  - injection Hm as <-. destruct Hx as [-> | Hx].
    + apply Q.le_min_l.
    + apply Qle_trans with m'; [apply Q.le_min_r | eauto].
  - injection Hm as <-. destruct Hx as [-> | Hx]; [lra |].
    destruct l; [destruct Hx | simpl in E; destruct (Js.Math_min l); discriminate].
Qed.

(** A bound shared by all the arguments bounds the result. *)
Lemma Math_max_least (l : list Q) (m c : Q) :
  Js.Math_max l = Some m -> (forall x, In x l -> x <= c) -> m <= c.
Proof.
  revert m. induction l as [| y l IH]; intros m Hm Hc; [discriminate |].
  simpl in Hm. destruct (Js.Math_max l) as [m' |] eqn:E.
  - injection Hm as <-. apply Q.max_lub; [apply Hc; left; reflexivity |].
    apply IH; [reflexivity | intros; apply Hc; right; assumption].
  - injection Hm as <-. apply Hc. left. reflexivity.
Qed.

Lemma Math_min_greatest (l : list Q) (m c : Q) :
  Js.Math_min l = Some m -> (forall x, In x l -> c <= x) -> c <= m.
Proof.
  revert m. induction l as [| y l IH]; intros m Hm Hc; [discriminate |].
  simpl in Hm. destruct (Js.Math_min l) as [m' |] eqn:E.
  - injection Hm as <-. apply Q.min_glb; [apply Hc; left; reflexivity |].
    apply IH; [reflexivity | intros; apply Hc; right; assumption].
  - injection Hm as <-. apply Hc. left. reflexivity.
Qed.

Lemma Math_max_pair (a b : Q) : Js.Math_max [a; b] = Some (Qmax a b).
Proof. reflexivity. Qed.

Lemma unit_interval_quotient (v mn mx : Q) :
  mn <= v <= mx -> mn < mx -> 0 <= (v - mn) / (mx - mn) <= 1.
Proof.
  intros [H1 H2] H3.
  assert (Hd : 0 < mx - mn) by lra.
  split.
  - apply Qle_shift_div_l; [exact Hd | lra].
  - apply Qle_shift_div_r; [exact Hd | lra].
Qed.

(** [normalize] returns a finite number whatever its arguments, and a
    number of the unit interval when [value] lies between the bounds. *)
Lemma normalize_total (v mn mx : Q) : exists s, normalize v mn mx = Some s.
Proof.
  unfold normalize.
  destruct (Js.strict_eq mx 0 || Js.strict_eq mx mn) eqn:E; [eauto |].
  apply orb_false_iff in E. destruct E as [_ E].
  apply strict_eq_false in E.
  rewrite div_some; [eauto | lra].
Qed.

Lemma normalize_unit (v mn mx : Q) :
  mn <= v <= mx -> exists s, normalize v mn mx = Some s /\ 0 <= s <= 1.
Proof.
  intros H. unfold normalize.
  destruct (Js.strict_eq mx 0 || Js.strict_eq mx mn) eqn:E.
  - exists 0. split; [reflexivity | lra].
  - apply orb_false_iff in E. destruct E as [_ E].
    apply strict_eq_false in E.
    rewrite div_some by lra.
    eexists. split; [reflexivity |].
    apply unit_interval_quotient; [exact H | lra].
Qed.

End JsFacts.

(** ** Facts about the pieces of the cascade *)

Section ScorerFacts.

Variable tzOffset : Date -> Z.

Lemma recencyOf_spec (now t : Date) :
  exists r, recencyOf now t = Some r /\ 0 < r <= 1.
Proof.
  unfold recencyOf.
  rewrite div_some by (intro H; vm_compute in H; discriminate).
  cbn [Js.bind]. rewrite Math_max_pair. cbn [Js.bind].
  set (h := Qmax 0 _).
  assert (Hh : 0 <= h) by apply Q.le_max_l.
  rewrite div_some by (intro H; vm_compute in H; discriminate).
  cbn [Js.bind].
  assert (Hd : 0 <= h / 24) by (apply Qle_shift_div_l; lra).
  rewrite div_some by lra.
  eexists. split; [reflexivity |]. split.
  - apply Qlt_shift_div_l; lra.
  - apply Qle_shift_div_r; lra.
Qed.

Lemma recencyStep_spec (now : Date) (m : PaperMetric) :
  exists r d, recencyStep now m = Some (r, d) /\ 0 <= r /\
    forall t, published_at m = Some t -> recencyOf now t = Some r /\ d = t.
Proof.
  unfold recencyStep. destruct (published_at m) as [t |].
  - rewrite div_some by (intro H; vm_compute in H; discriminate).
    cbn [Js.bind]. rewrite Math_max_pair. cbn [Js.bind].
    destruct (recencyOf_spec now t) as (r & Er & Hr).
    exists r, t. rewrite Er. cbn [Js.bind]. split; [reflexivity |].
    split; [lra |]. intros t' [= <-]. split; [exact Er | reflexivity].
  - exists 0, 0%Z. split; [reflexivity |]. split; [lra | discriminate].
Qed.

Lemma recencyLoop_spec (now : Date) (allMetrics : list PaperMetric) :
  exists recencyScores publishedDates,
    recencyLoop now allMetrics = Some (recencyScores, publishedDates) /\
    List.length recencyScores = List.length allMetrics /\
    List.length publishedDates = List.length allMetrics /\
    forall m t, In m allMetrics -> published_at m = Some t ->
      exists r, recencyOf now t = Some r /\ In r recencyScores /\
                In t publishedDates.
Proof.
  induction allMetrics as [| m rest IH].
  - exists [], []. repeat split. intros m t [].
  - destruct IH as (rs & ds & E & Lr & Ld & Hin).
    destruct (recencyStep_spec now m) as (r & d & Es & _ & Hs).
    exists (r :: rs), (d :: ds). cbn [recencyLoop]. rewrite Es. cbn [Js.bind].
    rewrite E. cbn [Js.bind]. split; [reflexivity |].
    split; [simpl; congruence |]. split; [simpl; congruence |].
    intros m' t [<- | Hm] Ht.
    + destruct (Hs t Ht) as [Hr ->]. exists r.
      split; [exact Hr |]. split; left; reflexivity.
    + destruct (Hin m' t Hm Ht) as (r' & Hr' & Hi1 & Hi2).
      exists r'. split; [exact Hr' |]. split; right; assumption.
Qed.

Lemma hourOfDay_total (d : Date) : exists h, hourOfDay tzOffset d = Some h.
Proof.
  unfold hourOfDay.
  rewrite div_some by (intro H; vm_compute in H; discriminate).
  cbn [Js.bind]. eauto.
Qed.

Lemma mapM_hourOfDay (ds : list Date) :
  exists hs, mapM (hourOfDay tzOffset) ds = Some hs /\
    List.length hs = List.length ds /\
    forall d h, In d ds -> hourOfDay tzOffset d = Some h -> In h hs.
Proof.
  induction ds as [| d ds IH].
  - exists []. repeat split. intros d h [].
  - destruct IH as (hs & E & L & Hin).
    destruct (hourOfDay_total d) as (h & Eh).
    exists (h :: hs). cbn [mapM]. rewrite Eh. cbn [Js.bind]. rewrite E.
    cbn [Js.bind]. split; [reflexivity |]. split; [simpl; congruence |].
    intros d' h' [<- | Hd] Eh'.
    + left. congruence.
    + right. eauto.
Qed.

Lemma findIndex_range {A : Type} (p : A -> bool) (l : list A) :
  (-1 <= findIndex p l < Z.of_nat (List.length l))%Z.
Proof.
  induction l as [| x l IH]; [simpl; lia |].
  cbn [findIndex List.length]. destruct (p x); [lia |].
  destruct (Z.ltb_spec (findIndex p l) 0); lia.
Qed.

Lemma indexRule_spec (downloads7d : Z) (allMetrics : list PaperMetric) :
  exists r, indexRule downloads7d allMetrics = Some r /\ unitOrFallThrough r.
Proof.
  unfold indexRule.
  set (i := findIndex _ _).
  assert (Hi := findIndex_range (sameDownloads downloads7d) allMetrics).
  fold i in Hi.
  destruct ((0 <=? i)%Z && Js.gt (length_num allMetrics) 1) eqn:E.
  - apply andb_true_iff in E. destruct E as [E1 E2].
    apply Z.leb_le in E1. apply gt_true in E2.
    unfold length_num in *.
    set (n := Z.of_nat (List.length allMetrics)) in *.
    assert (Hq : inject_Z i <= inject_Z n - 1).
    { assert (H : (i + 1 <= n)%Z) by lia.
      rewrite Zle_Qle, inject_Z_plus in H. change (inject_Z 1) with 1 in H.
      lra. }
    assert (H0 : 0 <= inject_Z i).
    { rewrite Zle_Qle in E1. exact E1. }
    rewrite div_some by lra. cbn [Js.bind].
    eexists. split; [reflexivity |]. cbn. unfold unitInterval.
    assert (Hd : 0 <= inject_Z i / (inject_Z n - 1) <= 1).
    { split.
      - apply Qle_shift_div_l; lra.
      - apply Qle_shift_div_r; lra. }
    lra.
  - exists None. split; [reflexivity | exact I].
Qed.

Lemma finalFallback_spec (downloads7d : Z) (allMetrics : list PaperMetric) :
  exists s, finalFallback downloads7d allMetrics = Some s /\ unitInterval s.
Proof.
  unfold finalFallback.
  destruct (indexRule_spec downloads7d allMetrics) as (r & -> & Hr).
  cbn [Js.bind]. destruct r as [s |].
  - exists s. split; [reflexivity | exact Hr].
  - exists 0. split; [reflexivity | unfold unitInterval; lra].
Qed.

Lemma recencyBlock_spec (now : Date) (downloads7d : Z)
  (allMetrics : list PaperMetric) (recencyScores : list Q)
  (publishedDates : list Date) :
  (forall m t, In m allMetrics -> published_at m = Some t ->
     exists r, recencyOf now t = Some r /\ In r recencyScores /\
               In t publishedDates) ->
  exists r,
    recencyBlock tzOffset now downloads7d allMetrics recencyScores
      publishedDates = Some r /\ unitOrFallThrough r.
Proof.
  intros Hin. unfold recencyBlock.
  assert (Hnone : exists r : option Q, Some (@None Q) = Some r /\ unitOrFallThrough r)
    by (exists None; split; [reflexivity | exact I]).
  destruct (0 <? List.length recencyScores)%nat eqn:Elen; cbn [Js.bind];
    [| exact Hnone].
  destruct recencyScores as [| r0 rs]; [discriminate |].
  destruct (Math_max_some r0 rs) as (mx & Emx). rewrite Emx. cbn [Js.bind].
  destruct (Js.gt mx 0) eqn:Egate; [| exact Hnone].
  destruct (find (sameDownloads downloads7d) allMetrics) as [cur |] eqn:Efind;
    [| exact Hnone].
  apply find_some in Efind. destruct Efind as [Hcur _].
  destruct (published_at cur) as [t |] eqn:Et; [| exact Hnone].
  destruct (Hin cur t Hcur Et) as (r & Er & Hr & Ht).
  rewrite Er. cbn [Js.bind].
  destruct (Math_min_some r0 rs) as (mn & Emn). rewrite Emn. cbn [Js.bind].
  assert (Hb : mn <= r <= mx).
  { split; [eapply Math_min_lower | eapply Math_max_upper]; eassumption. }
  destruct (Js.gt mx mn).
  { destruct (normalize_unit r mn mx Hb) as (s & -> & Hs).
    cbn [Js.bind]. exists (Some s). split; [reflexivity | exact Hs]. }
  destruct (hourOfDay_total t) as (h & Eh). rewrite Eh. cbn [Js.bind].
  destruct (mapM_hourOfDay publishedDates) as (hs & Ehs & _ & Hhs).
  rewrite Ehs. cbn [Js.bind].
  assert (Hh : In h hs) by eauto.
  destruct (Math_min_inhabited h hs Hh) as (mnh & Emnh).
  destruct (Math_max_inhabited h hs Hh) as (mxh & Emxh).
  rewrite Emnh, Emxh. cbn [Js.bind].
  destruct (Js.gt mxh mnh).
  - assert (Hbh : mnh <= h <= mxh).
    { split; [eapply Math_min_lower | eapply Math_max_upper]; eassumption. }
    destruct (normalize_unit h mnh mxh Hbh) as (s & -> & Hs).
    cbn [Js.bind]. exists (Some s). split; [reflexivity | exact Hs].
  - apply indexRule_spec.
Qed.

(** The bounds of the citation range: [Math.min(...counts, 0)] and
    [Math.max(...counts, 0)] are finite, and 0 lies between them. *)
Lemma citationRange_spec (allMetrics : list PaperMetric) :
  let counts := map (fun m => inject_Z (downloads_7d m)) allMetrics ++ [0] in
  exists mn mx,
    Js.Math_min counts = Some mn /\ Js.Math_max counts = Some mx /\
    mn <= 0 <= mx /\
    (forall m, In m allMetrics ->
       mn <= inject_Z (downloads_7d m) <= mx) /\
    (nonNegativeCounts allMetrics -> mn == 0) /\
    (forall c : Z, (0 <= c)%Z ->
       (forall m, In m allMetrics -> (downloads_7d m <= c)%Z) ->
       mx <= inject_Z c).
Proof.
  intros counts.
  assert (H0 : In 0 counts) by (apply in_or_app; right; left; reflexivity).
  destruct (Math_min_inhabited 0 counts H0) as (mn & Emn).
  destruct (Math_max_inhabited 0 counts H0) as (mx & Emx).
  exists mn, mx. split; [exact Emn |]. split; [exact Emx |].
  assert (Hmn0 : mn <= 0) by (eapply Math_min_lower; eassumption).
  assert (Hmx0 : 0 <= mx) by (eapply Math_max_upper; eassumption).
  split; [split; assumption |].
  split; [| split].
  - intros m Hm.
    assert (Hc : In (inject_Z (downloads_7d m)) counts).
    { apply in_or_app. left.
      apply (in_map (fun m => inject_Z (downloads_7d m))). exact Hm. }
    split; [eapply Math_min_lower | eapply Math_max_upper]; eassumption.
  - intros Hnn.
    assert (0 <= mn); [| lra].
    eapply Math_min_greatest; [exact Emn |].
    intros x Hx. apply in_app_or in Hx. destruct Hx as [Hx | [<- | []]]; [| lra].
    apply in_map_iff in Hx. destruct Hx as (m & <- & Hm).
    specialize (Hnn m Hm). rewrite Zle_Qle in Hnn. exact Hnn.
  - intros c Hc Hall.
    eapply Math_max_least; [exact Emx |].
    intros x Hx. apply in_app_or in Hx. destruct Hx as [Hx | [<- | []]].
    + apply in_map_iff in Hx. destruct Hx as (m & <- & Hm).
      specialize (Hall m Hm). rewrite Zle_Qle in Hall. exact Hall.
    + rewrite Zle_Qle in Hc. exact Hc.
Qed.

(** The two regimes of the scorer.  With a positive maximum it returns
    the citation quotient; otherwise the cascade returns a number of the
    unit interval. *)
Lemma computeEngagementScore_regimes (now : Date) (downloads7d : Z)
  (githubRepoCount : Z) (allMetrics : list PaperMetric)
  (publishedAt : option Date) :
  exists mn mx,
    Js.Math_min (map (fun m => inject_Z (downloads_7d m)) allMetrics ++ [0])
      = Some mn /\
    Js.Math_max (map (fun m => inject_Z (downloads_7d m)) allMetrics ++ [0])
      = Some mx /\
    ((0 < mx /\
      computeEngagementScore tzOffset now downloads7d githubRepoCount
        allMetrics publishedAt
      = Some ((inject_Z downloads7d - mn) / (mx - mn)))
     \/
     (mx == 0 /\
      exists s,
        computeEngagementScore tzOffset now downloads7d githubRepoCount
          allMetrics publishedAt = Some s /\ unitInterval s)).
Proof.
  destruct (citationRange_spec allMetrics) as (mn & mx & Emn & Emx & [Hmn Hmx] & _).
  exists mn, mx. split; [exact Emn |]. split; [exact Emx |].
  unfold computeEngagementScore. rewrite Emn, Emx. cbn [Js.bind].
  destruct (Js.gt mx 0) eqn:Egt.
  - left. apply gt_true in Egt. split; [exact Egt |].
    unfold normalize.
    assert (E1 : Js.strict_eq mx 0 = false) by (apply strict_eq_false; lra).
    assert (E2 : Js.strict_eq mx mn = false) by (apply strict_eq_false; lra).
    rewrite E1, E2. cbn [orb]. apply div_some. lra.
  - right. apply gt_false in Egt. split; [lra |].
    destruct (recencyLoop_spec now allMetrics) as (rs & ds & -> & _ & _ & Hin).
    cbn [Js.bind].
    destruct (recencyBlock_spec now downloads7d allMetrics rs ds Hin)
      as (r & -> & Hr).
    cbn [Js.bind]. destruct r as [s |].
    + exists s. split; [reflexivity | exact Hr].
    + apply finalFallback_spec.
Qed.

End ScorerFacts.

(** ** The scorer: range, totality, order and extremes *)

Section ScorerProperties.

Variable tzOffset : Date -> Z.

Lemma quotient_monotone (x y c : Q) : 0 < c -> x <= y -> x / c <= y / c.
Proof.
  intros Hc Hxy. unfold Qdiv. apply Qmult_le_compat_r; [exact Hxy |].
  apply Qinv_le_0_compat. lra.
Qed.

Lemma computeEngagementScore_total (now : Date) (downloads7d githubRepoCount : Z)
  (allMetrics : list PaperMetric) (publishedAt : option Date) :
  exists s,
    computeEngagementScore tzOffset now downloads7d githubRepoCount allMetrics
      publishedAt = Some s.
Proof.
  destruct (computeEngagementScore_regimes tzOffset now downloads7d
              githubRepoCount allMetrics publishedAt)
    as (mn & mx & _ & _ & [[_ E] | [_ (s & E & _)]]); eauto.
Qed.

(** With non-negative counts of which one is positive, the scorer returns
    the count divided by the largest count of the batch. *)
Lemma citation_path (now : Date) (downloads7d githubRepoCount : Z)
  (allMetrics : list PaperMetric) (publishedAt : option Date)
  (top : PaperMetric) :
  nonNegativeCounts allMetrics ->
  In top allMetrics -> (0 < downloads_7d top)%Z ->
  (forall m, In m allMetrics -> (downloads_7d m <= downloads_7d top)%Z) ->
  exists s,
    computeEngagementScore tzOffset now downloads7d githubRepoCount allMetrics
      publishedAt = Some s /\
    s == inject_Z downloads7d / inject_Z (downloads_7d top).
Proof.
  intros Hnn Htop Hpos Hmax.
  destruct (citationRange_spec allMetrics)
    as (mn & mx & Emn & Emx & _ & Hrange & Hzero & Hleast).
  specialize (Hzero Hnn).
  assert (Hmx : mx == inject_Z (downloads_7d top)).
  { apply Qle_antisym.
    - apply Hleast; [lia | exact Hmax].
    - apply Hrange. exact Htop. }
  assert (Hq : 0 < inject_Z (downloads_7d top)).
  { rewrite Zlt_Qlt in Hpos. exact Hpos. }
  destruct (computeEngagementScore_regimes tzOffset now downloads7d
              githubRepoCount allMetrics publishedAt)
    as (mn' & mx' & Emn' & Emx' & H).
  assert (mn' = mn) by congruence. assert (mx' = mx) by congruence. subst.
  destruct H as [[_ E] | [H0 _]]; [| lra].
  eexists. split; [exact E |].
  rewrite Hzero, Hmx. unfold Qminus. rewrite !Qplus_0_r. reflexivity.
Qed.

(** A batch whose non-negative counts are not all equal has a positive
    largest count, attained by one of its rows. *)
Lemma largest_count (allMetrics : list PaperMetric) (x : PaperMetric) :
  In x allMetrics ->
  exists top, In top allMetrics /\
    forall m, In m allMetrics -> (downloads_7d m <= downloads_7d top)%Z.
Proof.
  revert x. induction allMetrics as [| y rest IH]; intros x Hx; [destruct Hx |].
  destruct rest as [| z rest'].
  - exists y. split; [left; reflexivity |].
    intros m [<- | []]. lia.
  - destruct (IH z (or_introl eq_refl)) as (top & Ht & Hmax).
    destruct (Z_le_gt_dec (downloads_7d y) (downloads_7d top)) as [Hle | Hgt].
    + exists top. split; [right; exact Ht |].
      intros m [<- | Hm]; [exact Hle | apply Hmax; exact Hm].
    + exists y. split; [left; reflexivity |].
      intros m [<- | Hm]; [lia |]. specialize (Hmax m Hm). lia.
Qed.

(** C1: for every batch whose citation counts are non-negative integers,
    every score that computeEngagementScore returns for an item of the
    batch is a number of the closed interval [0,1], whichever branch of
    the scorer produces it (citation path, recency, time of day,
    position, or the default 0). *)
Theorem score_in_unit_interval (now : Date) (allMetrics : list PaperMetric)
  (metric : PaperMetric) (githubRepoCount : Z) (publishedAt : option Date) :
  nonNegativeCounts allMetrics ->
  In metric allMetrics ->
  exists s,
    computeEngagementScore tzOffset now (downloads_7d metric) githubRepoCount
      allMetrics publishedAt = Some s /\
    0 <= s <= 1.
Proof.
  intros Hnn Hin.
  destruct (citationRange_spec allMetrics)
    as (mn & mx & Emn & Emx & [Hmn Hmx] & Hrange & _).
  destruct (computeEngagementScore_regimes tzOffset now (downloads_7d metric)
              githubRepoCount allMetrics publishedAt)
    as (mn' & mx' & Emn' & Emx' & H).
  assert (mn' = mn) by congruence. assert (mx' = mx) by congruence. subst.
  destruct H as [[Hpos E] | [_ (s & E & Hs)]].
  - eexists. split; [exact E |].
    apply unit_interval_quotient; [apply Hrange; exact Hin | lra].
  - exists s. split; [exact E | exact Hs].
Qed.


(** C2: in a batch whose non-negative citation counts are not all equal,
    scores are ordered like the counts: if a's count is at most b's, then
    a's score is at most b's (whatever the clock reads at either call). *)
Theorem score_monotone (now_a now_b : Date) (allMetrics : list PaperMetric)
  (a b : PaperMetric) :
  nonNegativeCounts allMetrics ->
  (exists x y, In x allMetrics /\ In y allMetrics /\
               downloads_7d x <> downloads_7d y) ->
  In a allMetrics -> In b allMetrics ->
  (downloads_7d a <= downloads_7d b)%Z ->
  exists sa sb,
    scoreOf tzOffset now_a allMetrics a = Some sa /\
    scoreOf tzOffset now_b allMetrics b = Some sb /\
    sa <= sb.
Proof.
  intros Hnn (x & y & Hx & Hy & Hxy) Ha Hb Hab.
  destruct (largest_count allMetrics x Hx) as (top & Htop & Hmax).
  assert (Hpos : (0 < downloads_7d top)%Z).
  { pose proof (Hnn x Hx). pose proof (Hnn y Hy).
    pose proof (Hmax x Hx). pose proof (Hmax y Hy). lia. }
  unfold scoreOf.
  destruct (citation_path now_a (downloads_7d a) (github_repo_count a)
              allMetrics (published_at a) top Hnn Htop Hpos Hmax)
    as (sa & Ea & Hsa).
  destruct (citation_path now_b (downloads_7d b) (github_repo_count b)
              allMetrics (published_at b) top Hnn Htop Hpos Hmax)
    as (sb & Eb & Hsb).
  exists sa, sb. split; [exact Ea |]. split; [exact Eb |].
  rewrite Hsa, Hsb. apply quotient_monotone.
  - rewrite Zlt_Qlt in Hpos. exact Hpos.
  - rewrite Zle_Qle in Hab. exact Hab.
Qed.

(** C3: in a batch of non-negative counts with at least one
    nonzero count, the item with the largest count scores exactly 1, and
    the item with the smallest count scores its count divided by the
    largest count, which is 0 exactly when its count is 0. *)
Theorem extreme_scores (now : Date) (allMetrics : list PaperMetric)
  (hi lo : PaperMetric) :
  nonNegativeCounts allMetrics ->
  (exists x, In x allMetrics /\ downloads_7d x <> 0%Z) ->
  In hi allMetrics ->
  (forall m, In m allMetrics -> (downloads_7d m <= downloads_7d hi)%Z) ->
  In lo allMetrics ->
  (forall m, In m allMetrics -> (downloads_7d lo <= downloads_7d m)%Z) ->
  exists s_hi s_lo,
    scoreOf tzOffset now allMetrics hi = Some s_hi /\ s_hi == 1 /\
    scoreOf tzOffset now allMetrics lo = Some s_lo /\
    s_lo == inject_Z (downloads_7d lo) / inject_Z (downloads_7d hi) /\
    (s_lo == 0 <-> downloads_7d lo = 0%Z).
Proof.
  intros Hnn (x & Hx & Hx0) Hhi Hmax Hlo Hmin.
  assert (Hpos : (0 < downloads_7d hi)%Z).
  { pose proof (Hnn x Hx). pose proof (Hmax x Hx). lia. }
  assert (Hq : 0 < inject_Z (downloads_7d hi)).
  { rewrite Zlt_Qlt in Hpos. exact Hpos. }
  unfold scoreOf.
  destruct (citation_path now (downloads_7d hi) (github_repo_count hi)
              allMetrics (published_at hi) hi Hnn Hhi Hpos Hmax)
    as (s_hi & Ehi & Hs_hi).
  destruct (citation_path now (downloads_7d lo) (github_repo_count lo)
              allMetrics (published_at lo) hi Hnn Hhi Hpos Hmax)
    as (s_lo & Elo & Hs_lo).
  exists s_hi, s_lo. split; [exact Ehi |]. split.
  { rewrite Hs_hi. field. lra. }
  split; [exact Elo |]. split; [exact Hs_lo |].
  rewrite Hs_lo. split.
  - intros H.
    assert (Hz : inject_Z (downloads_7d lo) == 0).
    { rewrite <- (Qmult_div_r (inject_Z (downloads_7d lo))
                               (inject_Z (downloads_7d hi))) by lra.
      rewrite H. ring. }
    unfold Qeq in Hz. simpl in Hz. lia.
  - intros ->. change (inject_Z 0) with 0. field. lra.
Qed.

(** No part of the cascade reads the repository counts of the rows. *)
Lemma recencyLoop_withRepoCount (repoCount : PaperMetric -> Z) (now : Date)
  (allMetrics : list PaperMetric) :
  recencyLoop now (map (withRepoCount repoCount) allMetrics)
  = recencyLoop now allMetrics.
Proof.
  induction allMetrics as [| m rest IH]; [reflexivity |].
  cbn [map recencyLoop]. rewrite IH. reflexivity.
Qed.

Lemma find_withRepoCount (repoCount : PaperMetric -> Z) (downloads7d : Z)
  (allMetrics : list PaperMetric) :
  find (sameDownloads downloads7d) (map (withRepoCount repoCount) allMetrics)
  = option_map (withRepoCount repoCount)
      (find (sameDownloads downloads7d) allMetrics).
Proof.
  induction allMetrics as [| m rest IH]; [reflexivity |].
  cbn [map find]. change (sameDownloads downloads7d (withRepoCount repoCount m))
    with (sameDownloads downloads7d m).
  destruct (sameDownloads downloads7d m); [reflexivity | exact IH].
Qed.

Lemma findIndex_withRepoCount (repoCount : PaperMetric -> Z) (downloads7d : Z)
  (allMetrics : list PaperMetric) :
  findIndex (sameDownloads downloads7d)
    (map (withRepoCount repoCount) allMetrics)
  = findIndex (sameDownloads downloads7d) allMetrics.
Proof.
  induction allMetrics as [| m rest IH]; [reflexivity |].
  cbn [map findIndex]. change (sameDownloads downloads7d (withRepoCount repoCount m))
    with (sameDownloads downloads7d m).
  rewrite IH. reflexivity.
Qed.

Lemma indexRule_withRepoCount (repoCount : PaperMetric -> Z) (downloads7d : Z)
  (allMetrics : list PaperMetric) :
  indexRule downloads7d (map (withRepoCount repoCount) allMetrics)
  = indexRule downloads7d allMetrics.
Proof.
  unfold indexRule, length_num.
  rewrite findIndex_withRepoCount, length_map. reflexivity.
Qed.

Lemma recencyBlock_withRepoCount (repoCount : PaperMetric -> Z) (now : Date)
  (downloads7d : Z) (allMetrics : list PaperMetric) (recencyScores : list Q)
  (publishedDates : list Date) :
  recencyBlock tzOffset now downloads7d
    (map (withRepoCount repoCount) allMetrics) recencyScores publishedDates
  = recencyBlock tzOffset now downloads7d allMetrics recencyScores
      publishedDates.
Proof.
  unfold recencyBlock.
  rewrite find_withRepoCount, indexRule_withRepoCount.
  destruct (find (sameDownloads downloads7d) allMetrics) as [cur |];
    reflexivity.
Qed.

(** C10: the score does not depend on the repository-mention signal: two
    calls that differ only in the githubRepoCount argument return the
    same score, and so do two calls on batches whose rows differ only in
    their repository counts. *)
Theorem score_independent_of_repo_count (now : Date) (downloads7d : Z)
  (allMetrics : list PaperMetric) (publishedAt : option Date) :
  (forall githubRepoCount githubRepoCount' : Z,
     computeEngagementScore tzOffset now downloads7d githubRepoCount
       allMetrics publishedAt
     = computeEngagementScore tzOffset now downloads7d githubRepoCount'
         allMetrics publishedAt) /\
  (forall (githubRepoCount githubRepoCount' : Z)
          (repoCount : PaperMetric -> Z),
     computeEngagementScore tzOffset now downloads7d githubRepoCount
       allMetrics publishedAt
     = computeEngagementScore tzOffset now downloads7d githubRepoCount'
         (map (withRepoCount repoCount) allMetrics) publishedAt).
Proof.
  split; [reflexivity |].
  intros g g' repoCount. unfold computeEngagementScore.
  rewrite map_map. cbn [withRepoCount downloads_7d].
  rewrite recencyLoop_withRepoCount.
  unfold finalFallback. rewrite indexRule_withRepoCount.
  destruct (Js.Math_min _) as [mn |]; [| reflexivity].
  destruct (Js.Math_max _) as [mx |]; [| reflexivity].
  cbn [Js.bind]. destruct (Js.gt mx 0); [reflexivity |].
  destruct (recencyLoop now allMetrics) as [[rs ds] |]; [| reflexivity].
  cbn [Js.bind]. rewrite recencyBlock_withRepoCount. reflexivity.
Qed.


End ScorerProperties.

(** ** Uncited batches, newest first

    What the cascade returns for the batches the recomputation builds
    when no paper has a citation yet: rows sorted newest first. *)

Section UncitedBatch.

Variable tzOffset : Date -> Z.

Lemma recencyOf_weight (now t : Date) : recencyOf now t = Some (weight now t).
Proof.
  unfold recencyOf, weight.
  rewrite div_some by (intro H; vm_compute in H; discriminate).
  cbn [Js.bind]. rewrite Math_max_pair. cbn [Js.bind].
  set (h := Qmax 0 _).
  assert (Hh : 0 <= h) by apply Q.le_max_l.
  rewrite div_some by (intro H; vm_compute in H; discriminate).
  cbn [Js.bind].
  assert (Hd : 0 <= h / 24) by (apply Qle_shift_div_l; lra).
  apply div_some. lra.
Qed.

Lemma weight_positive (now t : Date) : 0 < weight now t.
Proof.
  destruct (recencyOf_spec now t) as (r & E & Hr).
  rewrite recencyOf_weight in E. injection E as <-. apply Hr.
Qed.

Lemma hours_nonneg (h : Q) : 0 <= h -> 0 < 1 + h / 24.
Proof.
  intro Hh. assert (0 <= h / 24) by (apply Qle_shift_div_l; lra). lra.
Qed.

(** The weight does not increase with age, and decreases strictly between
    two instants of which the earlier one is in the past. *)
Lemma weight_monotone (now t t' : Date) :
  (t <= t')%Z -> weight now t <= weight now t'.
Proof.
  intro Hle. unfold weight.
  set (c := 1000 * 60 * 60).
  assert (Hc : 0 < c) by reflexivity.
  assert (Hq : getTime t <= getTime t').
  { unfold getTime. rewrite <- Zle_Qle. exact Hle. }
  assert (Ha : (getTime now - getTime t') / c <= (getTime now - getTime t) / c)
    by (apply quotient_monotone; lra).
  set (h := Qmax 0 ((getTime now - getTime t) / c)).
  set (h' := Qmax 0 ((getTime now - getTime t') / c)).
  assert (Hh' : 0 <= h') by apply Q.le_max_l.
  assert (Hhh : h' <= h).
  { apply Q.max_lub; [apply Q.le_max_l |].
    apply Qle_trans with ((getTime now - getTime t) / c);
      [exact Ha | apply Q.le_max_r]. }
  assert (Hh : 0 <= h) by lra.
  pose proof (hours_nonneg h Hh). pose proof (hours_nonneg h' Hh').
  assert (Hd : h' / 24 <= h / 24) by (apply quotient_monotone; lra).
  apply Qle_shift_div_l; [assumption |].
  unfold Qdiv at 1. rewrite Qmult_comm, Qmult_assoc, Qmult_1_r.
  apply Qle_shift_div_r; [assumption |]. lra.
Qed.

Lemma weight_strict (now t t' : Date) :
  (t < t')%Z -> (t < now)%Z -> weight now t < weight now t'.
Proof.
  intros Hlt Hpast. unfold weight.
  set (c := 1000 * 60 * 60).
  assert (Hc : 0 < c) by reflexivity.
  assert (Hq : getTime t < getTime t').
  { unfold getTime. rewrite <- Zlt_Qlt. exact Hlt. }
  assert (Hn : getTime t < getTime now).
  { unfold getTime. rewrite <- Zlt_Qlt. exact Hpast. }
  set (a := (getTime now - getTime t) / c).
  set (a' := (getTime now - getTime t') / c).
  assert (Ha : 0 < a) by (apply Qlt_shift_div_l; lra).
  assert (Haa : a' < a).
  { unfold a, a', Qdiv. apply Qmult_lt_compat_r; [| lra].
    apply Qinv_lt_0_compat. exact Hc. }
  set (h := Qmax 0 a). set (h' := Qmax 0 a').
  assert (Hh' : 0 <= h') by apply Q.le_max_l.
  assert (Hhh : h' < h).
  { unfold h, h'. rewrite (Q.max_r 0 a) by lra.
    apply Q.max_lub_lt; assumption. }
  assert (Hh : 0 <= h) by lra.
  pose proof (hours_nonneg h Hh). pose proof (hours_nonneg h' Hh').
  assert (Hd : h' / 24 < h / 24).
  { unfold Qdiv. apply Qmult_lt_compat_r; [reflexivity | exact Hhh]. }
  apply Qlt_shift_div_l; [assumption |].
  unfold Qdiv at 1. rewrite Qmult_comm, Qmult_assoc, Qmult_1_r.
  apply Qlt_shift_div_r; [assumption |]. lra.
Qed.

(** Where each recency score of the loop comes from. *)
Lemma recencyLoop_origin (now : Date) (allMetrics : list PaperMetric)
  (recencyScores : list Q) (publishedDates : list Date) :
  recencyLoop now allMetrics = Some (recencyScores, publishedDates) ->
  forall r, In r recencyScores ->
    exists m, In m allMetrics /\
      match published_at m with
      | Some t => r = weight now t
      | None => r = 0
      end.
Proof.
  revert recencyScores publishedDates.
  induction allMetrics as [| m rest IH]; intros rs ds E r Hr.
  - injection E as <- <-. destruct Hr.
  - cbn [recencyLoop] in E.
    destruct (recencyStep_spec now m) as (r0 & d0 & Es & _ & Hs).
    rewrite Es in E. cbn [Js.bind] in E.
    destruct (recencyLoop now rest) as [[rs' ds'] |] eqn:El; [| discriminate].
    cbn [Js.bind] in E. injection E as <- <-.
    destruct Hr as [<- | Hr].
    + exists m. split; [left; reflexivity |].
      destruct (published_at m) as [t |] eqn:Et.
      * destruct (Hs t eq_refl) as [Hw _]. rewrite recencyOf_weight in Hw.
        congruence.
      * unfold recencyStep in Es. rewrite Et in Es. congruence.
    + destruct (IH rs' ds' eq_refl r Hr) as (m' & Hm' & Hmatch).
      exists m'. split; [right; exact Hm' | exact Hmatch].
Qed.

(** In a batch without citations whose first row is the newest, as soon
    as one row is older than the first (or has no date), every row
    receives score 1: each call scores the first row. *)
Theorem uncited_batch_all_score_one (now : Date) (first : PaperMetric)
  (rest : list PaperMetric) (t0 : Date) (older metric : PaperMetric) :
  let allMetrics := first :: rest in
  allZeroCounts allMetrics ->
  published_at first = Some t0 ->
  (forall m t, In m allMetrics -> published_at m = Some t -> (t <= t0)%Z) ->
  In older allMetrics ->
  match published_at older with
  | Some t => (t < t0)%Z /\ (t < now)%Z
  | None => True
  end ->
  In metric allMetrics ->
  exists s, scoreOf tzOffset now allMetrics metric = Some s /\ s == 1.
Proof.
  intros allMetrics Hz Ht0 Hnewest Holder Hage Hmetric.
  unfold scoreOf, computeEngagementScore.
  destruct (citationRange_spec allMetrics)
    as (mn & mx & -> & -> & _ & _ & _ & Hleast).
  cbn [Js.bind].
  assert (Hmx : mx <= 0).
  { apply (Hleast 0%Z); [lia |]. intros m Hm. rewrite (Hz m Hm). lia. }
  apply gt_false in Hmx. rewrite Hmx.
  destruct (recencyLoop_spec now allMetrics) as (rs & ds & El & _ & _ & Hin).
  rewrite El. cbn [Js.bind].
  pose proof (recencyLoop_origin now allMetrics rs ds El) as Horigin.
  (* the weight of the first row bounds every recency score *)
  set (r0 := weight now t0).
  assert (Hr0 : In r0 rs).
  { destruct (Hin first t0 (or_introl eq_refl) Ht0) as (r & Er & Hr & _).
    rewrite recencyOf_weight in Er. injection Er as <-. exact Hr. }
  assert (Hpos : 0 < r0) by apply weight_positive.
  assert (Hupper : forall r, In r rs -> r <= r0).
  { intros r Hr. destruct (Horigin r Hr) as (m & Hm & Hmatch).
    destruct (published_at m) as [t |] eqn:Et.
    - subst r. apply weight_monotone. eapply Hnewest; eassumption.
    - subst r. lra. }
  assert (Hlower : exists r, In r rs /\ r < r0).
  { destruct (published_at older) as [t |] eqn:Et.
    - destruct (Hin older t Holder Et) as (r & Er & Hr & _).
      rewrite recencyOf_weight in Er. injection Er as <-.
      exists (weight now t). split; [exact Hr |].
      apply weight_strict; apply Hage.
    - (* a row without date contributes the score 0 *)
      clear - El Holder Et Hpos.
      assert (H0 : In 0 rs).
      { revert rs ds El. generalize dependent allMetrics.
        intros ms. induction ms as [| m ms' IH]; intros Hold rs ds El;
          [destruct Hold |].
        cbn [recencyLoop] in El.
        destruct (recencyStep_spec now m) as (r1 & d1 & Es & _ & _).
        pose proof Es as Es'. rewrite Es in El. cbn [Js.bind] in El.
        destruct (recencyLoop now ms') as [[rs' ds'] |] eqn:El';
          [| discriminate].
        cbn [Js.bind] in El. injection El as <- <-.
        destruct Hold as [<- | Hold].
        - left. unfold recencyStep in Es'. rewrite Et in Es'. congruence.
        - right. eapply IH; [exact Hold | reflexivity]. }
      exists 0. split; [exact H0 | exact Hpos]. }
  destruct Hlower as (rlow & Hrlow & Hlt).
  (* the block *)
  unfold recencyBlock.
  destruct rs as [| rhead rtail]; [destruct Hr0 |].
  change (0 <? List.length (rhead :: rtail))%nat with true. cbn iota.
  destruct (Math_max_some rhead rtail) as (mxr & Emx).
  destruct (Math_min_some rhead rtail) as (mnr & Emn).
  rewrite Emx. cbn [Js.bind].
  assert (Hmxr : mxr == r0).
  { apply Qle_antisym.
    - eapply Math_max_least; [exact Emx | exact Hupper].
    - eapply Math_max_upper; [exact Emx | exact Hr0]. }
  assert (Hmnr : mnr < mxr).
  { apply Qle_lt_trans with rlow;
      [eapply Math_min_lower; [exact Emn | exact Hrlow] | lra]. }
  assert (Egate : Js.gt mxr 0 = true) by (apply gt_true; lra).
  rewrite Egate.
  assert (Efind : find (sameDownloads (downloads_7d metric)) allMetrics
                  = Some first).
  { unfold allMetrics. cbn [find]. unfold sameDownloads.
    rewrite (Hz metric Hmetric), (Hz first (or_introl eq_refl)). reflexivity. }
  rewrite Efind, Ht0, recencyOf_weight. cbn [Js.bind]. fold r0.
  rewrite Emn. cbn [Js.bind].
  assert (Egt : Js.gt mxr mnr = true) by (apply gt_true; exact Hmnr).
  rewrite Egt.
  unfold normalize.
  assert (E1 : Js.strict_eq mxr 0 = false) by (apply strict_eq_false; lra).
  assert (E2 : Js.strict_eq mxr mnr = false) by (apply strict_eq_false; lra).
  rewrite E1, E2. cbn [orb]. rewrite div_some by lra. cbn [Js.bind].
  eexists. split; [reflexivity |].
  rewrite <- Hmxr. field. lra.
Qed.

End UncitedBatch.

(** ** normalize *)

(** C8: for all numbers value, min and max, normalize returns
    (value - min) / (max - min) when max > min and max is not 0, and
    returns 0 when max equals min or max equals 0. *)
Theorem normalize_spec (value min max : Q) :
  (min < max -> ~ max == 0 ->
   normalize value min max = Some ((value - min) / (max - min))) /\
  (max == min \/ max == 0 -> normalize value min max = Some 0).
Proof.
  unfold normalize. split.
  - intros Hlt Hnz.
    assert (E1 : Js.strict_eq max 0 = false) by (apply strict_eq_false; exact Hnz).
    assert (E2 : Js.strict_eq max min = false) by (apply strict_eq_false; lra).
    rewrite E1, E2. cbn [orb]. apply div_some. lra.
  - intros [H | H].
    + apply strict_eq_true in H. rewrite H, orb_true_r. reflexivity.
    + apply strict_eq_true in H. rewrite H. reflexivity.
Qed.

Lemma normalize_spec_witness :
  (0 < 10 /\ ~ 10 == 0 /\ normalize 5 0 10 = Some ((5 - 0) / (10 - 0))) /\
  ((0 == 0 \/ 0 == 0) /\ normalize 3 0 0 = Some 0).
Proof.
  split.
  - split; [reflexivity |]. split; [discriminate |].
    apply (proj1 (normalize_spec 5 0 10)); [reflexivity | discriminate].
  - split; [left; reflexivity |].
    apply (proj2 (normalize_spec 3 0 0)). left. reflexivity.
Defined.

(** With max = 0 above a negative min, the guard on max = 0 wins: the
    result is 0, not the quotient, although max > min. *)
Lemma normalize_zero_max_above_min :
  -2 < 0 /\
  normalize (-1) (-2) 0 = Some 0 /\
  ~ 0 == (-1 - -2) / (0 - -2).
Proof. split; [reflexivity |]. split; [reflexivity | discriminate]. Qed.

(** ** The scorer on the sample batches *)

Ltac in_batch := simpl; tauto.

Ltac counts_of_batch :=
  let m := fresh "m" in
  let H := fresh "H" in
  intros m H; simpl in H;
  repeat (destruct H as [<- | H]; [vm_compute; congruence |]);
  destruct H.

(** The batch A = 10, B = 0, C = 5 scores A = 1, B = 0, C = 1/2. *)
Example example_ABC_scores :
  exists sA sB sC,
    map (scoreOf utc jan1noon exampleABC) exampleABC
    = [Some sA; Some sB; Some sC] /\
    sA == 1 /\ sB == 0 /\ sC == 1 # 2.
Proof.
  do 3 eexists. split; [vm_compute; reflexivity |].
  repeat split; reflexivity.
Qed.

(** A single uncited paper without publication date scores 0, and so does
    any item scored against an empty batch. *)
Example lone_paper_scores_zero :
  scoreOf utc jan1noon [paperB] paperB = Some 0 /\
  scoreOf utc jan1noon [] paperB = Some 0.
Proof. split; vm_compute; reflexivity. Qed.

Lemma score_in_unit_interval_witness :
  nonNegativeCounts threeDays /\ In middle threeDays /\
  exists s,
    computeEngagementScore utc jan1noon (downloads_7d middle)
      (github_repo_count middle) threeDays (published_at middle) = Some s /\
    0 <= s <= 1.
Proof.
  assert (Hnn : nonNegativeCounts threeDays) by counts_of_batch.
  assert (Hin : In middle threeDays) by in_batch.
  split; [exact Hnn |]. split; [exact Hin |].
  exact (score_in_unit_interval utc jan1noon threeDays middle
           (github_repo_count middle) (published_at middle) Hnn Hin).
Defined.

Lemma score_monotone_witness :
  nonNegativeCounts exampleABC /\
  (exists x y, In x exampleABC /\ In y exampleABC /\
               downloads_7d x <> downloads_7d y) /\
  In paperC exampleABC /\ In paperA exampleABC /\
  (downloads_7d paperC <= downloads_7d paperA)%Z /\
  exists sa sb,
    scoreOf utc jan1noon exampleABC paperC = Some sa /\
    scoreOf utc jan2noon exampleABC paperA = Some sb /\
    sa <= sb.
Proof.
  assert (Hnn : nonNegativeCounts exampleABC) by counts_of_batch.
  assert (Hne : exists x y, In x exampleABC /\ In y exampleABC /\
                            downloads_7d x <> downloads_7d y).
  { exists paperA, paperB. split; [in_batch |]. split; [in_batch |].
    vm_compute. congruence. }
  assert (Hc : In paperC exampleABC) by in_batch.
  assert (Ha : In paperA exampleABC) by in_batch.
  assert (Hle : (downloads_7d paperC <= downloads_7d paperA)%Z)
    by (vm_compute; congruence).
  repeat (split; [assumption |]).
  exact (score_monotone utc jan1noon jan2noon exampleABC paperC paperA
           Hnn Hne Hc Ha Hle).
Defined.

Lemma extreme_scores_witness :
  nonNegativeCounts exampleABC /\
  (exists x, In x exampleABC /\ downloads_7d x <> 0%Z) /\
  In paperA exampleABC /\
  (forall m, In m exampleABC -> (downloads_7d m <= downloads_7d paperA)%Z) /\
  In paperB exampleABC /\
  (forall m, In m exampleABC -> (downloads_7d paperB <= downloads_7d m)%Z) /\
  exists s_hi s_lo,
    scoreOf utc jan1noon exampleABC paperA = Some s_hi /\ s_hi == 1 /\
    scoreOf utc jan1noon exampleABC paperB = Some s_lo /\
    s_lo == inject_Z (downloads_7d paperB) / inject_Z (downloads_7d paperA) /\
    (s_lo == 0 <-> downloads_7d paperB = 0%Z).
Proof.
  assert (Hnn : nonNegativeCounts exampleABC) by counts_of_batch.
  assert (Hnz : exists x, In x exampleABC /\ downloads_7d x <> 0%Z).
  { exists paperA. split; [in_batch | vm_compute; congruence]. }
  assert (Ha : In paperA exampleABC) by in_batch.
  assert (Hmax : forall m, In m exampleABC ->
                           (downloads_7d m <= downloads_7d paperA)%Z)
    by counts_of_batch.
  assert (Hb : In paperB exampleABC) by in_batch.
  assert (Hmin : forall m, In m exampleABC ->
                           (downloads_7d paperB <= downloads_7d m)%Z)
    by counts_of_batch.
  repeat (split; [assumption |]).
  exact (extreme_scores utc jan1noon exampleABC paperA paperB
           Hnn Hnz Ha Hmax Hb Hmin).
Defined.

(** In a batch with counts 5 and 10, the row with the smallest count
    differs from the largest and still scores 1/2, not 0: the range is
    floored at 0 by [Math.min(...counts, 0)]. *)
Lemma smallest_count_scores_above_zero :
  In cited5 bothCited /\
  (forall m, In m bothCited -> (downloads_7d cited5 <= downloads_7d m)%Z) /\
  (exists x, In x bothCited /\ downloads_7d x <> 0%Z) /\
  downloads_7d cited5 <> downloads_7d cited10 /\
  exists s, scoreOf utc jan1noon bothCited cited5 = Some s /\
            s == 1 # 2 /\ ~ s == 0.
Proof.
  split; [in_batch |]. split; [counts_of_batch |].
  split; [exists cited5; split; [in_batch | vm_compute; congruence] |].
  split; [vm_compute; congruence |].
  eexists. split; [vm_compute; reflexivity |].
  split; [reflexivity | discriminate].
Qed.


(** The clock is an input of the scorer: the same call on the same batch
    returns 3/10 at noon of one day and 5/14 at noon of the next. *)
Lemma score_depends_on_clock :
  (exists s, scoreOf utc jan1noon shuffled middle = Some s /\ s == 3 # 10) /\
  (exists s, scoreOf utc jan2noon shuffled middle = Some s /\ s == 5 # 14).
Proof.
  split; eexists; (split; [vm_compute; reflexivity | reflexivity]).
Qed.

(** C5: in the batch of three uncited papers published one
    day apart every row receives the score of the first row, here 1; the
    oldest row does not score 0 and the middle row does not score
    strictly between 0 and 1. *)
Theorem three_days_all_score_one :
  allZeroCounts threeDays /\
  exists s1 s2 s3,
    map (scoreOf utc jan1noon threeDays) threeDays
    = [Some s1; Some s2; Some s3] /\
    s1 == 1 /\ s2 == 1 /\ s3 == 1.
Proof.
  split; [counts_of_batch |].
  do 3 eexists. split; [vm_compute; reflexivity |].
  repeat split; reflexivity.
Qed.

(** C4: in the batch of two uncited papers with the same
    publication instant the positional rule is reached, but both rows are
    looked up at index 0 and both score 1; a batch of one row scores 0. *)
Theorem twins_both_score_one :
  allZeroCounts twins /\
  findIndex (sameDownloads (downloads_7d twinB)) twins = 0%Z /\
  indexRule (downloads_7d twinB) twins = Some (Some 1) /\
  map (scoreOf utc jan1noon twins) twins = [Some 1; Some 1] /\
  map (scoreOf utc jan1noon [twinA]) [twinA] = [Some 0].
Proof.
  split; [counts_of_batch |].
  repeat split; vm_compute; reflexivity.
Qed.

(** ** The batch recomputation *)

Section RecomputeProperties.

Variable tzOffset : Date -> Z.
Variable World : Type.
Variable selectMetrics :
  string -> World -> Response (list PaperMetric) * World.
Variable selectPapers :
  list string -> World -> Response (list PaperRow) * World.
Variable updateScore : Update -> World -> option string * World.
Variable arraySort :
  (PaperMetric -> PaperMetric -> Q) -> list PaperMetric -> list PaperMetric.
Variable clock : nat -> Date.

(** Every row of the batch yields an update carrying its id and the score
    the scorer returns for it. *)
Lemma computeUpdates_total (metricsWithDates todo : list PaperMetric) (i : nat) :
  exists updates,
    computeUpdates tzOffset clock i metricsWithDates todo = Some updates /\
    map update_id updates = map id todo /\
    forall k metric, nth_error todo k = Some metric ->
      exists u, nth_error updates k = Some u /\ update_id u = id metric /\
        scoreOf tzOffset (clock (i + k)) metricsWithDates metric
        = Some (update_engagement_score u).
Proof.
  revert i. induction todo as [| metric rest IH]; intros i.
  - exists []. split; [reflexivity |]. split; [reflexivity |].
    intros [| k] m H; discriminate.
  - cbn [computeUpdates].
    destruct (computeEngagementScore_total tzOffset (clock i)
                (downloads_7d metric) (github_repo_count metric)
                metricsWithDates (published_at metric)) as (s & Es).
    unfold scoreOf at 1. rewrite Es.
    cbn [Js.bind]. destruct (IH (S i)) as (us & -> & Hids & Hnth).
    cbn [Js.bind]. eexists. split; [reflexivity |].
    split; [simpl; rewrite Hids; reflexivity |].
    intros [| k] m H.
    + injection H as <-. eexists. split; [reflexivity |].
      split; [reflexivity |]. rewrite Nat.add_0_r. exact Es.
    + cbn [nth_error] in H. destruct (Hnth k m H) as (u & Hu & Hid & Hs).
      exists u. split; [exact Hu |]. split; [exact Hid |].
      rewrite Nat.add_succ_r. exact Hs.
Qed.

(** The loop calls the store once per update, in order, whatever the
    earlier calls answered, and logs exactly the refused ones. *)
Lemma writeUpdates_events (updates : list Update) (w : World) :
  attempted (fst (writeUpdates World updateScore updates w)) = updates /\
  reportedIds (fst (writeUpdates World updateScore updates w))
  = failedIds (fst (writeUpdates World updateScore updates w)).
Proof.
  revert w. induction updates as [| u rest IH]; intros w; [split; reflexivity |].
  cbn [writeUpdates].
  destruct (updateScore u w) as [updateError w1].
  specialize (IH w1).
  destruct (writeUpdates World updateScore rest w1) as [events w2].
  cbn [fst] in IH. destruct IH as [IH1 IH2].
  destruct updateError as [e |]; cbn [fst attempted reportedIds failedIds];
    rewrite IH1, IH2; split; reflexivity.
Qed.


End RecomputeProperties.


(** On the sample world the refused update of row 1 is logged, and rows 2
    and 3 are written after it. *)
Example recompute_sample_run :
  exists s1 s2 s3,
    computeEngagementScoresForDate utc sampleWorld sampleSelectMetrics
      sampleSelectPapers sampleUpdateScore (@insertionSort PaperMetric)
      sampleClock "2024-01-01" []
    = Some (Resolved,
            [UpdateCall (mkUpdate 1 s1) (Some "connection reset"%string);
             ConsoleError 1 "connection reset";
             UpdateCall (mkUpdate 2 s2) None;
             UpdateCall (mkUpdate 3 s3) None],
            [mkUpdate 3 s3; mkUpdate 2 s2]).
Proof. do 3 eexists. vm_compute. reflexivity. Qed.

(** ** The other revisions *)

(** X4: the revision that sorts the batch and scores by position also keeps
    every score of a batch item in the unit interval: the fallback
    returns 0.1 + 0.9 * (1 - index / (n - 1)), or 0.  This holds for any
    behaviour of the engine's sort, the index and the length being taken
    from the same sorted array. *)
Lemma sorted_position_score_in_unit_interval
  (arraySort : (PaperMetric -> PaperMetric -> Q) ->
               list PaperMetric -> list PaperMetric)
  (allMetrics : list PaperMetric) (metric : PaperMetric)
  (githubRepoCount : Z) (publishedAt : option Date) (paperId : option string) :
  nonNegativeCounts allMetrics ->
  In metric allMetrics ->
  exists s,
    SortedPosition.computeEngagementScore arraySort (downloads_7d metric)
      githubRepoCount allMetrics publishedAt paperId = Some s /\
    0 <= s <= 1.
Proof.
  intros Hnn Hin. unfold SortedPosition.computeEngagementScore.
  destruct (citationRange_spec allMetrics)
    as (mn & mx & -> & -> & _ & Hrange & _).
  cbn [Js.bind]. destruct (Js.gt mx 0).
  - apply normalize_unit. apply Hrange. exact Hin.
  - set (sorted := arraySort byPublishedDesc allMetrics).
    set (i := match paperId with Some _ => _ | None => _ end).
    assert (Hi : (-1 <= i < Z.of_nat (List.length sorted))%Z).
    { unfold i. destruct paperId; apply findIndex_range. }
    destruct ((0 <=? i)%Z && Js.gt (length_num sorted) 1) eqn:E.
    + apply andb_true_iff in E. destruct E as [E1 E2].
      apply Z.leb_le in E1. apply gt_true in E2.
      unfold length_num in *.
      set (n := Z.of_nat (List.length sorted)) in *.
      assert (Hq : inject_Z i <= inject_Z n - 1).
      { assert (H : (i + 1 <= n)%Z) by lia.
        rewrite Zle_Qle, inject_Z_plus in H. change (inject_Z 1) with 1 in H.
        lra. }
      assert (H0 : 0 <= inject_Z i) by (rewrite Zle_Qle in E1; exact E1).
      rewrite div_some by lra. cbn [Js.bind].
      eexists. split; [reflexivity |].
      assert (Hd : 0 <= inject_Z i / (inject_Z n - 1) <= 1).
      { split; [apply Qle_shift_div_l | apply Qle_shift_div_r]; lra. }
      lra.
    + exists 0. split; [reflexivity | lra].
Qed.

(** The day-based revision looks the current row up by its count in the
    same way, and reads neither publishedAt nor githubRepoCount. *)
Lemma days_recency_determined_by_count_and_batch (now : Date)
  (allMetrics : list PaperMetric) (downloads7d g g' : Z)
  (publishedAt publishedAt' : option Date) :
  DaysRecency.computeEngagementScore now downloads7d g allMetrics publishedAt
  = DaysRecency.computeEngagementScore now downloads7d g' allMetrics
      publishedAt'.
Proof. reflexivity. Qed.

(** * Further properties of the code *)

(** ** The revisions of the scorer compared *)

Section Revisions.

Variable tzOffset : Date -> Z.
Variable arraySort :
  (PaperMetric -> PaperMetric -> Q) -> list PaperMetric -> list PaperMetric.

(** The range [Math.min(...values, 0)], [Math.max(...values, 0)] of an
    integer column of the batch. *)
Lemma floorRange_spec (column : PaperMetric -> Z) (allMetrics : list PaperMetric) :
  let values := map (fun m => inject_Z (column m)) allMetrics ++ [0] in
  exists mn mx,
    Js.Math_min values = Some mn /\ Js.Math_max values = Some mx /\
    mn <= 0 <= mx /\
    (forall m, In m allMetrics -> mn <= inject_Z (column m) <= mx) /\
    ((forall m, In m allMetrics -> (0 <= column m)%Z) -> mn == 0) /\
    (forall c : Z, (0 <= c)%Z ->
       (forall m, In m allMetrics -> (column m <= c)%Z) -> mx <= inject_Z c).
Proof.
  intros values.
  assert (H0 : In 0 values) by (apply in_or_app; right; left; reflexivity).
  destruct (Math_min_inhabited 0 values H0) as (mn & Emn).
  destruct (Math_max_inhabited 0 values H0) as (mx & Emx).
  exists mn, mx. split; [exact Emn |]. split; [exact Emx |].
  assert (Hmn0 : mn <= 0) by (eapply Math_min_lower; eassumption).
  assert (Hmx0 : 0 <= mx) by (eapply Math_max_upper; eassumption).
  split; [split; assumption |]. split; [| split].
  - intros m Hm.
    assert (Hc : In (inject_Z (column m)) values).
    { apply in_or_app. left.
      apply (in_map (fun m => inject_Z (column m))). exact Hm. }
    split; [eapply Math_min_lower | eapply Math_max_upper]; eassumption.
  - intros Hnn. assert (0 <= mn); [| lra].
    eapply Math_min_greatest; [exact Emn |].
    intros x Hx. apply in_app_or in Hx. destruct Hx as [Hx | [<- | []]]; [| lra].
    apply in_map_iff in Hx. destruct Hx as (m & <- & Hm).
    specialize (Hnn m Hm). rewrite Zle_Qle in Hnn. exact Hnn.
  - intros c Hc Hall.
    eapply Math_max_least; [exact Emx |].
    intros x Hx. apply in_app_or in Hx. destruct Hx as [Hx | [<- | []]].
    + apply in_map_iff in Hx. destruct Hx as (m & <- & Hm).
      specialize (Hall m Hm). rewrite Zle_Qle in Hall. exact Hall.
    + rewrite Zle_Qle in Hc. exact Hc.
Qed.

(** X1: as soon as one row of the batch has a citation, the cascade, the
    day-based revision and the sorting revision all return what the
    revision without fallback returns: the fallbacks are not consulted. *)
Theorem revisions_agree_on_cited_batch (now : Date) (downloads7d : Z)
  (githubRepoCount : Z) (allMetrics : list PaperMetric)
  (publishedAt : option Date) (paperId : option string)
  (cited : PaperMetric) :
  In cited allMetrics -> (0 < downloads_7d cited)%Z ->
  computeEngagementScore tzOffset now downloads7d githubRepoCount allMetrics
    publishedAt
  = NormalizeOnly.computeEngagementScore downloads7d githubRepoCount allMetrics
  /\
  DaysRecency.computeEngagementScore now downloads7d githubRepoCount allMetrics
    publishedAt
  = NormalizeOnly.computeEngagementScore downloads7d githubRepoCount allMetrics
  /\
  SortedPosition.computeEngagementScore arraySort downloads7d githubRepoCount
    allMetrics publishedAt paperId
  = NormalizeOnly.computeEngagementScore downloads7d githubRepoCount allMetrics.
Proof.
  intros Hin Hpos.
  unfold computeEngagementScore, DaysRecency.computeEngagementScore,
    SortedPosition.computeEngagementScore,
    NormalizeOnly.computeEngagementScore.
  destruct (floorRange_spec downloads_7d allMetrics)
    as (mn & mx & -> & -> & _ & Hrange & _).
  cbn [Js.bind].
  assert (Hgt : Js.gt mx 0 = true).
  { apply gt_true. destruct (Hrange cited Hin) as [_ H].
    rewrite Zlt_Qlt in Hpos. change (inject_Z 0) with 0 in Hpos. lra. }
  rewrite Hgt. repeat split; reflexivity.
Qed.

(** X2: without a citation in the batch the revision without fallback gives
    every paper the score 0, whatever count is asked for. *)
Theorem normalize_only_uncited_batch_scores_zero (downloads7d : Z)
  (githubRepoCount : Z) (allMetrics : list PaperMetric) :
  allZeroCounts allMetrics ->
  NormalizeOnly.computeEngagementScore downloads7d githubRepoCount allMetrics
  = Some 0.
Proof.
  intros Hz. unfold NormalizeOnly.computeEngagementScore.
  destruct (floorRange_spec downloads_7d allMetrics)
    as (mn & mx & -> & -> & [_ Hmx] & _ & _ & Hleast).
  cbn [Js.bind].
  assert (Hle : mx <= 0).
  { apply (Hleast 0%Z); [lia |]. intros m Hm. rewrite (Hz m Hm). lia. }
  unfold normalize.
  assert (E : Js.strict_eq mx 0 = true) by (apply strict_eq_true; lra).
  rewrite E. reflexivity.
Qed.

(** X3: the first revision, which scores by repository count alone, never
    exceeds 0.4: a batch item scores between 0 and 0.4, and the item with
    the largest count, if positive, scores exactly 0.4. *)
Theorem repo_count_mvp_score_range (downloads7d : Z)
  (allMetrics : list PaperMetric) (metric : PaperMetric) :
  (forall m, In m allMetrics -> (0 <= github_repo_count m)%Z) ->
  In metric allMetrics ->
  exists s,
    RepoCountMvp.computeEngagementScore downloads7d (github_repo_count metric)
      allMetrics = Some s /\
    0 <= s <= 4 # 10 /\
    ((forall m, In m allMetrics ->
        (github_repo_count m <= github_repo_count metric)%Z) ->
     (0 < github_repo_count metric)%Z -> s == 4 # 10).
Proof.
  intros Hnn Hin. unfold RepoCountMvp.computeEngagementScore.
  destruct (floorRange_spec github_repo_count allMetrics)
    as (mn & mx & -> & -> & [Hmn Hmx] & Hrange & Hzero & Hleast).
  cbn [Js.bind]. specialize (Hzero Hnn).
  destruct (normalize_unit (inject_Z (github_repo_count metric)) mn mx
              (Hrange metric Hin)) as (n & En & Hn).
  rewrite En. cbn [Js.bind]. eexists. split; [reflexivity |].
  split; [lra |].
  intros Htop Hpos.
  assert (Hq : 0 < inject_Z (github_repo_count metric)).
  { rewrite Zlt_Qlt in Hpos. exact Hpos. }
  assert (Emx : mx == inject_Z (github_repo_count metric)).
  { apply Qle_antisym; [apply Hleast; [lia | exact Htop] |].
    apply Hrange. exact Hin. }
  unfold normalize in En.
  assert (E1 : Js.strict_eq mx 0 = false) by (apply strict_eq_false; lra).
  assert (E2 : Js.strict_eq mx mn = false) by (apply strict_eq_false; lra).
  rewrite E1, E2 in En. cbn [orb] in En.
  rewrite div_some in En by lra. injection En as <-.
  rewrite Hzero, Emx. field. lra.
Qed.

End Revisions.

(** ** The sorting revision: scores by rank *)

Section SortedRank.

Variable arraySort :
  (PaperMetric -> PaperMetric -> Q) -> list PaperMetric -> list PaperMetric.

Lemma findIndex_unique_key {A : Type} (key : A -> string) (l : list A)
  (i : nat) (x : A) :
  NoDup (map key l) -> nth_error l i = Some x ->
  findIndex (fun y => String.eqb (key y) (key x)) l = Z.of_nat i.
Proof.
  revert i. induction l as [| y l IH]; intros i Hnd Hnth.
  - destruct i; discriminate.
  - cbn [map] in Hnd. inversion Hnd as [| k ks Hnotin Hnd']; subst.
    destruct i as [| i].
    + injection Hnth as ->. cbn [findIndex]. rewrite String.eqb_refl.
      reflexivity.
    + cbn [nth_error] in Hnth. cbn [findIndex].
      assert (Hne : String.eqb (key y) (key x) = false).
      { apply String.eqb_neq. intro E. apply Hnotin. rewrite E.
        apply in_map. eapply nth_error_In. exact Hnth. }
      rewrite Hne, (IH i Hnd' Hnth).
      destruct (Z.ltb_spec (Z.of_nat i) 0); lia.
Qed.

Lemma truthy_nonempty (s : string) : s <> ""%string -> truthy s = Some s.
Proof.
  intro H. unfold truthy. destruct (String.eqb_spec s ""); [contradiction |].
  reflexivity.
Qed.

(** The score of the row at position [i] of the sorted uncited batch. *)
Lemma sorted_position_rank (allMetrics : list PaperMetric) (i : nat)
  (metric : PaperMetric) :
  allZeroCounts allMetrics ->
  NoDup (map paper_id (arraySort byPublishedDesc allMetrics)) ->
  (2 <= List.length (arraySort byPublishedDesc allMetrics))%nat ->
  nth_error (arraySort byPublishedDesc allMetrics) i = Some metric ->
  paper_id metric <> ""%string ->
  scoreOfById arraySort allMetrics metric
  = Some ((1 # 10) + (9 # 10) *
            (1 - inject_Z (Z.of_nat i)
                 / (length_num (arraySort byPublishedDesc allMetrics) - 1))).
Proof.
  intros Hz Hnd Hlen Hnth Hid.
  unfold scoreOfById, SortedPosition.computeEngagementScore.
  destruct (floorRange_spec downloads_7d allMetrics)
    as (mn & mx & -> & -> & _ & _ & _ & Hleast).
  cbn [Js.bind].
  assert (Hle : mx <= 0).
  { apply (Hleast 0%Z); [lia |]. intros m Hm. rewrite (Hz m Hm). lia. }
  apply gt_false in Hle. rewrite Hle.
  rewrite (truthy_nonempty _ Hid).
  rewrite (findIndex_unique_key paper_id _ i metric Hnd Hnth).
  set (sorted := arraySort byPublishedDesc allMetrics) in *.
  assert (H1 : (0 <=? Z.of_nat i)%Z = true) by (apply Z.leb_le; lia).
  assert (Hq : 1 < length_num sorted).
  { unfold length_num.
    assert (H : (1 < Z.of_nat (List.length sorted))%Z) by lia.
    rewrite Zlt_Qlt in H. exact H. }
  assert (H2 : Js.gt (length_num sorted) 1 = true) by (apply gt_true; exact Hq).
  rewrite H1, H2. cbn [andb]. rewrite div_some by lra. reflexivity.
Qed.

(** X5: when the caller passes the paper id, an uncited batch of at least two
    rows with distinct paper ids is scored by rank in the sorted order:
    the row at position i of n scores 0.1 + 0.9 * (1 - i / (n - 1)), so
    rows at different positions never receive the same score. *)
Theorem sorted_position_scores_by_rank (allMetrics : list PaperMetric)
  (i j : nat) (a b : PaperMetric) :
  let sorted := arraySort byPublishedDesc allMetrics in
  allZeroCounts allMetrics ->
  NoDup (map paper_id sorted) ->
  (2 <= List.length sorted)%nat ->
  nth_error sorted i = Some a -> paper_id a <> ""%string ->
  nth_error sorted j = Some b -> paper_id b <> ""%string ->
  exists sa sb,
    scoreOfById arraySort allMetrics a = Some sa /\
    scoreOfById arraySort allMetrics b = Some sb /\
    sa == (1 # 10) + (9 # 10) *
            (1 - inject_Z (Z.of_nat i) / (length_num sorted - 1)) /\
    (1 # 10) <= sa <= 1 /\
    (i <> j -> ~ sa == sb).
Proof.
  intros sorted Hz Hnd Hlen Ha Hida Hb Hidb.
  rewrite (sorted_position_rank allMetrics i a Hz Hnd Hlen Ha Hida).
  rewrite (sorted_position_rank allMetrics j b Hz Hnd Hlen Hb Hidb).
  fold sorted. do 2 eexists. split; [reflexivity |]. split; [reflexivity |].
  split; [reflexivity |].
  assert (Hq : 1 < length_num sorted).
  { unfold length_num.
    assert (H : (1 < Z.of_nat (List.length sorted))%Z) by lia.
    rewrite Zlt_Qlt in H. exact H. }
  set (n1 := length_num sorted - 1) in *.
  assert (Hn1 : 0 < n1) by (unfold n1; lra).
  assert (Hrange : forall k x, nth_error sorted k = Some x ->
                     0 <= inject_Z (Z.of_nat k) / n1 <= 1).
  { intros k x Hk.
    assert (Hlt : (k < List.length sorted)%nat).
    { apply nth_error_Some. rewrite Hk. discriminate. }
    assert (Hk0 : 0 <= inject_Z (Z.of_nat k)).
    { change 0 with (inject_Z 0). rewrite <- Zle_Qle. lia. }
    assert (Hk1 : inject_Z (Z.of_nat k) <= n1).
    { unfold n1, length_num.
      assert (H : (Z.of_nat k + 1 <= Z.of_nat (List.length sorted))%Z) by lia.
      rewrite Zle_Qle, inject_Z_plus in H. change (inject_Z 1) with 1 in H.
      lra. }
    split; [apply Qle_shift_div_l | apply Qle_shift_div_r]; lra. }
  split.
  - pose proof (Hrange i a Ha). lra.
  - intros Hij Heq.
    assert (Hdiv : inject_Z (Z.of_nat i) / n1 == inject_Z (Z.of_nat j) / n1)
      by lra.
    assert (Hinv : 0 < / n1) by (apply Qinv_lt_0_compat; exact Hn1).
    assert (Hnum : inject_Z (Z.of_nat i) == inject_Z (Z.of_nat j)).
    { apply (Qmult_inj_r _ _ (/ n1)); [| exact Hdiv].
      apply Qnot_eq_sym, Qlt_not_eq. exact Hinv. }
    unfold Qeq in Hnum. simpl in Hnum. lia.
Qed.

End SortedRank.

Lemma insertSorted_perm {A : Type} (cmp : A -> A -> Q) (x : A) (l : list A) :
  Permutation (x :: l) (insertSorted cmp x l).
Proof.
  induction l as [| y l IH]; [apply Permutation_refl |].
  cbn [insertSorted]. destruct (Js.gt (cmp x y) 0); [| apply Permutation_refl].
  apply perm_trans with (y :: x :: l); [apply perm_swap |].
  apply perm_skip. exact IH.
Qed.

Lemma insertionSort_perm {A : Type} (cmp : A -> A -> Q) (l : list A) :
  Permutation l (insertionSort cmp l).
Proof.
  induction l as [| x l IH]; [apply Permutation_refl |].
  unfold insertionSort in *. cbn [fold_right].
  apply perm_trans with (x :: fold_right (insertSorted cmp) [] l);
    [apply perm_skip; exact IH | apply insertSorted_perm].
Qed.

Lemma sorted_position_scores_by_rank_witness :
  allZeroCounts threeDays /\
  NoDup (map paper_id (insertionSort byPublishedDesc threeDays)) /\
  (2 <= List.length (insertionSort byPublishedDesc threeDays))%nat /\
  nth_error (insertionSort byPublishedDesc threeDays) 0 = Some newest /\
  paper_id newest <> ""%string /\
  nth_error (insertionSort byPublishedDesc threeDays) 2 = Some oldest /\
  paper_id oldest <> ""%string /\
  exists sa sb,
    scoreOfById (@insertionSort PaperMetric) threeDays newest = Some sa /\
    scoreOfById (@insertionSort PaperMetric) threeDays oldest = Some sb /\
    sa == (1 # 10) + (9 # 10) *
            (1 - inject_Z (Z.of_nat 0)
                 / (length_num (insertionSort byPublishedDesc threeDays) - 1)) /\
    (1 # 10) <= sa <= 1 /\
    (0%nat <> 2%nat -> ~ sa == sb).
Proof.
  assert (Hz : allZeroCounts threeDays) by counts_of_batch.
  assert (Hnd : NoDup (map paper_id (insertionSort byPublishedDesc threeDays))).
  { vm_compute. repeat constructor; simpl; intuition discriminate. }
  assert (Hlen : (2 <= List.length (insertionSort byPublishedDesc threeDays))%nat)
    by (vm_compute; lia).
  assert (Ha : nth_error (insertionSort byPublishedDesc threeDays) 0 = Some newest)
    by reflexivity.
  assert (Hb : nth_error (insertionSort byPublishedDesc threeDays) 2 = Some oldest)
    by reflexivity.
  assert (Hida : paper_id newest <> ""%string) by discriminate.
  assert (Hidb : paper_id oldest <> ""%string) by discriminate.
  repeat (split; [assumption |]).
  exact (sorted_position_scores_by_rank (@insertionSort PaperMetric) threeDays
           0 2 newest oldest Hz Hnd Hlen Ha Hida Hb Hidb).
Defined.

(** ** The day-based revision *)

Section DaysRecencyFacts.

Lemma days_recencyOf_some (now t : Date) :
  ~ aDayAhead now t -> exists r, DaysRecency.recencyOf now t = Some r.
Proof.
  intro Hne. unfold DaysRecency.recencyOf.
  rewrite div_some by (intro H; vm_compute in H; discriminate).
  cbn [Js.bind]. rewrite div_some; [eauto |].
  intro H. apply Hne. unfold aDayAhead.
  set (c := 1000 * 60 * 60 * 24) in H.
  assert (Hc : ~ c == 0) by (intro E; vm_compute in E; discriminate).
  assert (Hx : getTime now - getTime t == - c).
  { rewrite <- (Qmult_div_r (getTime now - getTime t) c Hc).
    assert (Hd : (getTime now - getTime t) / c == - (1)) by lra.
    rewrite Hd. ring. }
  unfold getTime, c in Hx.
  assert (Hz : inject_Z (now - t + 86400000) == 0).
  { rewrite inject_Z_plus. unfold Z.sub. rewrite inject_Z_plus, inject_Z_opp.
    change (inject_Z 86400000) with (1000 * 60 * 60 * 24). lra. }
  unfold Qeq in Hz. simpl in Hz. lia.
Qed.

Lemma days_recencyOf_none (now t : Date) :
  aDayAhead now t -> DaysRecency.recencyOf now t = None.
Proof.
  unfold aDayAhead. intros ->. unfold DaysRecency.recencyOf.
  rewrite div_some by (intro H; vm_compute in H; discriminate).
  cbn [Js.bind]. unfold Js.div.
  assert (E : 1 + (getTime now - getTime (now + 86400000)%Z)
                  / (1000 * 60 * 60 * 24) == 0).
  { unfold getTime. rewrite inject_Z_plus.
    change (inject_Z 86400000) with (1000 * 60 * 60 * 24). field. }
  apply Qeq_bool_iff in E. rewrite E. reflexivity.
Qed.

Lemma days_recencyLoop_spec (now : Date) (allMetrics : list PaperMetric) :
  (forall m t, In m allMetrics -> published_at m = Some t ->
     ~ aDayAhead now t) ->
  exists recencyScores,
    DaysRecency.recencyLoop now allMetrics = Some recencyScores /\
    forall m, In m allMetrics ->
      match published_at m with
      | Some t => exists r, DaysRecency.recencyOf now t = Some r /\
                            In r recencyScores
      | None => In 0 recencyScores
      end.
Proof.
  induction allMetrics as [| m rest IH]; intros Hok.
  - exists []. split; [reflexivity |]. intros m [].
  - destruct IH as (rs & E & Hin).
    { intros m' t Hm'. apply Hok. right. exact Hm'. }
    cbn [DaysRecency.recencyLoop].
    destruct (published_at m) as [t |] eqn:Et.
    + destruct (days_recencyOf_some now t) as (r & Er).
      { apply (Hok m t); [left; reflexivity | exact Et]. }
      rewrite Er. cbn [Js.bind]. rewrite E. cbn [Js.bind].
      exists (r :: rs). split; [reflexivity |].
      intros m' [<- | Hm'].
      * rewrite Et. exists r. split; [exact Er | left; reflexivity].
      * specialize (Hin m' Hm'). destruct (published_at m') as [t' |].
        -- destruct Hin as (r' & Er' & Hr'). exists r'.
           split; [exact Er' | right; exact Hr'].
        -- right. exact Hin.
    + cbn [Js.bind]. rewrite E. cbn [Js.bind].
      exists (0 :: rs). split; [reflexivity |].
      intros m' [<- | Hm'].
      * rewrite Et. left. reflexivity.
      * specialize (Hin m' Hm'). destruct (published_at m') as [t' |].
        -- destruct Hin as (r' & Er' & Hr'). exists r'.
           split; [exact Er' | right; exact Hr'].
        -- right. exact Hin.
Qed.

(** X6: the day-based revision does not clamp the age at 0.  It returns a
    score of the unit interval for every item of a batch with
    non-negative counts, provided no paper of the batch is dated exactly
    one day after the clock reading. *)
Theorem days_recency_score_in_unit_interval (now : Date)
  (allMetrics : list PaperMetric) (metric : PaperMetric)
  (githubRepoCount : Z) (publishedAt : option Date) :
  nonNegativeCounts allMetrics ->
  (forall m t, In m allMetrics -> published_at m = Some t ->
     ~ aDayAhead now t) ->
  In metric allMetrics ->
  exists s,
    DaysRecency.computeEngagementScore now (downloads_7d metric)
      githubRepoCount allMetrics publishedAt = Some s /\
    0 <= s <= 1.
Proof.
  intros Hnn Hok Hin. unfold DaysRecency.computeEngagementScore.
  destruct (floorRange_spec downloads_7d allMetrics)
    as (mn & mx & -> & -> & _ & Hrange & _).
  cbn [Js.bind]. destruct (Js.gt mx 0).
  { apply normalize_unit. apply Hrange. exact Hin. }
  destruct (days_recencyLoop_spec now allMetrics Hok) as (rs & -> & Hrs).
  cbn [Js.bind].
  (* the positional rule of this revision is the one of the cascade *)
  assert (Hfinal : forall d,
            (let paperIndex :=
               findIndex (fun m => (downloads_7d m =? d)%Z) allMetrics in
             if (0 <=? paperIndex)%Z && Js.gt (length_num allMetrics) 1
             then q <- Js.div (inject_Z paperIndex) (length_num allMetrics - 1) ;;
                  Some (1 - q)
             else Some 0)
            = finalFallback d allMetrics).
  { intro d. unfold finalFallback, indexRule, sameDownloads. cbn zeta.
    destruct (_ && _); [| reflexivity].
    destruct (Js.div _ _); reflexivity. }
  cbn zeta in Hfinal. rewrite Hfinal.
  assert (Hfall : exists s, finalFallback (downloads_7d metric) allMetrics
                            = Some s /\ 0 <= s <= 1)
    by apply finalFallback_spec.
  unfold DaysRecency.recencyBlock.
  destruct (0 <? List.length rs)%nat; cbn [Js.bind]; [| exact Hfall].
  destruct rs as [| r0 rs']; [specialize (Hrs metric Hin);
                              destruct (published_at metric) as [t |];
                              [destruct Hrs as (r & _ & []) | destruct Hrs] |].
  destruct (Math_max_some r0 rs') as (mxr & Emx).
  destruct (Math_min_some r0 rs') as (mnr & Emn).
  rewrite Emx. cbn [Js.bind]. destruct (Js.gt mxr 0); [| exact Hfall].
  assert (Hcur : exists cur,
            In cur allMetrics /\
            find (fun m => (downloads_7d m =? downloads_7d metric)%Z) allMetrics
            = Some cur).
  { destruct (find _ allMetrics) as [cur |] eqn:Ef.
    - exists cur. split; [apply find_some in Ef; apply Ef | reflexivity].
    - exfalso. apply (find_none _ _ Ef) in Hin. cbn beta in Hin.
      rewrite Z.eqb_refl in Hin. discriminate. }
  destruct Hcur as (cur & Hcur & ->).
  specialize (Hrs cur Hcur).
  assert (Hr : exists r,
            match published_at cur with
            | Some t => DaysRecency.recencyOf now t
            | None => Some 0
            end = Some r /\ In r (r0 :: rs')).
  { destruct (published_at cur) as [t |].
    - destruct Hrs as (r & Er & Hr). exists r. split; assumption.
    - exists 0. split; [reflexivity | exact Hrs]. }
  destruct Hr as (r & -> & Hr). cbn [Js.bind]. rewrite Emn. cbn [Js.bind].
  destruct (Js.gt mxr mnr); [| exact Hfall].
  assert (Hb : mnr <= r <= mxr).
  { split; [eapply Math_min_lower | eapply Math_max_upper]; eassumption. }
  destruct (normalize_unit r mnr mxr Hb) as (s & -> & Hs).
  cbn [Js.bind]. exists s. split; [reflexivity | exact Hs].
Qed.

End DaysRecencyFacts.

Lemma days_recency_score_in_unit_interval_witness :
  nonNegativeCounts threeDays /\
  (forall m t, In m threeDays -> published_at m = Some t ->
     ~ aDayAhead jan1noon t) /\
  In oldest threeDays /\
  exists s,
    DaysRecency.computeEngagementScore jan1noon (downloads_7d oldest)
      (github_repo_count oldest) threeDays (published_at oldest) = Some s /\
    0 <= s <= 1.
Proof.
  assert (Hnn : nonNegativeCounts threeDays) by counts_of_batch.
  assert (Hok : forall m t, In m threeDays -> published_at m = Some t ->
                            ~ aDayAhead jan1noon t).
  { intros m t Hm. simpl in Hm.
    repeat (destruct Hm as [<- | Hm];
            [intros [= <-]; unfold aDayAhead; vm_compute; discriminate |]).
    destruct Hm. }
  assert (Hin : In oldest threeDays) by in_batch.
  repeat (split; [assumption |]).
  exact (days_recency_score_in_unit_interval jan1noon threeDays oldest
           (github_repo_count oldest) (published_at oldest) Hnn Hok Hin).
Defined.

(** ** The recomputation and its endpoint *)

Section RecomputeOutcomes.

Variable tzOffset : Date -> Z.
Variable World : Type.
Variable selectMetrics :
  string -> World -> Response (list PaperMetric) * World.
Variable selectPapers :
  list string -> World -> Response (list PaperRow) * World.
Variable updateScore : Update -> World -> option string * World.
Variable arraySort :
  (PaperMetric -> PaperMetric -> Q) -> list PaperMetric -> list PaperMetric.
Variable clock : nat -> Date.

Let recompute :=
  computeEngagementScoresForDate tzOffset World selectMetrics selectPapers
    updateScore arraySort clock.

(** The four ways the recomputation can end. *)
Lemma recompute_cases (snapshotDate : string) (w : World) :
  let r1 := fst (selectMetrics snapshotDate w) in
  let w1 := snd (selectMetrics snapshotDate w) in
  let metrics := orEmpty (data r1) in
  let r2 := fst (selectPapers (map paper_id metrics) w1) in
  let w2 := snd (selectPapers (map paper_id metrics) w1) in
  let batch :=
    arraySort byPublishedDesc (map (attachDate (orEmpty (data r2))) metrics) in
  (exists message, error r1 = Some message /\
     recompute snapshotDate w
     = Some (Rejected ("Failed to fetch metrics: " ++ message), [], w1)) \/
  (error r1 = None /\ isEmpty (data r1) = true /\
     recompute snapshotDate w = Some (Resolved, [], w1)) \/
  (exists message, error r1 = None /\ isEmpty (data r1) = false /\
     error r2 = Some message /\
     recompute snapshotDate w
     = Some (Rejected ("Failed to fetch papers: " ++ message), [], w2)) \/
  (exists events w3, error r1 = None /\ isEmpty (data r1) = false /\
     error r2 = None /\
     recompute snapshotDate w = Some (Resolved, events, w3) /\
     map update_id (attempted events) = map id batch /\
     reportedIds events = failedIds events).
Proof.
  intros r1 w1 metrics r2 w2 batch.
  unfold recompute, computeEngagementScoresForDate.
  subst r1 w1. destruct (selectMetrics snapshotDate w) as [r1 w1].
  cbn [fst snd] in *.
  destruct (error r1) as [message |] eqn:E1.
  { left. exists message. split; reflexivity. }
  right. destruct (isEmpty (data r1)) eqn:Eempty.
  { left. repeat split. }
  right. subst r2 w2. fold metrics.
  destruct (selectPapers (map paper_id metrics) w1) as [r2 w2].
  cbn [fst snd] in *.
  destruct (error r2) as [message |] eqn:E2.
  { left. exists message. repeat split. }
  right. fold batch.
  destruct (computeUpdates_total tzOffset clock batch batch 0)
    as (updates & -> & Hids & _).
  cbn [Js.bind].
  pose proof (writeUpdates_events World updateScore updates w2) as [Ha Hr].
  destruct (writeUpdates World updateScore updates w2) as [events w3].
  cbn [fst] in Ha, Hr.
  exists events, w3. repeat split; try assumption. rewrite Ha. exact Hids.
Qed.

(** X7: the recomputation always settles, and it never rejects after a write:
    when it rejects, or when the snapshot has no rows, the store has not
    been asked to update anything. *)
Theorem recompute_rejects_before_any_write (snapshotDate : string) (w : World) :
  exists outcome events w',
    recompute snapshotDate w = Some (outcome, events, w') /\
    (forall message, outcome = Rejected message -> events = []) /\
    (isEmpty (data (fst (selectMetrics snapshotDate w))) = true ->
     events = [] /\ w' = snd (selectMetrics snapshotDate w)).
Proof.
  destruct (recompute_cases snapshotDate w)
    as [(m & E1 & ->) | [(E1 & Ee & ->) | [(m & E1 & Ee & E2 & ->)
        | (events & w3 & E1 & Ee & E2 & -> & _)]]];
    do 3 eexists; (split; [reflexivity |]); split;
    try (intros; reflexivity); try discriminate;
    try (intros; split; reflexivity);
    try (rewrite Ee; discriminate).
Qed.



End RecomputeOutcomes.


(** ** Maps *)

Section MapFacts.

Context {V : Type}.

Lemma Map_get_set_same (k : string) (v : V) (m : JsMap V) :
  Map_get k (Map_set k v m) = Some v.
Proof.
  induction m as [| [k' v'] m IH]; cbn [Map_set Map_get].
  - rewrite String.eqb_refl. reflexivity.
  - destruct (String.eqb k' k) eqn:E; cbn [Map_get].
    + rewrite String.eqb_refl. reflexivity.
    + rewrite E. exact IH.
Qed.

Lemma Map_get_set_other (k k' : string) (v : V) (m : JsMap V) :
  k' <> k -> Map_get k' (Map_set k v m) = Map_get k' m.
Proof.
  intro Hne. induction m as [| [k0 v0] m IH]; cbn [Map_set Map_get].
  - destruct (String.eqb_spec k k'); [congruence | reflexivity].
  - destruct (String.eqb_spec k0 k) as [-> | Hk]; cbn [Map_get].
    + destruct (String.eqb_spec k k'); [congruence | reflexivity].
    + destruct (String.eqb k0 k'); [reflexivity | exact IH].
Qed.

Lemma Map_keys_set (k : string) (v : V) (m : JsMap V) :
  map fst (Map_set k v m)
  = if Map_has k m then map fst m else map fst m ++ [k].
Proof.
  unfold Map_has. induction m as [| [k' v'] m IH]; cbn [Map_set Map_get map fst].
  - reflexivity.
  - destruct (String.eqb_spec k' k) as [-> | Hk]; cbn [map fst].
    + reflexivity.
    + rewrite IH. destruct (Map_get k m); reflexivity.
Qed.

End MapFacts.

(** ** The Semantic Scholar client *)

Section SemanticScholarFacts.

Import SemanticScholar.

Variable outcomeOf : nat -> FetchOutcome.

(** A count other than 0 can only come from a response with a 2xx status
    whose body carries that count. *)
Lemma fetchCitationCount_nonzero (outcome : FetchOutcome) (arxivId : string) :
  fst (fetchCitationCount outcome arxivId) <> 0%Z ->
  exists status statusText,
    outcome = FetchResponse status statusText
                (JsonObject (Some (fst (fetchCitationCount outcome arxivId)))) /\
    responseOk status = true.
Proof.
  unfold fetchCitationCount, tryFetchCitationCount.
  destruct outcome as [message | status statusText body]; cbn [fst];
    [intro H; contradiction H; reflexivity |].
  destruct (responseOk status) eqn:Eok; cbn [negb].
  - destruct body as [message | | [c |]]; cbn [fst];
      try (intro H; contradiction H; reflexivity).
    intros _. exists status, statusText. split; [reflexivity | exact Eok].
  - destruct (status =? 404)%Z; cbn [fst];
      [intro H; contradiction H; reflexivity |].
    destruct (status =? 429)%Z; cbn [fst];
      intro H; contradiction H; reflexivity.
Qed.

Lemma record_app (l1 l2 : list string) (k : nat) (results : JsMap Z) :
  record outcomeOf (l1 ++ l2) k results
  = record outcomeOf l2 (k + List.length l1) (record outcomeOf l1 k results).
Proof.
  revert k results. induction l1 as [| x l1 IH]; intros k results.
  - cbn [app record List.length]. rewrite Nat.add_0_r. reflexivity.
  - cbn [app record List.length]. rewrite IH. f_equal. lia.
Qed.

Lemma record_get_notin (ids : list string) (k : nat) (results : JsMap Z)
  (arxivId : string) :
  ~ In arxivId ids ->
  Map_get arxivId (record outcomeOf ids k results) = Map_get arxivId results.
Proof.
  revert k results. induction ids as [| x ids IH]; intros k results Hnot;
    [reflexivity |].
  cbn [record]. rewrite IH by (intro H; apply Hnot; right; exact H).
  apply Map_get_set_other. intro E. apply Hnot. left. congruence.
Qed.

Lemma record_get_nodup (ids : list string) (k j : nat) (results : JsMap Z)
  (arxivId : string) :
  NoDup ids -> nth_error ids j = Some arxivId ->
  Map_get arxivId (record outcomeOf ids k results)
  = Some (fst (fetchCitationCount (outcomeOf (k + j)) arxivId)).
Proof.
  revert k j results. induction ids as [| x ids IH]; intros k j results Hnd Hj.
  - destruct j; discriminate.
  - inversion Hnd as [| y ys Hnotin Hnd']; subst. cbn [record].
    destruct j as [| j].
    + injection Hj as ->. rewrite record_get_notin by exact Hnotin.
      rewrite Map_get_set_same, Nat.add_0_r. reflexivity.
    + cbn [nth_error] in Hj. rewrite (IH (S k) j _ Hnd' Hj).
      replace (S k + j)%nat with (k + S j)%nat by lia. reflexivity.
Qed.

Lemma record_has (ids : list string) (k : nat) (results : JsMap Z)
  (arxivId : string) :
  Map_has arxivId (record outcomeOf ids k results) = true <->
  In arxivId ids \/ Map_has arxivId results = true.
Proof.
  revert k results. induction ids as [| x ids IH]; intros k results.
  - cbn [record In]. tauto.
  - cbn [record In]. rewrite IH. unfold Map_has.
    destruct (String.eqb_spec x arxivId) as [-> | Hne].
    + rewrite Map_get_set_same. tauto.
    + rewrite Map_get_set_other by congruence.
      split; [intros [H | H]; tauto | intros [[H | H] | H]; tauto].
Qed.

Lemma sequentialLoop_spec (ids : list string) (delayMs : Z) (k : nat)
  (results : JsMap Z) (delays : list Z) :
  sequentialLoop outcomeOf ids delayMs k results delays
  = (record outcomeOf ids k results,
     delays ++ repeat delayMs (List.length ids - 1)).
Proof.
  revert k results delays. induction ids as [| x ids IH]; intros k results delays.
  - cbn. rewrite app_nil_r. reflexivity.
  - cbn [sequentialLoop record]. rewrite IH. f_equal.
    destruct ids as [| y ids]; [reflexivity |].
    cbn [List.length]. rewrite <- app_assoc. f_equal.
    replace (S (S (List.length ids)) - 1)%nat with (S (List.length ids)) by lia.
    replace (S (List.length ids) - 1)%nat with (List.length ids) by lia.
    reflexivity.
Qed.

Lemma slice_block {A : Type} (l : list A) (i b : Z) :
  (0 <= i)%Z -> (1 <= b)%Z -> (i < Z.of_nat (List.length l))%Z ->
  slice l i (i + b) = firstn (Z.to_nat b) (skipn (Z.to_nat i) l).
Proof.
  intros Hi Hb Hlt. unfold slice, relativeIndex.
  set (n := Z.of_nat (List.length l)) in *.
  destruct (Z.ltb_spec i 0); [lia |].
  destruct (Z.ltb_spec (i + b) 0); [lia |].
  rewrite (Z.min_l i n) by lia.
  destruct (Z.le_gt_cases (i + b) n) as [Hle | Hgt].
  - rewrite Z.min_l by lia. f_equal. lia.
  - rewrite Z.min_r by lia.
    rewrite (firstn_all2 (n := Z.to_nat b)); [apply firstn_all2 |];
      rewrite length_skipn; lia.
Qed.

Lemma pending_step (n i b : Z) :
  (1 <= b)%Z -> (i + b < n)%Z ->
  ((n - 1 - i) / b = 1 + (n - 1 - (i + b)) / b)%Z.
Proof.
  intros Hb Hlt.
  replace (n - 1 - i)%Z with ((n - 1 - (i + b)) + 1 * b)%Z by lia.
  rewrite Z.div_add by lia. lia.
Qed.

(** The loop from index [i], [calls] ids having been recorded. *)
Lemma batchLoop_spec (arxivIds : list string) (batchSize delayMs : Z) :
  (1 <= batchSize)%Z ->
  forall (fuel : nat) (i : Z) (results : JsMap Z) (delays : list Z),
    let n := Z.of_nat (List.length arxivIds) in
    (0 <= i)%Z ->
    (n - i < Z.of_nat fuel)%Z -> (0 < fuel)%nat ->
    batchLoop outcomeOf fuel arxivIds batchSize delayMs i
      (Z.to_nat (Z.min i n)) results delays
    = Some (record outcomeOf (skipn (Z.to_nat (Z.min i n)) arxivIds)
              (Z.to_nat (Z.min i n)) results,
            delays ++ repeat delayMs
                        (if (i <? n)%Z
                         then Z.to_nat ((n - 1 - i) / batchSize) else 0%nat)).
Proof.
  intros Hb. induction fuel as [| fuel IH]; intros i results delays n Hi Hfuel Hpos;
    [lia |].
  cbn [batchLoop]. fold n.
  destruct (Z.ltb_spec i n) as [Hlt | Hge].
  - rewrite (Z.min_l i n) by lia.
    rewrite slice_block by (fold n; lia).
    set (rest := skipn (Z.to_nat i) arxivIds).
    set (batch := firstn (Z.to_nat batchSize) rest).
    assert (Hrest : List.length rest = Z.to_nat (n - i)).
    { unfold rest. rewrite length_skipn. unfold n. lia. }
    assert (Hbatch : List.length batch = Z.to_nat (Z.min batchSize (n - i))).
    { unfold batch. rewrite length_firstn, Hrest. lia. }
    assert (Hcalls : (Z.to_nat i + List.length batch)%nat
                     = Z.to_nat (Z.min (i + batchSize) n)) by lia.
    rewrite Hcalls.
    rewrite IH; [| lia | fold n; lia | lia].
    fold n. f_equal. f_equal.
    + (* the ids recorded *)
      assert (Hsplit : rest = batch ++ skipn (Z.to_nat batchSize) rest)
        by (unfold batch; symmetry; apply firstn_skipn).
      transitivity (record outcomeOf
                      (batch ++ skipn (Z.to_nat batchSize) rest)
                      (Z.to_nat i) results);
        [| rewrite <- Hsplit; reflexivity].
      rewrite record_app. rewrite Hcalls.
      f_equal. unfold rest. rewrite skipn_skipn.
      destruct (Z.le_gt_cases (i + batchSize) n) as [Hle | Hgt].
      * rewrite Z.min_l by lia. f_equal. lia.
      * rewrite Z.min_r by lia.
        rewrite !skipn_all2; [reflexivity | unfold n; lia | unfold n; lia].
    + (* the delays *)
      destruct (Z.ltb_spec (i + batchSize) n) as [Hlt' | Hge'].
      * rewrite <- app_assoc. f_equal.
        rewrite (pending_step n i batchSize Hb Hlt').
        assert (H0 : (0 <= (n - 1 - (i + batchSize)) / batchSize)%Z)
          by (apply Z.div_pos; lia).
        replace (Z.to_nat (1 + (n - 1 - (i + batchSize)) / batchSize))
          with (S (Z.to_nat ((n - 1 - (i + batchSize)) / batchSize))) by lia.
        reflexivity.
      * rewrite Z.div_small by lia. reflexivity.
  - rewrite Z.min_r by lia.
    rewrite skipn_all2 by (unfold n; lia).
    cbn [record repeat]. rewrite app_nil_r. reflexivity.
Qed.

(** X10: with a batch size of at least 1 the batched fetch ends, within one
    iteration per id plus one, and yields the very map that the
    sequential revision yields from the same answers.  Every id asked for
    is a key of the map and nothing else is; for ids without repetition
    the entry of the j-th id is what its request returned, which is 0
    unless the response had a 2xx status and carried that count.  One
    delay is slept between two batches and none after the last. *)
Theorem batched_fetch_records_every_id (arxivIds : list string)
  (batchSize delayMs delayMs' batchSize' : Z) :
  (1 <= batchSize)%Z ->
  let n := Z.of_nat (List.length arxivIds) in
  exists results,
    fetchCitationCountsBatch outcomeOf (S (List.length arxivIds)) arxivIds
      batchSize delayMs
    = Some (results, repeat delayMs (Z.to_nat ((n - 1) / batchSize))) /\
    results
    = fst (fetchCitationCountsSequential outcomeOf arxivIds batchSize' delayMs')
    /\
    (forall arxivId, Map_has arxivId results = true <-> In arxivId arxivIds) /\
    (NoDup arxivIds ->
     forall j arxivId, nth_error arxivIds j = Some arxivId ->
       exists count,
         Map_get arxivId results = Some count /\
         count = fst (fetchCitationCount (outcomeOf j) arxivId) /\
         (count <> 0%Z ->
          exists status statusText,
            outcomeOf j = FetchResponse status statusText
                            (JsonObject (Some count)) /\
            responseOk status = true)).
Proof.
  intros Hb n.
  exists (record outcomeOf arxivIds 0 []).
  split; [| split; [| split]].
  - unfold fetchCitationCountsBatch.
    pose proof (batchLoop_spec arxivIds batchSize delayMs Hb
                  (S (List.length arxivIds)) 0 [] []) as H.
    cbn zeta in H. fold n in H.
    rewrite (Z.min_l 0 n) in H by lia. cbn [Z.to_nat skipn app] in H.
    rewrite H by lia. f_equal. f_equal.
    destruct (Z.ltb_spec 0 n) as [Hlt | Hge].
    + rewrite Z.sub_0_r. reflexivity.
    + assert (Hneg : ((n - 1) / batchSize < 0)%Z)
        by (apply Z.div_lt_upper_bound; lia).
      replace (Z.to_nat ((n - 1) / batchSize)) with 0%nat by lia.
      reflexivity.
  - unfold fetchCitationCountsSequential. rewrite sequentialLoop_spec.
    reflexivity.
  - intro arxivId. rewrite record_has. unfold Map_has. cbn [Map_get].
    split; [intros [H | H]; [exact H | discriminate] | intro H; left; exact H].
  - intros Hnd j arxivId Hj. eexists. split; [| split; [reflexivity |]].
    + rewrite (record_get_nodup arxivIds 0 j [] arxivId Hnd Hj). reflexivity.
    + intro Hne. apply fetchCitationCount_nonzero. exact Hne.
Qed.

(** X11: a batch size of 0 or less never advances the index: on a non-empty
    list the loop does not end, however many iterations are allowed. *)
Theorem batched_fetch_needs_positive_batch_size (arxivIds : list string)
  (batchSize delayMs : Z) (fuel : nat) :
  (batchSize <= 0)%Z -> arxivIds <> [] ->
  fetchCitationCountsBatch outcomeOf fuel arxivIds batchSize delayMs = None.
Proof.
  intros Hb Hne. unfold fetchCitationCountsBatch.
  assert (Hlen : (0 < Z.of_nat (List.length arxivIds))%Z).
  { destruct arxivIds; [contradiction Hne; reflexivity | cbn; lia]. }
  assert (H : forall fuel i calls results delays,
             (i <= 0)%Z ->
             batchLoop outcomeOf fuel arxivIds batchSize delayMs i calls
               results delays = None).
  { clear fuel. induction fuel as [| fuel IH]; intros i calls results delays Hi;
      [reflexivity |].
    cbn [batchLoop].
    destruct (Z.ltb_spec i (Z.of_nat (List.length arxivIds))); [| lia].
    apply IH. lia. }
  apply H. lia.
Qed.

End SemanticScholarFacts.

(** ** The GitHub client *)

(** X12: the repository count is never above 1000; without a token no request
    is made and the count is 0; a count other than 0 comes only from a
    2xx response, and is its [total_count] capped at 1000. *)
Theorem repo_count_capped (token : option string)
  (outcome : GitHub.FetchOutcome) (arxivId : string) :
  let result := GitHub.searchRepoCountForArxivId token outcome arxivId in
  (fst result <= 1000)%Z /\
  (token = None -> result = (0%Z, [])) /\
  (fst result <> 0%Z ->
   exists t status statusText c,
     token = Some t /\
     outcome = GitHub.FetchResponse status statusText
                 (GitHub.JsonObject (Some c)) /\
     GitHub.responseOk status = true /\
     fst result = Z.min c 1000).
Proof.
  unfold GitHub.searchRepoCountForArxivId, GitHub.trySearch. cbn zeta.
  destruct token as [t |]; cbn [fst].
  2: { split; [lia |]. split; [reflexivity |].
       intro H. contradiction H. reflexivity. }
  destruct outcome as [message | status statusText body]; cbn [fst].
  { split; [lia |]. split; [discriminate |].
    intro H. contradiction H. reflexivity. }
  destruct (GitHub.responseOk status) eqn:Eok; cbn [negb].
  - destruct body as [message | | [c |]]; cbn [fst];
      (split; [lia |]); (split; [discriminate |]);
      try (intro H; contradiction H; reflexivity).
    intros _. exists t, status, statusText, c. repeat split. exact Eok.
  - destruct (status =? 403)%Z; cbn [fst];
      [split; [lia |]; split; [discriminate |];
       intro H; contradiction H; reflexivity |].
    destruct (status =? 404)%Z; cbn [fst];
      (split; [lia |]); (split; [discriminate |]);
      intro H; contradiction H; reflexivity.
Qed.

(** ** The arXiv client: identifiers *)

Section ArxivIdentifiers.

Import Arxiv.
Local Open Scope string_scope.

Lemma digits_spec (n : nat) (s d rest : string) :
  digits n s = Some (d, rest) ->
  s = d ++ rest /\ String.length d = n /\ allDigits d = true.
Proof.
  revert s d rest. induction n as [| n IH]; intros s d rest H.
  - cbn in H. injection H as <- <-. repeat split.
  - cbn [digits] in H. destruct s as [| c s]; [discriminate |].
    destruct (isDigit c) eqn:Ec; [| discriminate].
    destruct (digits n s) as [[d' r'] |] eqn:Ed; [| discriminate].
    injection H as <- <-. destruct (IH s d' r' Ed) as (-> & Hlen & Hall).
    cbn. rewrite Ec, Hall, Hlen. repeat split.
Qed.

Lemma digits_complete (d rest : string) :
  allDigits d = true -> digits (String.length d) (d ++ rest) = Some (d, rest).
Proof.
  induction d as [| c d IH]; intro H; [reflexivity |].
  cbn in H. apply andb_true_iff in H. destruct H as [Hc Hd].
  cbn. rewrite Hc, (IH Hd). reflexivity.
Qed.

Lemma digits_stop (n : nat) (d rest : string) :
  allDigits d = true -> (String.length d < n)%nat ->
  startsWithDigit rest = false -> digits n (d ++ rest) = None.
Proof.
  revert n. induction d as [| c d IH]; intros n Hall Hlen Hrest.
  - destruct n as [| n]; [cbn in Hlen; lia |].
    cbn. destruct rest as [| c r]; [reflexivity |].
    cbn in Hrest. rewrite Hrest. reflexivity.
  - cbn in Hall. apply andb_true_iff in Hall. destruct Hall as [Hc Hd].
    destruct n as [| n]; [cbn in Hlen; lia |].
    cbn. rewrite Hc. rewrite IH; [reflexivity | exact Hd | | exact Hrest].
    cbn in Hlen. lia.
Qed.

Lemma containsSlash_app (a b : string) :
  containsSlash (a ++ b) = containsSlash a || containsSlash b.
Proof.
  induction a as [| c a IH]; [reflexivity |].
  cbn. rewrite IH, orb_assoc. reflexivity.
Qed.

Lemma digit_not_slash (c : ascii) : isDigit c = true -> Ascii.eqb c "/" = false.
Proof.
  intro H. destruct (Ascii.eqb_spec c "/") as [-> | _]; [| reflexivity].
  vm_compute in H. discriminate.
Qed.

Lemma allDigits_no_slash (d : string) :
  allDigits d = true -> containsSlash d = false.
Proof.
  induction d as [| c d IH]; intro H; [reflexivity |].
  cbn in H. apply andb_true_iff in H. destruct H as [Hc Hd].
  cbn. rewrite (digit_not_slash c Hc), (IH Hd). reflexivity.
Qed.

Lemma wellFormedId_no_slash (s : string) :
  wellFormedId s -> containsSlash s = false.
Proof.
  intros (yymm & number & -> & _ & Hy & _ & Hn).
  rewrite !containsSlash_app, (allDigits_no_slash _ Hy),
    (allDigits_no_slash _ Hn). reflexivity.
Qed.

(** The group of a match has the shape of an identifier. *)
Lemma matchHere_wellFormed (s group : string) :
  matchHere s = Some group -> wellFormedId group.
Proof.
  unfold matchHere. intro H.
  destruct (dropPrefix "arxiv.org/abs/" s) as [s1 |]; [| discriminate].
  destruct (digits 4 s1) as [[yymm r] |] eqn:E4; [| discriminate].
  destruct r as [| c s2]; [discriminate |].
  destruct (Ascii.eqb_spec c ".") as [-> | Hne].
  2: { revert H. destruct c as [[] [] [] [] [] [] [] []];
       try discriminate. contradiction Hne. reflexivity. }
  destruct (digits_spec _ _ _ _ E4) as (_ & Hlen & Hall).
  destruct (digits 5 s2) as [[number r5] |] eqn:E5.
  - injection H as <-. destruct (digits_spec _ _ _ _ E5) as (_ & Hl5 & Ha5).
    exists yymm, number. repeat split; auto.
  - destruct (digits 4 s2) as [[number r4] |] eqn:E4'; [| discriminate].
    injection H as <-. destruct (digits_spec _ _ _ _ E4') as (_ & Hl4 & Ha4).
    exists yymm, number. repeat split; auto.
Qed.

Lemma regexMatch_wellFormed (s group : string) :
  regexMatch s = Some group -> wellFormedId group.
Proof.
  induction s as [| c s IH]; cbn [regexMatch].
  - destruct (matchHere "") eqn:E; [| discriminate].
    intros [= <-]. eapply matchHere_wellFormed. exact E.
  - destruct (matchHere (String c s)) eqn:E; [| exact IH].
    intros [= <-]. eapply matchHere_wellFormed. exact E.
Qed.

Lemma dropPrefix_suffix (p s rest : string) :
  dropPrefix p s = Some rest -> s = p ++ rest.
Proof.
  revert s. induction p as [| a p IH]; intros s H.
  - cbn in H. injection H as <-. reflexivity.
  - cbn in H. destruct s as [| b s]; [discriminate |].
    destruct (Ascii.eqb_spec a b) as [-> | _]; [| discriminate].
    cbn. f_equal. apply IH. exact H.
Qed.

Lemma matchHere_needs_slash (s : string) :
  containsSlash s = false -> matchHere s = None.
Proof.
  intro H. unfold matchHere.
  destruct (dropPrefix "arxiv.org/abs/" s) as [s1 |] eqn:E; [| reflexivity].
  apply dropPrefix_suffix in E. subst s.
  rewrite containsSlash_app in H. vm_compute in H. discriminate.
Qed.

Lemma regexMatch_needs_slash (s : string) :
  containsSlash s = false -> regexMatch s = None.
Proof.
  induction s as [| c s IH]; intro H; cbn [regexMatch];
    rewrite (matchHere_needs_slash _ H); [reflexivity |].
  apply IH. cbn in H. apply orb_false_iff in H. apply H.
Qed.

Lemma lastSegment_no_slash (s : string) :
  containsSlash s = false -> lastSegment s = s.
Proof.
  destruct s as [| c s]; [reflexivity |].
  cbn. intro H. apply orb_false_iff in H. destruct H as [Hc Hs].
  rewrite Hs, Hc. reflexivity.
Qed.

Lemma lastSegment_has_no_slash (s : string) :
  containsSlash (lastSegment s) = false.
Proof.
  induction s as [| c s IH]; [reflexivity |].
  cbn [lastSegment]. destruct (containsSlash s) eqn:Es; [exact IH |].
  destruct (Ascii.eqb c "/") eqn:Ec; [exact Es |].
  cbn. rewrite Ec, Es. reflexivity.
Qed.

Lemma removeFirst_no_slash (p s : string) :
  containsSlash s = false -> containsSlash (removeFirst p s) = false.
Proof.
  induction s as [| c s IH]; intro H.
  - cbn [removeFirst]. destruct (dropPrefix p "") as [rest |] eqn:E;
      [| reflexivity].
    apply dropPrefix_suffix in E. destruct p; [| discriminate].
    cbn in E. subst rest. reflexivity.
  - cbn [removeFirst]. destruct (dropPrefix p (String c s)) as [rest |] eqn:E.
    + apply dropPrefix_suffix in E. rewrite E, containsSlash_app in H.
      apply orb_false_iff in H. apply H.
    + cbn in H. apply orb_false_iff in H. destruct H as [Hc Hs].
      cbn. rewrite Hc. apply IH. exact Hs.
Qed.

Lemma removeFirst_version_absent (n : ascii) (s : string) :
  digitsAndDots s = true -> removeFirst (String "v" (String n "")) s = s.
Proof.
  induction s as [| c s IH]; intro H; [reflexivity |].
  cbn in H. apply andb_true_iff in H. destruct H as [Hc Hs].
  cbn [removeFirst dropPrefix].
  destruct (Ascii.eqb_spec "v" c) as [<- | _].
  - vm_compute in Hc. discriminate.
  - rewrite (IH Hs). reflexivity.
Qed.

Lemma digitsAndDots_app (a b : string) :
  digitsAndDots (a ++ b) = digitsAndDots a && digitsAndDots b.
Proof.
  induction a as [| c a IH]; [reflexivity |].
  cbn. rewrite IH, andb_assoc. reflexivity.
Qed.

Lemma allDigits_digitsAndDots (d : string) :
  allDigits d = true -> digitsAndDots d = true.
Proof.
  induction d as [| c d IH]; intro H; [reflexivity |].
  cbn in H. apply andb_true_iff in H. destruct H as [Hc Hd].
  cbn. rewrite Hc, (IH Hd). reflexivity.
Qed.

Lemma wellFormedId_fixed (s : string) :
  wellFormedId s -> extractArxivId s = s.
Proof.
  intro Hw. pose proof (wellFormedId_no_slash s Hw) as Hs.
  unfold extractArxivId. rewrite (regexMatch_needs_slash s Hs).
  rewrite (lastSegment_no_slash s Hs).
  assert (Hd : digitsAndDots s = true).
  { destruct Hw as (yymm & number & -> & _ & Hy & _ & Hn).
    rewrite !digitsAndDots_app, (allDigits_digitsAndDots _ Hy),
      (allDigits_digitsAndDots _ Hn). reflexivity. }
  rewrite !(fun n => removeFirst_version_absent n s Hd). reflexivity.
Qed.

(** X13: whenever the pattern matches, the identifier extracted is four
    digits, a dot and four or five digits, and extracting from it again
    returns it unchanged. *)
Theorem extractArxivId_match_is_wellFormed (fullId group : string) :
  regexMatch fullId = Some group ->
  extractArxivId fullId = group /\
  wellFormedId group /\
  extractArxivId (extractArxivId fullId) = extractArxivId fullId.
Proof.
  intro H. pose proof (regexMatch_wellFormed _ _ H) as Hw.
  unfold extractArxivId at 1 3 4. rewrite H.
  split; [reflexivity |]. split; [exact Hw |].
  apply wellFormedId_fixed. exact Hw.
Qed.

(** X14: the identifier extracted never contains a slash, whichever of the two
    branches produced it. *)
Theorem extractArxivId_has_no_slash (fullId : string) :
  containsSlash (extractArxivId fullId) = false.
Proof.
  unfold extractArxivId.
  destruct (regexMatch fullId) as [group |] eqn:E.
  - apply wellFormedId_no_slash. eapply regexMatch_wellFormed. exact E.
  - repeat apply removeFirst_no_slash. apply lastSegment_has_no_slash.
Qed.

End ArxivIdentifiers.

(** ** The arXiv client: canonical links, duplicates and categories *)

Section ArxivFeed.

Import Arxiv.
Local Open Scope string_scope.

Lemma regexMatch_skip (pre s : string) :
  noLetterA pre = true -> regexMatch (pre ++ s) = regexMatch s.
Proof.
  induction pre as [| c pre IH]; intro H; [reflexivity |].
  cbn [noLetterA] in H. apply andb_true_iff in H. destruct H as [Hc Hpre].
  apply negb_true_iff in Hc.
  change (String c pre ++ s) with (String c (pre ++ s)).
  cbn [regexMatch].
  assert (Hhere : matchHere (String c (pre ++ s)) = None).
  { unfold matchHere.
    change (dropPrefix "arxiv.org/abs/" (String c (pre ++ s)))
      with (if Ascii.eqb "a" c
            then dropPrefix "rxiv.org/abs/" (pre ++ s) else None).
    rewrite Hc. reflexivity. }
  rewrite Hhere. apply IH. exact Hpre.
Qed.

Lemma regexMatch_here (s group : string) :
  matchHere s = Some group -> regexMatch s = Some group.
Proof. intro H. destruct s; cbn [regexMatch]; rewrite H; reflexivity. Qed.

(** X15: from a link [scheme]arxiv.org/abs/YYMM.NNNNN followed by anything
    (a version suffix of any length, for instance) the identifier
    extracted is YYMM.NNNNN; with a four-digit number, what follows must
    not start with a digit.  The scheme is any text without the letter a,
    such as http:// or https://. *)
Theorem extractArxivId_of_link (scheme yymm number rest : string) :
  noLetterA scheme = true ->
  String.length yymm = 4%nat -> allDigits yymm = true ->
  (String.length number = 5%nat \/
   (String.length number = 4%nat /\ startsWithDigit rest = false)) ->
  allDigits number = true ->
  extractArxivId (scheme ++ "arxiv.org/abs/" ++ yymm ++ "." ++ number ++ rest)
  = yymm ++ "." ++ number.
Proof.
  intros Hscheme Hly Hy Hln Hn. unfold extractArxivId.
  rewrite (regexMatch_skip scheme _ Hscheme).
  rewrite (regexMatch_here _ (yymm ++ "." ++ number)); [reflexivity |].
  unfold matchHere.
  change (dropPrefix "arxiv.org/abs/"
            ("arxiv.org/abs/" ++ yymm ++ "." ++ number ++ rest))
    with (Some (yymm ++ "." ++ number ++ rest)).
  cbv beta iota.
  pose proof (digits_complete yymm ("." ++ number ++ rest) Hy) as E4.
  rewrite Hly in E4. rewrite E4.
  change ("." ++ number ++ rest) with (String "." (number ++ rest)).
  cbn iota.
  pose proof (digits_complete number rest Hn) as En.
  destruct Hln as [H5 | [H4 Hrest]].
  - rewrite H5 in En. rewrite En. reflexivity.
  - rewrite (digits_stop 5 number rest Hn) by (rewrite ?H4; auto; lia).
    rewrite H4 in En. rewrite En. reflexivity.
Qed.

(** *** Duplicates *)

Lemma existsb_eqb_In (x : string) (l : list string) :
  existsb (String.eqb x) l = true <-> In x l.
Proof.
  rewrite existsb_exists. split.
  - intros (y & Hy & E). apply String.eqb_eq in E. subst. exact Hy.
  - intro H. exists x. split; [exact H | apply String.eqb_refl].
Qed.

Lemma Map_has_keys {V : Type} (k : string) (m : JsMap V) :
  Map_has k m = existsb (String.eqb k) (map fst m).
Proof.
  unfold Map_has. induction m as [| [k' v] m IH]; [reflexivity |].
  cbn [Map_get map fst existsb]. rewrite (String.eqb_sym k k').
  destruct (String.eqb k' k); [reflexivity | exact IH].
Qed.

Lemma Map_set_absent {V : Type} (k : string) (v : V) (m : JsMap V) :
  Map_has k m = false -> Map_set k v m = (m ++ [(k, v)])%list.
Proof.
  unfold Map_has. induction m as [| [k' v'] m IH]; [reflexivity |].
  cbn [Map_get Map_set app]. destruct (String.eqb k' k); [discriminate |].
  intro H. rewrite (IH H). reflexivity.
Qed.

Lemma collectUnique_firstById (allPapers : list ArxivPaper)
  (uniquePapers : JsMap ArxivPaper) :
  Map_values (collectUnique allPapers uniquePapers)
  = (Map_values uniquePapers
     ++ firstById (rev (map fst uniquePapers)) allPapers)%list.
Proof.
  revert uniquePapers. induction allPapers as [| paper rest IH];
    intro uniquePapers.
  - cbn. rewrite app_nil_r. reflexivity.
  - cbn [collectUnique firstById]. rewrite IH.
    rewrite Map_has_keys.
    assert (Hrev : existsb (String.eqb (id paper)) (rev (map fst uniquePapers))
                   = existsb (String.eqb (id paper)) (map fst uniquePapers)).
    { apply eq_true_iff_eq. rewrite !existsb_eqb_In. symmetry. apply in_rev. }
    rewrite Hrev.
    destruct (existsb (String.eqb (id paper)) (map fst uniquePapers)) eqn:E;
      [reflexivity |].
    rewrite Map_set_absent by (rewrite Map_has_keys; exact E).
    unfold Map_values. rewrite !map_app, rev_app_distr.
    cbn [map fst snd rev app]. rewrite <- app_assoc. reflexivity.
Qed.

Lemma firstById_In (seen : list string) (allPapers : list ArxivPaper)
  (p : ArxivPaper) :
  In p (firstById seen allPapers) <->
  exists pre post,
    allPapers = (pre ++ p :: post)%list /\
    ~ In (id p) seen /\ ~ In (id p) (map id pre).
Proof.
  revert seen. induction allPapers as [| q rest IH]; intro seen.
  - cbn. split; [intros [] |]. intros (pre & post & E & _).
    destruct pre; discriminate.
  - cbn [firstById].
    destruct (existsb (String.eqb (id q)) seen) eqn:Eq.
    + apply existsb_eqb_In in Eq. rewrite IH. split.
      * intros (pre & post & -> & Hs & Hp).
        exists (q :: pre), post. split; [reflexivity |]. split; [exact Hs |].
        cbn. intros [E | H]; [| exact (Hp H)]. apply Hs. rewrite <- E. exact Eq.
      * intros (pre & post & E & Hs & Hp). destruct pre as [| q' pre].
        -- cbn in E. injection E as -> ->. contradiction.
        -- cbn in E. injection E as -> ->.
           exists pre, post. split; [reflexivity |]. split; [exact Hs |].
           intro H. apply Hp. right. exact H.
    + assert (Hq : ~ In (id q) seen).
      { intro H. apply existsb_eqb_In in H. congruence. }
      cbn [In]. rewrite IH. split.
      * intros [<- | (pre & post & -> & Hs & Hp)].
        -- exists [], rest. split; [reflexivity |]. split; [exact Hq |].
           intros [].
        -- exists (q :: pre), post. split; [reflexivity |].
           split; [intro H; apply Hs; right; exact H |].
           cbn. intros [E | H]; [| exact (Hp H)]. apply Hs. left. exact E.
      * intros (pre & post & E & Hs & Hp). destruct pre as [| q' pre].
        -- cbn in E. injection E as -> ->. left. reflexivity.
        -- cbn in E. injection E as -> ->. right.
           exists pre, post. split; [reflexivity |].
           split; [| intro H; apply Hp; right; exact H].
           cbn. intros [E | H]; [| exact (Hs H)]. apply Hp. left. exact E.
Qed.

Lemma firstById_NoDup (seen : list string) (allPapers : list ArxivPaper) :
  NoDup (map id (firstById seen allPapers)).
Proof.
  revert seen. induction allPapers as [| q rest IH]; intro seen;
    [constructor |].
  cbn [firstById]. destruct (existsb (String.eqb (id q)) seen); [apply IH |].
  cbn [map]. constructor; [| apply IH].
  intro H. apply in_map_iff in H. destruct H as (p & E & Hp).
  apply firstById_In in Hp. destruct Hp as (_ & _ & _ & Hs & _).
  apply Hs. left. symmetry. exact E.
Qed.

(** X16: the papers returned have pairwise different ids, and they are exactly
    the first papers of their id in the list collected: a later paper
    with an id already seen is dropped. *)
Theorem deduplicateById_keeps_first (allPapers : list ArxivPaper) :
  NoDup (map id (deduplicateById allPapers)) /\
  forall p,
    In p (deduplicateById allPapers) <->
    exists pre post,
      allPapers = (pre ++ p :: post)%list /\ ~ In (id p) (map id pre).
Proof.
  unfold deduplicateById. rewrite collectUnique_firstById. cbn [Map_values map rev app].
  split; [apply firstById_NoDup |].
  intro p. rewrite firstById_In. split.
  - intros (pre & post & E & _ & H). eauto.
  - intros (pre & post & E & H). exists pre, post. repeat split; auto.
Qed.

(** *** Categories *)

Lemma uniqueInOrder_In (seen xs : list string) (x : string) :
  In x (uniqueInOrder seen xs) <-> In x xs /\ ~ In x seen.
Proof.
  revert seen. induction xs as [| y xs IH]; intro seen.
  - cbn. tauto.
  - cbn [uniqueInOrder].
    destruct (existsb (String.eqb y) seen) eqn:E.
    + apply existsb_eqb_In in E. rewrite IH. cbn [In].
      split; [tauto |]. intros [[-> | H] Hs]; [contradiction | tauto].
    + assert (Hy : ~ In y seen).
      { intro H. apply existsb_eqb_In in H. congruence. }
      cbn [In]. rewrite IH. cbn [In].
      destruct (String.eqb_spec y x) as [-> | Hne]; [tauto |].
      split; [tauto |]. intros [[E' | H] Hs]; [contradiction |].
      right. split; [exact H |]. intros [E' | H']; [contradiction | tauto].
Qed.

Lemma uniqueInOrder_NoDup (seen xs : list string) :
  NoDup (uniqueInOrder seen xs).
Proof.
  revert seen. induction xs as [| y xs IH]; intro seen; [constructor |].
  cbn [uniqueInOrder]. destruct (existsb (String.eqb y) seen); [apply IH |].
  constructor; [| apply IH].
  intro H. apply uniqueInOrder_In in H. destruct H as [_ H]. apply H.
  left. reflexivity.
Qed.

Lemma collectCategories_In (categoryArray : list CategoryEntry) (c : string) :
  In c (collectCategories categoryArray) <->
  exists cat, In cat categoryArray /\ termOf cat = Some c /\
              (startsWith "cs." c || startsWith "stat." c) = true.
Proof.
  induction categoryArray as [| cat rest IH].
  - cbn. split; [intros [] | intros (cat & [] & _)].
  - assert (Hshift : (exists cat', In cat' rest /\ termOf cat' = Some c /\
                        (startsWith "cs." c || startsWith "stat." c) = true) ->
                     exists cat', In cat' (cat :: rest) /\ termOf cat' = Some c /\
                        (startsWith "cs." c || startsWith "stat." c) = true).
    { intros (cat' & Hc & Ht & Hs). exists cat'.
      split; [right; exact Hc | split; assumption]. }
    cbn [collectCategories].
    destruct (termOf cat) as [term |] eqn:Et.
    + destruct (startsWith "cs." term || startsWith "stat." term) eqn:Es.
      * cbn [In]. rewrite IH. split.
        -- intros [<- | H]; [| apply Hshift; exact H].
           exists cat. split; [left; reflexivity | split; assumption].
        -- intros (cat' & [<- | Hc] & Ht & Hs); [left; congruence |].
           right. exists cat'. split; [exact Hc | split; assumption].
      * rewrite IH. split; [exact Hshift |].
        intros (cat' & [<- | Hc] & Ht & Hs); [congruence |].
        exists cat'. split; [exact Hc | split; assumption].
    + rewrite IH. split; [exact Hshift |].
      intros (cat' & [<- | Hc] & Ht & Hs); [congruence |].
      exists cat'. split; [exact Hc | split; assumption].
Qed.

(** X17: the categories stored with an entry that is kept are the terms of its
    category elements that start with cs. or stat., each once; one of
    them is cs.AI, cs.LG or stat.ML. *)
Theorem entryCategories_kept (categoryArray : list CategoryEntry)
  (stored : list string) :
  entryCategories categoryArray = Some stored ->
  NoDup stored /\
  (forall c, In c stored <->
     exists cat, In cat categoryArray /\ termOf cat = Some c /\
                 (startsWith "cs." c || startsWith "stat." c) = true) /\
  (In "cs.AI" stored \/ In "cs.LG" stored \/ In "stat.ML" stored).
Proof.
  unfold entryCategories. cbn zeta.
  destruct (existsb isTarget (collectCategories categoryArray)) eqn:E;
    cbn [negb]; [| discriminate].
  intros [= <-]. split; [apply uniqueInOrder_NoDup |].
  assert (Hin : forall c, In c (uniqueInOrder [] (collectCategories categoryArray))
                          <-> In c (collectCategories categoryArray)).
  { intro c. rewrite uniqueInOrder_In. cbn [In]. tauto. }
  split.
  - intro c. rewrite Hin. apply collectCategories_In.
  - apply existsb_exists in E. destruct E as (c & Hc & Ht).
    unfold isTarget in Ht. cbn [existsb] in Ht.
    rewrite orb_false_r in Ht.
    apply orb_true_iff in Ht. destruct Ht as [Ht | Ht];
      [apply String.eqb_eq in Ht; subst; left; apply Hin; exact Hc |].
    apply orb_true_iff in Ht. destruct Ht as [Ht | Ht];
      apply String.eqb_eq in Ht; subst;
      [right; left | right; right]; apply Hin; exact Hc.
Qed.

End ArxivFeed.

(** ** The read endpoints *)

Section MapInvariants.

Context {V : Type}.

Lemma Map_get_In (k : string) (v : V) (m : JsMap V) :
  Map_get k m = Some v -> In (k, v) m.
Proof.
  induction m as [| [k' v'] m IH]; [discriminate |].
  cbn [Map_get]. destruct (String.eqb_spec k' k) as [-> | _].
  - intros [= ->]. left. reflexivity.
  - intro H. right. apply IH. exact H.
Qed.

Lemma Map_has_In_keys (k : string) (m : JsMap V) :
  Map_has k m = true <-> In k (map fst m).
Proof.
  unfold Map_has. induction m as [| [k' v'] m IH]; cbn [Map_get map fst In].
  - split; [discriminate | intros []].
  - destruct (String.eqb_spec k' k) as [-> | Hne].
    + split; [left; reflexivity | reflexivity].
    + rewrite IH. split; [right; assumption | intros [E | H]; [contradiction | exact H]].
Qed.

Lemma Map_set_In (k k' : string) (v v' : V) (m : JsMap V) :
  In (k', v') (Map_set k v m) -> (k' = k /\ v' = v) \/ In (k', v') m.
Proof.
  induction m as [| [k0 v0] m IH]; cbn [Map_set].
  - intros [[= <- <-] | []]. left. split; reflexivity.
  - destruct (String.eqb k0 k).
    + intros [[= <- <-] | H]; [left; split; reflexivity | right; right; exact H].
    + intros [E | H]; [right; left; exact E |].
      destruct (IH H) as [H' | H']; [left; exact H' | right; right; exact H'].
Qed.

Lemma Map_set_keys_In (k k' : string) (v : V) (m : JsMap V) :
  In k' (map fst (Map_set k v m)) <-> k' = k \/ In k' (map fst m).
Proof.
  rewrite Map_keys_set. destruct (Map_has k m) eqn:E.
  - apply Map_has_In_keys in E. split; [right; assumption |].
    intros [-> | H]; assumption.
  - rewrite in_app_iff. cbn [In]. split.
    + intros [H | [<- | []]]; [right; exact H | left; reflexivity].
    + intros [-> | H]; [right; left; reflexivity | left; exact H].
Qed.

Lemma Map_set_keys_NoDup (k : string) (v : V) (m : JsMap V) :
  NoDup (map fst m) -> NoDup (map fst (Map_set k v m)).
Proof.
  intro H. rewrite Map_keys_set. destruct (Map_has k m) eqn:E; [exact H |].
  apply NoDup_app; [exact H | repeat constructor; intros [] |].
  intros x Hx [<- | []].
  apply Map_has_In_keys in Hx. congruence.
Qed.

Lemma Map_set_last (k : string) (v v' : V) (m : JsMap V) :
  Map_has k m = false ->
  Map_set k v' (m ++ [(k, v)]) = m ++ [(k, v')] /\
  Map_get k (m ++ [(k, v)]) = Some v.
Proof.
  unfold Map_has. induction m as [| [k0 v0] m IH]; cbn [app Map_set Map_get].
  - rewrite String.eqb_refl. split; reflexivity.
  - destruct (String.eqb k0 k); [discriminate |].
    intro H. destruct (IH H) as [-> ->]. split; reflexivity.
Qed.

End MapInvariants.

Section ReadEndpoints.

Import Api.

Variable dateValue : string -> Z.
Variable arraySort : forall A : Type, (A -> A -> Q) -> list A -> list A.

Lemma latestOf_spec (others : list PaperMetric) (first : PaperMetric) :
  In (latestOf dateValue first others) (first :: others) /\
  forall m, In m (first :: others) ->
    (dateValue (snapshot_date m)
     <= dateValue (snapshot_date (latestOf dateValue first others)))%Z.
Proof.
  revert first. induction others as [| c rest IH]; intro first.
  - cbn. split; [left; reflexivity |]. intros m [<- | []]. lia.
  - change (latestOf dateValue first (c :: rest))
      with (latestOf dateValue
              (if newer dateValue c first then c else first) rest).
    destruct (IH (if newer dateValue c first then c else first))
      as [Hin Hmax].
    set (next := if newer dateValue c first then c else first) in *.
    assert (Hnext : In next [first; c] /\
                    (dateValue (snapshot_date first)
                     <= dateValue (snapshot_date next))%Z /\
                    (dateValue (snapshot_date c)
                     <= dateValue (snapshot_date next))%Z).
    { unfold next, newer.
      destruct (Z.ltb_spec (dateValue (snapshot_date first))
                  (dateValue (snapshot_date c))).
      - split; [right; left; reflexivity | lia].
      - split; [left; reflexivity | lia]. }
    destruct Hnext as (Hn & Hf & Hc).
    pose proof (Hmax next (or_introl eq_refl)) as Hnmax.
    split.
    + destruct Hin as [<- | H]; [| right; right; exact H].
      destruct Hn as [<- | [<- | []]];
        [left; reflexivity | right; left; reflexivity].
    + intros m [<- | [<- | H]]; [lia | lia |].
      apply Hmax. right. exact H.
Qed.

(** X18: the metric shown for a paper is one of its metrics and none of them
    has a later snapshot date; a paper whose metrics are missing or empty
    has none. *)
Theorem latestMetric_is_latest (metrics : option (list PaperMetric)) :
  match latestMetric dateValue metrics with
  | Some latest =>
      exists all, metrics = Some all /\ In latest all /\
        forall m, In m all ->
          (dateValue (snapshot_date m) <= dateValue (snapshot_date latest))%Z
  | None => metrics = None \/ metrics = Some []
  end.
Proof.
  destruct metrics as [[| first others] |]; cbn [latestMetric].
  - right. reflexivity.
  - exists (first :: others). split; [reflexivity |]. apply latestOf_spec.
  - left. reflexivity.
Qed.

(** *** GET /api/papers *)

Hypothesis arraySort_permutes :
  forall (A : Type) (cmp : A -> A -> Q) (l : list A),
    Permutation l (arraySort A cmp l).

Lemma addRow_invariant (m : JsMap PaperWithMetrics) (row : PaperRow) :
  mapInvariant m ->
  mapInvariant (addRow dateValue m row) /\
  forall k, In k (map fst (addRow dateValue m row)) <->
            k = rowId row \/ In k (map fst m).
Proof.
  intros [Hnd Hid]. unfold addRow. cbn zeta. fold (rowId row).
  set (k0 := rowId row).
  set (m1 := if Map_has k0 m then m
             else Map_set k0 (mkPaperWithMetrics (row_paper row) None) m).
  assert (Hinv1 : mapInvariant m1).
  { unfold m1. destruct (Map_has k0 m); [split; assumption |].
    split; [apply Map_set_keys_NoDup; exact Hnd |].
    intros k e H. apply Map_set_In in H. destruct H as [[-> ->] | H];
      [reflexivity | apply Hid; exact H]. }
  assert (Hkeys1 : forall k, In k (map fst m1) <-> k = k0 \/ In k (map fst m)).
  { intro k. unfold m1. destruct (Map_has k0 m) eqn:E.
    - apply Map_has_In_keys in E. split; [right; assumption |].
      intros [-> | H]; assumption.
    - apply Map_set_keys_In. }
  destruct Hinv1 as [Hnd1 Hid1].
  destruct (Map_get k0 m1) as [paperEntry |] eqn:Eget;
    [| split; [split; assumption | exact Hkeys1]].
  destruct (latestMetric dateValue (paper_metrics row)) as [latest |];
    [| split; [split; assumption | exact Hkeys1]].
  destruct (match metrics paperEntry with
            | Some current => newer dateValue latest current
            | None => true
            end);
    [| split; [split; assumption | exact Hkeys1]].
  apply Map_get_In in Eget. pose proof (Hid1 _ _ Eget) as Hentry.
  split; [split |].
  - apply Map_set_keys_NoDup. exact Hnd1.
  - intros k e H. apply Map_set_In in H. destruct H as [[-> ->] | H];
      [exact Hentry | apply Hid1; exact H].
  - intro k. rewrite Map_set_keys_In, Hkeys1. tauto.
Qed.

Lemma fold_addRow_invariant (rows : list PaperRow) (m : JsMap PaperWithMetrics) :
  mapInvariant m ->
  mapInvariant (fold_left (addRow dateValue) rows m) /\
  forall k, In k (map fst (fold_left (addRow dateValue) rows m)) <->
            In k (map rowId rows) \/ In k (map fst m).
Proof.
  revert m. induction rows as [| row rows IH]; intros m Hinv.
  - cbn. split; [exact Hinv |]. intro k. tauto.
  - cbn [fold_left map In].
    destruct (addRow_invariant m row Hinv) as [Hinv' Hkeys'].
    destruct (IH _ Hinv') as [Hfinal Hkeys].
    split; [exact Hfinal |]. intro k. rewrite Hkeys, Hkeys'.
    split; [intros [H | [H | H]] | intros [[H | H] | H]]; auto.
Qed.

Lemma values_ids (m : JsMap PaperWithMetrics) :
  mapInvariant m -> map entryId (Map_values m) = map fst m.
Proof.
  intros [_ Hid]. unfold Map_values. rewrite map_map.
  apply map_ext_in. intros [k e] H. cbn. apply Hid. exact H.
Qed.

Lemma NoDup_map_filter {A B : Type} (f : A -> B) (keep : A -> bool) (l : list A) :
  NoDup (map f l) -> NoDup (map f (filter keep l)).
Proof.
  induction l as [| x l IH]; [intros _; constructor |].
  cbn [map filter]. intro H. inversion H as [| y ys Hnot Hnd]; subst.
  destruct (keep x); [| apply IH; exact Hnd].
  cbn [map]. constructor; [| apply IH; exact Hnd].
  intro Hin. apply Hnot. apply in_map_iff in Hin.
  destruct Hin as (z & E & Hz). apply filter_In in Hz.
  rewrite <- E. apply in_map. apply Hz.
Qed.

(** The filtered list of GET /api/papers, before the sort. *)
Lemma papersResponse_unfold (minScore : option Q) (rows : list PaperRow) :
  exists filtered,
    papersResponse dateValue arraySort minScore rows
    = arraySort PaperWithMetrics byScoreDesc filtered /\
    NoDup (map entryId filtered) /\
    (forall p, In p filtered -> In (entryId p) (map rowId rows)) /\
    (filterOff minScore ->
     forall k, In k (map rowId rows) -> In k (map entryId filtered)) /\
    (forall least, minScore = Some least -> 0 < least ->
     forall p, In p filtered ->
       exists m, metrics p = Some m /\ least <= engagement_score m).
Proof.
  unfold papersResponse. cbn zeta.
  set (paperMap := fold_left (addRow dateValue) rows []).
  assert (Hempty : mapInvariant ([] : JsMap PaperWithMetrics)).
  { split; [constructor | intros k e []]. }
  destruct (fold_addRow_invariant rows [] Hempty) as [Hinv Hkeys].
  fold paperMap in Hinv, Hkeys.
  pose proof (values_ids paperMap Hinv) as Hids.
  assert (Hall : NoDup (map entryId (Map_values paperMap)))
    by (rewrite Hids; apply Hinv).
  assert (Hfrom : forall p, In p (Map_values paperMap) ->
                            In (entryId p) (map rowId rows)).
  { intros p Hp. apply (in_map entryId) in Hp. rewrite Hids in Hp.
    apply Hkeys in Hp. destruct Hp as [H | []]. exact H. }
  assert (Hto : forall k, In k (map rowId rows) ->
                          In k (map entryId (Map_values paperMap))).
  { intros k Hk. rewrite Hids. apply Hkeys. left. exact Hk. }
  eexists. split; [reflexivity |].
  destruct minScore as [least |].
  - destruct (Js.gt least 0) eqn:Egt.
    + split; [apply NoDup_map_filter; exact Hall |].
      split; [intros p Hp; apply filter_In in Hp; apply Hfrom; apply Hp |].
      split.
      * cbn [filterOff]. intro Hoff. apply gt_true in Egt. lra.
      * intros least' [= <-] _ p Hp. apply filter_In in Hp.
        destruct Hp as [_ Hkeep]. destruct (metrics p) as [m |];
          [| discriminate].
        exists m. split; [reflexivity |]. apply Qle_bool_iff. exact Hkeep.
    + split; [exact Hall |]. split; [exact Hfrom |].
      split; [intros _; exact Hto |].
      intros least' [= <-] Hpos. apply gt_false in Egt. lra.
  - split; [exact Hall |]. split; [exact Hfrom |].
    split; [intros _; exact Hto |]. discriminate.
Qed.

(** X19: GET /api/papers returns at most one entry per paper id, each for a
    paper of the query; when the score filter is off every paper of the
    query is returned. *)
Theorem papers_response_one_entry_per_id (minScore : option Q)
  (rows : list PaperRow) :
  let response := papersResponse dateValue arraySort minScore rows in
  NoDup (map entryId response) /\
  (forall p, In p response -> In (entryId p) (map rowId rows)) /\
  (filterOff minScore ->
   forall row, In row rows -> exists p, In p response /\ entryId p = rowId row).
Proof.
  cbn zeta.
  destruct (papersResponse_unfold minScore rows)
    as (filtered & -> & Hnd & Hfrom & Hto & _).
  pose proof (arraySort_permutes PaperWithMetrics byScoreDesc filtered) as Hperm.
  split; [| split].
  - eapply Permutation_NoDup; [apply Permutation_map; exact Hperm | exact Hnd].
  - intros p Hp. apply Hfrom. eapply Permutation_in;
      [apply Permutation_sym; exact Hperm | exact Hp].
  - intros Hoff row Hrow.
    assert (Hk : In (rowId row) (map entryId filtered))
      by (apply Hto; [exact Hoff | apply in_map; exact Hrow]).
    apply in_map_iff in Hk. destruct Hk as (p & E & Hp).
    exists p. split; [eapply Permutation_in; eassumption | exact E].
Qed.

(** X20: with a positive minScore, every paper that GET /api/papers returns
    has a metric, and its score is at least minScore. *)
Theorem papers_response_respects_min_score (least : Q) (rows : list PaperRow)
  (p : PaperWithMetrics) :
  0 < least ->
  In p (papersResponse dateValue arraySort (Some least) rows) ->
  exists m, metrics p = Some m /\ least <= engagement_score m.
Proof.
  intros Hpos Hp.
  destruct (papersResponse_unfold (Some least) rows)
    as (filtered & E & _ & _ & _ & Hmin).
  rewrite E in Hp. apply (Hmin least eq_refl Hpos).
  eapply Permutation_in;
    [apply Permutation_sym; apply arraySort_permutes | exact Hp].
Qed.

Lemma addRow_fresh (m : JsMap PaperWithMetrics) (row : PaperRow) :
  Map_has (rowId row) m = false ->
  addRow dateValue m row = m ++ [(rowId row, entryOf dateValue row)].
Proof.
  intro Hfresh. unfold addRow. cbn zeta. fold (rowId row). rewrite Hfresh.
  rewrite (Map_set_absent _ _ _ Hfresh).
  destruct (Map_set_last (rowId row) (mkPaperWithMetrics (row_paper row) None)
              (mkPaperWithMetrics (row_paper row)
                 (latestMetric dateValue (paper_metrics row))) m Hfresh)
    as [Hset Hget].
  rewrite Hget. cbn [metrics paper]. unfold entryOf.
  destruct (latestMetric dateValue (paper_metrics row)) as [latest |];
    [exact Hset | reflexivity].
Qed.

Lemma fold_addRow_fresh (rows : list PaperRow) (m : JsMap PaperWithMetrics) :
  NoDup (map rowId rows) ->
  (forall row, In row rows -> ~ In (rowId row) (map fst m)) ->
  fold_left (addRow dateValue) rows m
  = m ++ map (fun row => (rowId row, entryOf dateValue row)) rows.
Proof.
  revert m. induction rows as [| row rows IH]; intros m Hnd Hfresh.
  - cbn. rewrite app_nil_r. reflexivity.
  - cbn [fold_left map]. inversion Hnd as [| k ks Hnot Hnd']; subst.
    rewrite addRow_fresh.
    2: { destruct (Map_has (rowId row) m) eqn:E; [| reflexivity].
         apply Map_has_In_keys in E. exfalso.
         apply (Hfresh row); [left; reflexivity | exact E]. }
    rewrite IH; [rewrite <- app_assoc; reflexivity | exact Hnd' |].
    intros row' Hrow' Hin. rewrite map_app, in_app_iff in Hin.
    destruct Hin as [Hin | [E | []]].
    + apply (Hfresh row'); [right; exact Hrow' | exact Hin].
    + cbn in E. apply Hnot. rewrite E. apply in_map. exact Hrow'.
Qed.

(** X21: when the ids of the rows of the query are pairwise different, as the
    primary key of the table makes them, GET /api/papers returns the sort
    of one entry per row, the paper with its latest metric, rows below a
    positive minScore or without metric being left out. *)
Theorem papers_response_of_distinct_rows (minScore : option Q)
  (rows : list PaperRow) :
  NoDup (map rowId rows) ->
  papersResponse dateValue arraySort minScore rows
  = arraySort PaperWithMetrics byScoreDesc
      (match minScore with
       | Some least =>
           if Js.gt least 0 then
             filter (fun p => match metrics p with
                              | None => false
                              | Some m => Qle_bool least (engagement_score m)
                              end) (map (entryOf dateValue) rows)
           else map (entryOf dateValue) rows
       | None => map (entryOf dateValue) rows
       end).
Proof.
  intro Hnd. unfold papersResponse. cbn zeta.
  rewrite (fold_addRow_fresh rows [] Hnd) by (intros row _ []).
  cbn [app]. unfold Map_values. rewrite map_map. cbn [snd].
  reflexivity.
Qed.

End ReadEndpoints.

(** *** GET /api/diff: rising papers *)

Section RisingPapers.

Import Api.

Variable arraySort : forall A : Type, (A -> A -> Q) -> list A -> list A.

Hypothesis arraySort_permutes :
  forall (A : Type) (cmp : A -> A -> Q) (l : list A),
    Permutation l (arraySort A cmp l).

Lemma In_firstn_inv {A : Type} (n : nat) (l : list A) (x : A) :
  In x (firstn n l) -> In x l.
Proof.
  revert l. induction n as [| n IH]; intros l H; [destruct H |].
  destruct l as [| y l]; [destruct H |].
  cbn [firstn] in H. destruct H as [<- | H];
    [left; reflexivity | right; apply IH; exact H].
Qed.

Lemma In_skipn_inv {A : Type} (n : nat) (l : list A) (x : A) :
  In x (skipn n l) -> In x l.
Proof.
  revert l. induction n as [| n IH]; intros l H; [exact H |].
  destruct l as [| y l]; [destruct H |].
  right. apply IH. exact H.
Qed.

Lemma slice_incl {A : Type} (l : list A) (start final : Z) (x : A) :
  In x (slice l start final) -> In x l.
Proof.
  unfold slice. intro H. apply In_firstn_inv in H. apply In_skipn_inv in H.
  exact H.
Qed.

Lemma slice_from_zero_length {A : Type} (l : list A) (final : Z) :
  (0 <= final)%Z -> (Z.of_nat (List.length (slice l 0 final)) <= final)%Z.
Proof.
  intro H. unfold slice, relativeIndex.
  destruct (Z.ltb_spec 0 0); [lia |]. destruct (Z.ltb_spec final 0); [lia |].
  rewrite length_firstn. lia.
Qed.

Lemma tenth_ceiling (n : nat) :
  (0 <= Math_ceil (length_num (repeat tt n) * (1 # 10)))%Z /\
  ((0 < n)%nat ->
   (1 <= Math_ceil (length_num (repeat tt n) * (1 # 10)) <= Z.of_nat n)%Z).
Proof.
  unfold Math_ceil, length_num. rewrite repeat_length.
  set (q := inject_Z (Z.of_nat n) * (1 # 10)).
  assert (H0 : 0 <= inject_Z (Z.of_nat n)).
  { change 0 with (inject_Z 0). rewrite <- Zle_Qle. lia. }
  assert (Hq0 : 0 <= q) by (unfold q; lra).
  assert (Hqn : q <= inject_Z (Z.of_nat n)) by (unfold q; lra).
  split.
  - change 0%Z with (Qceiling 0). apply Qceiling_resp_le. exact Hq0.
  - intro Hpos. split.
    + assert (Hlt : 0 < q).
      { unfold q. assert (0 < inject_Z (Z.of_nat n)); [| lra].
        change 0 with (inject_Z 0). rewrite <- Zlt_Qlt. lia. }
      pose proof (Qle_ceiling q) as Hc.
      assert (H : 0 < inject_Z (Qceiling q)) by lra.
      change 0 with (inject_Z 0) in H. rewrite <- Zlt_Qlt in H. lia.
    + rewrite <- (Qceiling_Z (Z.of_nat n)). apply Qceiling_resp_le. exact Hqn.
Qed.

(** X22: the rising papers of GET /api/diff are rows of the query with a
    positive score, at most a tenth (rounded up) of the rows with a
    positive score; there is none when no row has a positive score. *)
Theorem rising_rows_bounds (recentMetrics : list MetricRow) :
  let positive :=
    filter (fun s => Js.gt s 0)
      (map (fun m => engagement_score (metric m)) recentMetrics) in
  let quota := Math_ceil (length_num positive * (1 # 10)) in
  let rising := risingRows arraySort recentMetrics in
  (Z.of_nat (List.length rising) <= quota)%Z /\
  (forall m, In m rising ->
     In m recentMetrics /\ 0 < engagement_score (metric m)) /\
  (positive = [] -> rising = []).
Proof.
  intros positive quota rising.
  pose proof (arraySort_permutes Q (fun a b => b - a) positive) as Hperm.
  assert (Hrep : forall l : list Q,
            length_num l = length_num (repeat tt (List.length l))).
  { intro l. unfold length_num. rewrite repeat_length. reflexivity. }
  destruct (tenth_ceiling (List.length positive)) as [Hq0 Hq1].
  rewrite <- Hrep in Hq0, Hq1. fold quota in Hq0, Hq1.
  unfold rising, risingRows. fold positive.
  set (allScores := arraySort Q (fun a b => b - a) positive) in *.
  assert (Hlen : List.length allScores = List.length positive)
    by (symmetry; apply Permutation_length; exact Hperm).
  assert (Hquota : Math_ceil (length_num allScores * (1 # 10)) = quota).
  { unfold quota, length_num. rewrite Hlen. reflexivity. }
  rewrite !Hquota.
  set (threshold := if (quota - 1 <? 0)%Z then 0 else _).
  set (kept := filter _ recentMetrics).
  assert (Hkept : forall m, In m kept ->
            In m recentMetrics /\ threshold <= engagement_score (metric m)).
  { intros m Hm. apply filter_In in Hm. destruct Hm as [Hin Hk].
    split; [exact Hin | apply Qle_bool_iff; exact Hk]. }
  split; [apply slice_from_zero_length; exact Hq0 |].
  destruct (Nat.eq_dec (List.length positive) 0) as [Hzero | Hpos].
  - (* no positive score: the quota is 0 *)
    assert (Hz : quota = 0%Z).
    { unfold quota, length_num. rewrite Hzero. reflexivity. }
    assert (Hnil : slice kept 0 quota = []).
    { pose proof (slice_from_zero_length kept quota Hq0) as H.
      destruct (slice kept 0 quota); [reflexivity | cbn in H; lia]. }
    rewrite Hnil. split; [intros m [] | reflexivity].
  - assert (Hrange : (1 <= quota <= Z.of_nat (List.length positive))%Z)
      by (apply Hq1; lia).
    assert (Hthreshold : 0 < threshold).
    { unfold threshold. destruct (Z.ltb_spec (quota - 1) 0); [lia |].
      destruct (nth_error allScores (Z.to_nat (quota - 1))) as [s |] eqn:En.
      - assert (Hs : In s positive).
        { eapply Permutation_in; [apply Permutation_sym; exact Hperm |].
          eapply nth_error_In. exact En. }
        apply filter_In in Hs. destruct Hs as [_ Hs]. apply gt_true in Hs.
        assert (E : Js.strict_eq s 0 = false) by (apply strict_eq_false; lra).
        rewrite E. exact Hs.
      - apply nth_error_None in En. lia. }
    split.
    + intros m Hm. apply slice_incl in Hm. destruct (Hkept m Hm) as [Hin Hle].
      split; [exact Hin | lra].
    + intro Hnil. rewrite Hnil in Hpos. contradiction Hpos. reflexivity.
Qed.

End RisingPapers.

(** ** The citation backfill endpoint *)

Section BackfillCitationsFacts.

Import BackfillCitations.

Variable tzOffset : Date -> Z.
Variable World : Type.
Variable selectPaperIds : World -> Response (list string) * World.
Variable outcomeOf : nat -> SemanticScholar.FetchOutcome.
Variable today : string.
Variable selectMetricId : string -> string -> World -> option Z * World.
Variable updateCounts : Z -> Z -> World -> option string * World.
Variable insertMetric : string -> string -> Z -> World -> option string * World.
Variable selectMetrics :
  string -> World -> Response (list PaperMetric) * World.
Variable selectPapers :
  list string -> World -> Response (list PaperRow) * World.
Variable updateScore : Update -> World -> option string * World.
Variable arraySort :
  (PaperMetric -> PaperMetric -> Q) -> list PaperMetric -> list PaperMetric.
Variable clock : nat -> Date.




End BackfillCitationsFacts.


(** ** The ingestion endpoint *)


Section IngestFacts.

Variable tzOffset : Date -> Z.
Variable World : Type.
Variable today : string.
Variable token : option string.
Variable githubOutcome : nat -> GitHub.FetchOutcome.
Variable loopClock : nat -> Date.
Variable upsertPaper : Arxiv.ArxivPaper -> World -> option string * World.
Variable selectCreatedAt : string -> World -> option Date * World.
Variable selectMetricId : string -> string -> World -> option Z * World.
Variable updateMetric :
  Z -> Ingest.MetricData -> World -> option string * World.
Variable insertMetrics :
  list Ingest.MetricData -> World -> option string * World.
Variable selectMetrics :
  string -> World -> Response (list PaperMetric) * World.
Variable selectPapers :
  list string -> World -> Response (list PaperRow) * World.
Variable updateScore : Update -> World -> option string * World.
Variable arraySort :
  (PaperMetric -> PaperMetric -> Q) -> list PaperMetric -> list PaperMetric.
Variable clock : nat -> Date.






End IngestFacts.


(** * Instances of the further properties *)

Lemma sampleSort_permutes :
  forall (A : Type) (cmp : A -> A -> Q) (l : list A),
    Permutation l (sampleSort A cmp l).
Proof. intros A cmp l. apply insertionSort_perm. Qed.

Lemma revisions_agree_on_cited_batch_witness :
  In cited10 bothCited /\ (0 < downloads_7d cited10)%Z /\
  (computeEngagementScore utc jan1noon 5 0 bothCited (Some jan1)
   = NormalizeOnly.computeEngagementScore 5 0 bothCited
   /\
   DaysRecency.computeEngagementScore jan1noon 5 0 bothCited (Some jan1)
   = NormalizeOnly.computeEngagementScore 5 0 bothCited
   /\
   SortedPosition.computeEngagementScore (@insertionSort PaperMetric) 5 0
     bothCited (Some jan1) (Some "2401.00021"%string)
   = NormalizeOnly.computeEngagementScore 5 0 bothCited).
Proof.
  assert (Hin : In cited10 bothCited) by (right; left; reflexivity).
  assert (Hpos : (0 < downloads_7d cited10)%Z) by (simpl; lia).
  split; [exact Hin |]. split; [exact Hpos |].
  exact (revisions_agree_on_cited_batch utc (@insertionSort PaperMetric)
           jan1noon 5 0 bothCited (Some jan1) (Some "2401.00021"%string)
           cited10 Hin Hpos).
Defined.

Lemma normalize_only_uncited_batch_scores_zero_witness :
  allZeroCounts threeDays /\
  NormalizeOnly.computeEngagementScore 0 0 threeDays = Some 0.
Proof.
  assert (Hz : allZeroCounts threeDays) by counts_of_batch.
  split; [exact Hz |].
  exact (normalize_only_uncited_batch_scores_zero 0 0 threeDays Hz).
Defined.

Lemma repo_count_mvp_score_range_witness :
  (forall m, In m withRepos -> (0 <= github_repo_count m)%Z) /\
  In twelveRepos withRepos /\
  exists s,
    RepoCountMvp.computeEngagementScore 0 (github_repo_count twelveRepos)
      withRepos = Some s /\
    0 <= s <= 4 # 10 /\
    ((forall m, In m withRepos ->
        (github_repo_count m <= github_repo_count twelveRepos)%Z) ->
     (0 < github_repo_count twelveRepos)%Z -> s == 4 # 10).
Proof.
  assert (Hnn : forall m, In m withRepos -> (0 <= github_repo_count m)%Z).
  { intros m [<- | [<- | []]]; simpl; lia. }
  assert (Hin : In twelveRepos withRepos) by (right; left; reflexivity).
  split; [exact Hnn |]. split; [exact Hin |].
  exact (repo_count_mvp_score_range 0 withRepos twelveRepos Hnn Hin).
Defined.

Lemma sorted_position_score_in_unit_interval_witness :
  nonNegativeCounts exampleABC /\ In paperC exampleABC /\
  exists s,
    SortedPosition.computeEngagementScore (@insertionSort PaperMetric)
      (downloads_7d paperC) 0 exampleABC None (Some "C"%string) = Some s /\
    0 <= s <= 1.
Proof.
  assert (Hnn : nonNegativeCounts exampleABC).
  { intros m [<- | [<- | [<- | []]]]; simpl; lia. }
  assert (Hin : In paperC exampleABC) by (right; right; left; reflexivity).
  split; [exact Hnn |]. split; [exact Hin |].
  exact (sorted_position_score_in_unit_interval (@insertionSort PaperMetric)
           exampleABC paperC 0 None (Some "C"%string) Hnn Hin).
Defined.

Lemma batched_fetch_records_every_id_witness :
  (1 <= 2)%Z /\
  let n := Z.of_nat (List.length sampleIds) in
  exists results,
    SemanticScholar.fetchCitationCountsBatch sampleOutcomeOf
      (S (List.length sampleIds)) sampleIds 2 1000
    = Some (results, repeat 1000%Z (Z.to_nat ((n - 1) / 2))) /\
    results
    = fst (SemanticScholar.fetchCitationCountsSequential sampleOutcomeOf
             sampleIds 5 100)
    /\
    (forall arxivId, Map_has arxivId results = true <-> In arxivId sampleIds) /\
    (NoDup sampleIds ->
     forall j arxivId, nth_error sampleIds j = Some arxivId ->
       exists count,
         Map_get arxivId results = Some count /\
         count = fst (SemanticScholar.fetchCitationCount (sampleOutcomeOf j)
                        arxivId) /\
         (count <> 0%Z ->
          exists status statusText,
            sampleOutcomeOf j
            = SemanticScholar.FetchResponse status statusText
                (SemanticScholar.JsonObject (Some count)) /\
            SemanticScholar.responseOk status = true)).
Proof.
  assert (Hb : (1 <= 2)%Z) by lia.
  split; [exact Hb |].
  exact (batched_fetch_records_every_id sampleOutcomeOf sampleIds 2 1000 100 5
           Hb).
Defined.

Lemma batched_fetch_needs_positive_batch_size_witness :
  (0 <= 0)%Z /\ sampleIds <> [] /\
  SemanticScholar.fetchCitationCountsBatch sampleOutcomeOf 50 sampleIds 0 1000
  = None.
Proof.
  assert (Hb : (0 <= 0)%Z) by lia.
  assert (Hne : sampleIds <> []) by discriminate.
  split; [exact Hb |]. split; [exact Hne |].
  exact (batched_fetch_needs_positive_batch_size sampleOutcomeOf sampleIds 0
           1000 50 Hb Hne).
Defined.

Lemma extractArxivId_match_is_wellFormed_witness :
  Arxiv.regexMatch "http://arxiv.org/abs/2401.12345v2" = Some "2401.12345"%string /\
  Arxiv.extractArxivId "http://arxiv.org/abs/2401.12345v2" = "2401.12345"%string /\
  wellFormedId "2401.12345" /\
  Arxiv.extractArxivId (Arxiv.extractArxivId "http://arxiv.org/abs/2401.12345v2")
  = Arxiv.extractArxivId "http://arxiv.org/abs/2401.12345v2".
Proof.
  assert (H : Arxiv.regexMatch "http://arxiv.org/abs/2401.12345v2"
              = Some "2401.12345"%string) by reflexivity.
  split; [exact H |].
  exact (extractArxivId_match_is_wellFormed
           "http://arxiv.org/abs/2401.12345v2" "2401.12345" H).
Defined.

Lemma extractArxivId_of_link_witness :
  noLetterA "https://" = true /\
  String.length "2401" = 4%nat /\ allDigits "2401" = true /\
  (String.length "0123" = 5%nat \/
   (String.length "0123" = 4%nat /\ startsWithDigit "v12" = false)) /\
  allDigits "0123" = true /\
  Arxiv.extractArxivId
    ("https://" ++ "arxiv.org/abs/" ++ "2401" ++ "." ++ "0123" ++ "v12")
  = ("2401" ++ "." ++ "0123")%string.
Proof.
  assert (H1 : noLetterA "https://" = true) by reflexivity.
  assert (H2 : String.length "2401" = 4%nat) by reflexivity.
  assert (H3 : allDigits "2401" = true) by reflexivity.
  assert (H4 : String.length "0123" = 5%nat \/
               (String.length "0123" = 4%nat /\ startsWithDigit "v12" = false))
    by (right; split; reflexivity).
  assert (H5 : allDigits "0123" = true) by reflexivity.
  repeat (split; [assumption |]).
  exact (extractArxivId_of_link "https://" "2401" "0123" "v12" H1 H2 H3 H4 H5).
Defined.

Lemma entryCategories_kept_witness :
  Arxiv.entryCategories sampleCategories = Some ["cs.LG"; "stat.ML"]%string /\
  NoDup ["cs.LG"; "stat.ML"]%string /\
  (forall c, In c ["cs.LG"; "stat.ML"]%string <->
     exists cat, In cat sampleCategories /\ Arxiv.termOf cat = Some c /\
                 (Arxiv.startsWith "cs." c || Arxiv.startsWith "stat." c) = true) /\
  (In "cs.AI"%string ["cs.LG"; "stat.ML"]%string \/
   In "cs.LG"%string ["cs.LG"; "stat.ML"]%string \/
   In "stat.ML"%string ["cs.LG"; "stat.ML"]%string).
Proof.
  assert (H : Arxiv.entryCategories sampleCategories
              = Some ["cs.LG"; "stat.ML"]%string) by reflexivity.
  split; [exact H |].
  exact (entryCategories_kept sampleCategories ["cs.LG"; "stat.ML"]%string H).
Defined.

Lemma papers_response_one_entry_per_id_witness :
  (forall (A : Type) (cmp : A -> A -> Q) (l : list A),
     Permutation l (sampleSort A cmp l)) /\
  let response :=
    Api.papersResponse sampleDateValue sampleSort None sampleRows in
  NoDup (map entryId response) /\
  (forall p, In p response -> In (entryId p) (map rowId sampleRows)) /\
  (filterOff None ->
   forall row, In row sampleRows ->
     exists p, In p response /\ entryId p = rowId row).
Proof.
  split; [exact sampleSort_permutes |].
  exact (papers_response_one_entry_per_id sampleDateValue sampleSort
           sampleSort_permutes None sampleRows).
Defined.

Lemma papers_response_respects_min_score_witness :
  (forall (A : Type) (cmp : A -> A -> Q) (l : list A),
     Permutation l (sampleSort A cmp l)) /\
  0 < 1 # 2 /\
  In (Api.mkPaperWithMetrics (paperOf "2401.00001") (Some secondSnapshot))
    (Api.papersResponse sampleDateValue sampleSort (Some (1 # 2)) sampleRows) /\
  exists m,
    Api.metrics
      (Api.mkPaperWithMetrics (paperOf "2401.00001") (Some secondSnapshot))
    = Some m /\
    1 # 2 <= Api.engagement_score m.
Proof.
  assert (Hpos : 0 < 1 # 2) by reflexivity.
  assert (Hin :
    In (Api.mkPaperWithMetrics (paperOf "2401.00001") (Some secondSnapshot))
      (Api.papersResponse sampleDateValue sampleSort (Some (1 # 2)) sampleRows))
    by (left; reflexivity).
  split; [exact sampleSort_permutes |]. split; [exact Hpos |].
  split; [exact Hin |].
  exact (papers_response_respects_min_score sampleDateValue sampleSort
           sampleSort_permutes (1 # 2) sampleRows _ Hpos Hin).
Defined.

Lemma papers_response_of_distinct_rows_witness :
  NoDup (map rowId sampleRows) /\
  Api.papersResponse sampleDateValue sampleSort (Some (1 # 2)) sampleRows
  = sampleSort Api.PaperWithMetrics Api.byScoreDesc
      (if Js.gt (1 # 2) 0 then
         filter (fun p => match Api.metrics p with
                          | None => false
                          | Some m => Qle_bool (1 # 2) (Api.engagement_score m)
                          end) (map (entryOf sampleDateValue) sampleRows)
       else map (entryOf sampleDateValue) sampleRows).
Proof.
  assert (Hnd : NoDup (map rowId sampleRows)).
  { simpl. repeat constructor; simpl; intuition discriminate. }
  split; [exact Hnd |].
  exact (papers_response_of_distinct_rows sampleDateValue sampleSort
           (Some (1 # 2)) sampleRows Hnd).
Defined.

Lemma rising_rows_bounds_witness :
  (forall (A : Type) (cmp : A -> A -> Q) (l : list A),
     Permutation l (sampleSort A cmp l)) /\
  let positive :=
    filter (fun s => Js.gt s 0)
      (map (fun m => Api.engagement_score (Api.metric m)) sampleMetricRows) in
  let quota := Math_ceil (length_num positive * (1 # 10)) in
  let rising := Api.risingRows sampleSort sampleMetricRows in
  (Z.of_nat (List.length rising) <= quota)%Z /\
  (forall m, In m rising ->
     In m sampleMetricRows /\ 0 < Api.engagement_score (Api.metric m)) /\
  (positive = [] -> rising = []).
Proof.
  split; [exact sampleSort_permutes |].
  exact (rising_rows_bounds sampleSort sampleSort_permutes sampleMetricRows).
Defined.

